(** * Stripe webhook reconciliation: a shallow embedding of [StripeService]

    The development follows the service class of the payments module
    (the file with [handleWebhookEvent], [recordTransaction],
    [convertStripeTimestamp] and the thirteen event handlers).

    Conventions of the embedding:
    - a JavaScript value that the code inspects at run time ([typeof],
      truthiness) is a [JsValue];
    - a JavaScript [number] is [NaN], an infinity or a finite number, given
      by its exact rational value; the product in the timestamp converter
      is rounded to the nearest double as the engine rounds it; amounts
      in cents are integers far below 2^53 and their hundredths are kept
      exact;
    - a JavaScript string is a [string] whose characters are the code units
      below 256;
    - an [async] method is a computation in the monad [M]: it reads and
      writes the [World] (the five repositories, the clock, the environment)
      and either returns or throws;  what was written before a throw stays
      written, as it does in the database. *)

From Stdlib Require Import ZArith QArith Qabs Qround Bool List String Ascii Lia.
Import ListNotations.

Open Scope string_scope.

(* ================================================================== *)
(** ** JavaScript values, numbers, dates and strings *)

Module Js.

Inductive JsNumber : Type :=
| NaN
| Infinity (negative : bool)
| Finite (q : Q).

Inductive JsValue : Type :=
| VUndefined
| VNull
| VBoolean (b : bool)
| VNumber (n : JsNumber)
| VString (s : string)
| VObject.

(** [!!v] *)
Definition truthy (v : JsValue) : bool :=
  match v with
  | VUndefined | VNull => false
  | VBoolean b => b
  | VNumber NaN => false
  | VNumber (Infinity _) => true
  | VNumber (Finite q) => negb (Qeq_bool q 0)
  | VString s => negb (s =? "")
  | VObject => true
  end.

(** [typeof v === 'number'] *)
Definition typeofNumber (v : JsValue) : bool :=
  match v with VNumber _ => true | _ => false end.

(** [isNaN(n)] on a value whose type is already [number]. *)
Definition isNaN (n : JsNumber) : bool :=
  match n with NaN => true | _ => false end.

(** *** Rounding to a double

    [timestamp * 1000] is the one product whose rounding reaches a stored
    value, since [Date] truncates it to whole milliseconds.  It is the
    exact product rounded to the nearest double, ties to the even
    significand (IEEE 754 binary64: 53 bits, exponents from -1022 to 1023,
    gradual underflow, overflow to an infinity). *)

(** [floor (log2 (n / d))] *)
Definition binade (n d : positive) : Z :=
  let e := (Z.log2 (Zpos n) - Z.log2 (Zpos d))%Z in
  if (0 <=? e)%Z
  then (if (Zpos d * 2 ^ e <=? Zpos n)%Z then e else e - 1)%Z
  else (if (Zpos d <=? Zpos n * 2 ^ (- e))%Z then e else e - 1)%Z.

(** The integer nearest to [num / den], ties to the even one. *)
Definition roundDiv (num den : Z) : Z :=
  let m := (num / den)%Z in
  let r := (num mod den)%Z in
  if (2 * r <? den)%Z then m
  else if (den <? 2 * r)%Z then (m + 1)%Z
  else if Z.even m then m else (m + 1)%Z.

(** [n / d] in units of [2 ^ k], rounded to the nearest unit. *)
Definition nearestMultiple (k : Z) (n d : positive) : Z :=
  if (0 <=? k)%Z
  then roundDiv (Zpos n) (Zpos d * 2 ^ k)
  else roundDiv (Zpos n * 2 ^ (- k)) (Zpos d).

(** [m * 2 ^ k] *)
Definition scaled (m k : Z) : Q :=
  if (0 <=? k)%Z then inject_Z (m * 2 ^ k) else Qmake m (Z.to_pos (2 ^ (- k))).

(** The double nearest to the positive number [n / d]; [None] when the
    rounded value is beyond the largest double.  The unit of the last
    place is [2 ^ (e - 52)] for the binade [e] of the number, and
    [2 ^ (-1074)] below the normal range. *)
Definition roundMagnitude (n d : positive) : option Q :=
  let k := (Z.max (binade n d) (-1022) - 52)%Z in
  let m := nearestMultiple k n d in
  if (0 <=? k)%Z && (2 ^ 1024 <=? m * 2 ^ k)%Z then None else Some (scaled m k).

(** The double nearest to a rational number (the sign of a zero is not
    kept; [Date] gives both zeros the time value 0). *)
Definition roundToDouble (q : Q) : JsNumber :=
  match Qnum q with
  | Z0 => Finite 0
  | Zpos n =>
      match roundMagnitude n (Qden q) with
      | Some r => Finite r
      | None => Infinity false
      end
  | Zneg n =>
      match roundMagnitude n (Qden q) with
      | Some r => Finite (- r)
      | None => Infinity true
      end
  end.

(** [n * 1000] *)
Definition times1000 (n : JsNumber) : JsNumber :=
  match n with
  | NaN => NaN
  | Infinity s => Infinity s
  | Finite q => roundToDouble (q * 1000)
  end.

(** A [Date] object: a time value in milliseconds since the epoch, or
    the invalid date. *)
Inductive JsDate : Type :=
| ValidDate (ms : Z)
| InvalidDate.

Definition maxTime : Z := 8640000000000000.

(** Truncation towards zero (ToIntegerOrInfinity on a finite number). *)
Definition truncQ (q : Q) : Z := Z.quot (Qnum q) (Zpos (Qden q)).

(** [new Date(n)]: TimeClip of the number. *)
Definition newDateOf (n : JsNumber) : JsDate :=
  match n with
  | NaN | Infinity _ => InvalidDate
  | Finite q =>
      if Qle_bool (Qabs q) (inject_Z maxTime)
      then ValidDate (truncQ q)
      else InvalidDate
  end.

(** An [Error] object; only its message is ever inspected. *)
Record JsError : Type := mkError { message : string }.

Inductive Outcome (A : Type) : Type :=
| Returned (a : A)
| Thrown (e : JsError).
Arguments Returned {A} a.
Arguments Thrown {A} e.

(** [d.toISOString()] throws a RangeError on the invalid date; the text
    it returns otherwise is only logged. *)
Definition toISOString (d : JsDate) : Outcome unit :=
  match d with
  | ValidDate _ => Returned tt
  | InvalidDate => Thrown (mkError "Invalid time value")
  end.

(** *** Strings *)

Definition isLower (c : ascii) : bool :=
  let n := nat_of_ascii c in (97 <=? n)%nat && (n <=? 122)%nat.

(** The small letters of the upper half of the code units: U+00E0 to
    U+00FE without the division sign U+00F7. *)
Definition isLatinLower (c : ascii) : bool :=
  let n := nat_of_ascii c in
  (224 <=? n)%nat && (n <=? 254)%nat && negb (n =? 247)%nat.

Definition upperChar (c : ascii) : ascii :=
  if isLower c || isLatinLower c
  then ascii_of_nat (nat_of_ascii c - 32)
  else c.

(** [s.toUpperCase()]: a small letter becomes its capital, 32 code units
    below it, and the sharp s (U+00DF) becomes [SS].  The capitals of the
    micro sign (U+00B5) and of the y with diaeresis (U+00FF) are code
    units above 255, which the strings of this development do not have:
    these two are left as they are. *)
Fixpoint toUpperCase (s : string) : string :=
  match s with
  | EmptyString => EmptyString
  | String c r =>
      if (nat_of_ascii c =? 223)%nat
      then String "S" (String "S" (toUpperCase r))
      else String (upperChar c) (toUpperCase r)
  end.

(** [s.includes(p)] *)
Fixpoint includes (p s : string) : bool :=
  String.prefix p s ||
  match s with
  | EmptyString => false
  | String _ r => includes p r
  end.

(** Character classes of the regular expression in [handleWebhookEvent]. *)
Definition isSpace (c : ascii) : bool :=
  let n := nat_of_ascii c in
  ((9 <=? n)%nat && (n <=? 13)%nat) || (n =? 32)%nat || (n =? 160)%nat.

Definition isWord (c : ascii) : bool :=
  let n := nat_of_ascii c in
  ((48 <=? n)%nat && (n <=? 57)%nat)
  || ((65 <=? n)%nat && (n <=? 90)%nat)
  || (n =? 95)%nat
  || ((97 <=? n)%nat && (n <=? 122)%nat).

Fixpoint dropPrefix (p s : string) : option string :=
  match p, s with
  | EmptyString, _ => Some s
  | String a p', String b s' => if Ascii.eqb a b then dropPrefix p' s' else None
  | String _ _, EmptyString => None
  end.

Fixpoint skipSpaces (s : string) : string :=
  match s with
  | String c r => if isSpace c then skipSpaces r else s
  | EmptyString => s
  end.

Fixpoint takeWord (s : string) : string :=
  match s with
  | String c r => if isWord c then String c (takeWord r) else EmptyString
  | EmptyString => EmptyString
  end.

(** The match of [/event\.id:\s*(\w+)/] anchored at the start of [s]:
    the first capture group. *)
Definition matchEventIdHere (s : string) : option string :=
  match dropPrefix "event.id:" s with
  | None => None
  | Some r =>
      let w := takeWord (skipSpaces r) in
      if w =? "" then None else Some w
  end.

(** [s.match(/event\.id:\s*(\w+)/)?.[1]]: leftmost match. *)
Fixpoint matchEventId (s : string) : option string :=
  match matchEventIdHere s with
  | Some w => Some w
  | None =>
      match s with
      | EmptyString => None
      | String _ r => matchEventId r
      end
  end.

End Js.
Import Js.

(* ================================================================== *)
(** ** The timestamp converter *)

(** [convertStripeTimestamp]: the two [logger.debug] lines and the
    [logger.warn] write nothing the service reads back, but the second
    debug line evaluates [result.toISOString()], which throws on an
    invalid date. *)
Definition convertStripeTimestamp (timestamp : JsValue) : Outcome (option JsDate) :=
  match timestamp with
  | VNumber n =>
      if negb (truthy timestamp) || negb (typeofNumber timestamp) || isNaN n
      then Returned None
      else
        let result := newDateOf (times1000 n) in
        match toISOString result with
        | Thrown e => Thrown e
        | Returned _ => Returned (Some result)
        end
  | _ =>
      (* [!timestamp || typeof timestamp !== 'number'] holds *)
      Returned None
  end.


(* ================================================================== *)
(** ** Entities *)

(** Modelled from the spec: the declarations of [./entities] (the four
    enumerations and the entity classes) are not among the sources.  The
    enumerations are those of the data model; each entity has the fields
    that the service reads or writes. *)

Module TransactionStatus.
Inductive t : Type := COMPLETED | FAILED | CANCELLED | REFUNDED.
End TransactionStatus.

Module TransactionType.
Inductive t : Type := PAYMENT | SUBSCRIPTION | REFUND.
End TransactionType.

Module WebhookProcessingStatus.
Inductive t : Type := PENDING | COMPLETED | FAILED | RETRYING.

Definition eqb (a b : t) : bool :=
  match a, b with
  | PENDING, PENDING | COMPLETED, COMPLETED
  | FAILED, FAILED | RETRYING, RETRYING => true
  | _, _ => false
  end.
End WebhookProcessingStatus.

Module SubscriptionStatus.
Inductive t : Type :=
  TRIALING | ACTIVE | PAST_DUE | CANCELED | UNPAID | INCOMPLETE.

Definition eqb (a b : t) : bool :=
  match a, b with
  | TRIALING, TRIALING | ACTIVE, ACTIVE | PAST_DUE, PAST_DUE
  | CANCELED, CANCELED | UNPAID, UNPAID | INCOMPLETE, INCOMPLETE => true
  | _, _ => false
  end.
End SubscriptionStatus.

(** A field that holds either the identifier of a Stripe object or the
    expanded object itself ([string | Stripe.X]); of the expanded object
    only its [id] is read. *)
Inductive Expandable : Type :=
| AsId (id : string)
| AsObject (id : string).

Definition refId (r : Expandable) : string :=
  match r with AsId s => s | AsObject s => s end.

(** [typeof r === 'string'] *)
Definition isString (r : Expandable) : bool :=
  match r with AsId _ => true | AsObject _ => false end.

(** Truthiness of a nullable expandable field: [null] and the empty string
    are falsy. *)
Definition refTruthy (r : option Expandable) : bool :=
  match r with
  | None => false
  | Some (AsId s) => negb (s =? "")
  | Some (AsObject _) => true
  end.

(** [a || b] on nullable expandable fields. *)
Definition orRef (a b : option Expandable) : option Expandable :=
  if refTruthy a then a else b.

(** [s || d] on a nullable string. *)
Definition orString (s : option string) (d : string) : string :=
  match s with
  | Some x => if x =? "" then d else x
  | None => d
  end.

(** [n || 0] on a nullable integer. *)
Definition orZero (n : option Z) : Z :=
  match n with Some x => x | None => 0%Z end.

(** [cents / 100] *)
Definition div100 (cents : Z) : Q := inject_Z cents / 100.

(** The values stored in a [metadata] object. *)
Inductive MetaValue : Type :=
| MString (s : option string)
| MNumber (n : option Z)
| MRef (r : option Expandable)
| MValue (v : JsValue)
| MMap (m : list (string * string)).

Definition Metadata : Type := list (string * MetaValue).

Record UserEntity : Type := {
  user_id : string;
  stripeCustomerId : option string
}.

Record PaymentMethodEntity : Type := {
  pm_userId : string;
  pm_stripePaymentMethodId : string;
  pm_type : string;
  pm_last4 : string;
  pm_brand : string;
  pm_expMonth : Z;
  pm_expYear : Z;
  pm_isDefault : bool
}.

Record StripeTransactionEntity : Type := {
  tx_userId : string;
  tx_stripePaymentIntentId : option Expandable;
  tx_transactionType : TransactionType.t;
  tx_amount : Q;
  tx_currency : string;
  tx_status : TransactionStatus.t;
  tx_description : string;
  tx_metadata : Metadata;
  tx_failureReason : option string;
  tx_stripeFee : option Q;
  tx_netAmount : option Q;
  tx_processedAt : option JsDate
}.

(** [rawPayload] is written once and never read; it is left out. *)
Record WebhookEventEntity : Type := {
  we_stripeEventId : string;
  we_eventType : string;
  we_processingStatus : WebhookProcessingStatus.t;
  we_retryCount : Z;
  we_processedAt : option JsDate;
  we_errorMessage : option string
}.

(** [sub_id] is the primary key: [None] on an entity made with [new] and
    not saved yet. *)
Record UserSubscriptionEntity : Type := {
  sub_id : option nat;
  sub_userId : string;
  sub_stripeSubscriptionId : string;
  sub_status : SubscriptionStatus.t;
  sub_planId : option string;
  sub_planName : string;
  sub_amount : Q;
  sub_currency : string;
  sub_interval : string;
  sub_intervalCount : Z;
  sub_currentPeriodStart : option JsDate;
  sub_currentPeriodEnd : option JsDate;
  sub_trialStartDate : option JsDate;
  sub_trialEndDate : option JsDate;
  sub_failedPaymentCount : Z;
  sub_canceledAt : option JsDate;
  sub_endedAt : option JsDate;
  sub_metadata : list (string * string)
}.

(* ================================================================== *)
(** ** Stripe payloads *)

(** The objects of the Stripe SDK, with the fields the handlers read.
    Amounts are integers in the minor unit; the epoch fields that go
    through [convertStripeTimestamp] stay raw values, since the converter
    tests their type at run time. *)

Module Stripe.

Record CheckoutSession : Type := {
  cs_id : string;
  cs_customer : option Expandable;
  cs_payment_intent : option Expandable;
  cs_subscription : option Expandable;
  cs_mode : string;
  cs_amount_total : option Z;
  cs_currency : option string;
  cs_customer_email : option string
}.

Record Invoice : Type := {
  inv_id : string;
  inv_customer : option Expandable;
  inv_subscription : option Expandable;
  inv_payment_intent : option Expandable;
  inv_amount_paid : Z;
  inv_amount_due : Z;
  inv_currency : string;
  inv_number : option string;
  inv_period_start : JsValue;
  inv_period_end : JsValue;
  inv_attempt_count : Z;
  inv_next_payment_attempt : option Z
}.

Record BalanceTransaction : Type := {
  bt_fee : Z;
  bt_net : Z
}.

(** [charge.balance_transaction]: [string | BalanceTransaction | null]. *)
Inductive BalanceTransactionRef : Type :=
| BtNull
| BtId (id : string)
| BtObject (bt : BalanceTransaction).

(** [paymentIntent.latest_charge]: [string | Charge | null]; of the
    expanded charge only [balance_transaction] is read. *)
Inductive LatestCharge : Type :=
| ChNull
| ChId (id : string)
| ChObject (balance_transaction : BalanceTransactionRef).

Record PaymentError : Type := {
  pe_message : option string;
  pe_code : option string
}.

Record PaymentIntent : Type := {
  pi_id : string;
  pi_customer : option Expandable;
  pi_invoice : option Expandable;
  pi_amount : Z;
  pi_currency : string;
  pi_description : option string;
  pi_payment_method : option Expandable;
  pi_metadata : list (string * string);
  pi_last_payment_error : option PaymentError;
  pi_cancellation_reason : option string;
  pi_latest_charge : LatestCharge
}.

Record Refund : Type := {
  rf_id : string;
  rf_amount : Z;
  rf_reason : option string;
  rf_status : option string
}.

Record Charge : Type := {
  ch_id : string;
  ch_customer : option Expandable;
  ch_payment_intent : option Expandable;
  ch_amount_refunded : Z;
  ch_currency : string;
  ch_refunds : list Refund;
  ch_metadata : list (string * string)
}.

Record Card : Type := {
  card_last4 : string;
  card_brand : string;
  card_exp_month : Z;
  card_exp_year : Z
}.

Record PaymentMethod : Type := {
  pm_id : string;
  pm_customer : option Expandable;
  pm_kind : string;
  pm_card : option Card
}.

(** [price.product]: [string | Product | DeletedProduct]. *)
Inductive ProductRef : Type :=
| ProductId (id : string)
| ProductObject (name : option string) (id : option string).

Record Recurring : Type := {
  rec_interval : string;
  rec_interval_count : Z
}.

Record Price : Type := {
  price_id : string;
  price_unit_amount : option Z;
  price_currency : option string;
  price_nickname : option string;
  price_product : option ProductRef;
  price_recurring : option Recurring
}.

Record SubscriptionItem : Type := {
  item_price : Price;
  item_current_period_start : JsValue;
  item_current_period_end : JsValue
}.

Record Subscription : Type := {
  s_id : string;
  s_customer : Expandable;
  s_status : string;
  s_items : list SubscriptionItem;
  s_billing_cycle_anchor : JsValue;
  s_created : JsValue;
  s_trial_start : JsValue;
  s_trial_end : JsValue;
  s_canceled_at : JsValue;
  s_ended_at : JsValue;
  s_metadata : list (string * string)
}.

(** [Stripe.Event] is a union discriminated by [type]: the object under
    [data.object] is the one that belongs to the type tag.  [OtherEvent]
    stands for the types that the [switch] of [handleWebhookEvent] does not
    list. *)
Inductive EventData : Type :=
| CheckoutSessionCompleted (session : CheckoutSession)
| InvoicePaymentSucceeded (invoice : Invoice)
| InvoicePaymentFailed (invoice : Invoice)
| InvoiceUpcoming (invoice : Invoice)
| PaymentMethodAttached (paymentMethod : PaymentMethod)
| CustomerSubscriptionCreated (subscription : Subscription)
| CustomerSubscriptionUpdated (subscription : Subscription)
| CustomerSubscriptionDeleted (subscription : Subscription)
| CustomerSubscriptionTrialWillEnd (subscription : Subscription)
| PaymentIntentSucceeded (paymentIntent : PaymentIntent)
| PaymentIntentCreated (paymentIntent : PaymentIntent)
| PaymentIntentPaymentFailed (paymentIntent : PaymentIntent)
| PaymentIntentCanceled (paymentIntent : PaymentIntent)
| ChargeRefunded (charge : Charge)
| OtherEvent (type : string).

Definition eventType (d : EventData) : string :=
  match d with
  | CheckoutSessionCompleted _ => "checkout.session.completed"
  | InvoicePaymentSucceeded _ => "invoice.payment_succeeded"
  | InvoicePaymentFailed _ => "invoice.payment_failed"
  | InvoiceUpcoming _ => "invoice.upcoming"
  | PaymentMethodAttached _ => "payment_method.attached"
  | CustomerSubscriptionCreated _ => "customer.subscription.created"
  | CustomerSubscriptionUpdated _ => "customer.subscription.updated"
  | CustomerSubscriptionDeleted _ => "customer.subscription.deleted"
  | CustomerSubscriptionTrialWillEnd _ => "customer.subscription.trial_will_end"
  | PaymentIntentSucceeded _ => "payment_intent.succeeded"
  | PaymentIntentCreated _ => "payment_intent.created"
  | PaymentIntentPaymentFailed _ => "payment_intent.payment_failed"
  | PaymentIntentCanceled _ => "payment_intent.canceled"
  | ChargeRefunded _ => "charge.refunded"
  | OtherEvent t => t
  end.

Record Event : Type := {
  ev_id : string;
  ev_data : EventData
}.

End Stripe.
Import Stripe.

(* ================================================================== *)
(** ** The world of the service: repositories, clock, environment *)

(** Ghost names of the handler methods, recorded on entry (each handler
    starts with a [logger] line of its own). *)
Inductive HandlerName : Type :=
| HCheckoutSessionCompleted
| HInvoicePaymentSucceeded
| HPaymentMethodAttached
| HPaymentIntentSucceeded
| HPaymentIntentFailed
| HPaymentIntentCanceled
| HChargeRefunded
| HInvoicePaymentFailed
| HInvoiceUpcoming
| HSubscriptionCreated
| HSubscriptionUpdated
| HSubscriptionDeleted
| HSubscriptionTrialWillEnd.

Record Database : Type := {
  users : list UserEntity;
  paymentMethods : list PaymentMethodEntity;
  transactions : list StripeTransactionEntity;
  webhookEvents : list WebhookEventEntity;
  subscriptions : list UserSubscriptionEntity
}.

(** - [env_logging] is [process.env.STRIPE_WEBHOOK_LOGGING_ENABLED];
    - [clock] gives the time of the n-th [new Date()], [clockReads] counts
      the reads so far;
    - [paymentIntents_retrieve id expand] is the answer of the Stripe API to
      [stripe.paymentIntents.retrieve] (the flag tells whether
      [latest_charge] is asked expanded);
    - [uniqueStripeEventId]: whether the table of webhook events (declared
      outside the sources) refuses a second row with the same
      [stripeEventId];
    - [dbFailAfter = Some n]: the database answers [n] more calls and fails
      from then on; [None]: it never fails;
    - [calls]: the ghost trace of handler entries, latest first. *)
Record World : Type := {
  env_logging : option string;
  clock : nat -> Z;
  paymentIntents_retrieve : string -> bool -> Outcome PaymentIntent;
  uniqueStripeEventId : bool;
  db : Database;
  clockReads : nat;
  dbFailAfter : option nat;
  calls : list HandlerName
}.

Definition setDb (w : World) (d : Database) : World :=
  {| env_logging := env_logging w; clock := clock w;
     paymentIntents_retrieve := paymentIntents_retrieve w;
     uniqueStripeEventId := uniqueStripeEventId w;
     db := d; clockReads := clockReads w;
     dbFailAfter := dbFailAfter w; calls := calls w |}.

Definition setClockReads (w : World) (n : nat) : World :=
  {| env_logging := env_logging w; clock := clock w;
     paymentIntents_retrieve := paymentIntents_retrieve w;
     uniqueStripeEventId := uniqueStripeEventId w;
     db := db w; clockReads := n;
     dbFailAfter := dbFailAfter w; calls := calls w |}.

Definition setDbFailAfter (w : World) (f : option nat) : World :=
  {| env_logging := env_logging w; clock := clock w;
     paymentIntents_retrieve := paymentIntents_retrieve w;
     uniqueStripeEventId := uniqueStripeEventId w;
     db := db w; clockReads := clockReads w;
     dbFailAfter := f; calls := calls w |}.

Definition setCalls (w : World) (c : list HandlerName) : World :=
  {| env_logging := env_logging w; clock := clock w;
     paymentIntents_retrieve := paymentIntents_retrieve w;
     uniqueStripeEventId := uniqueStripeEventId w;
     db := db w; clockReads := clockReads w;
     dbFailAfter := dbFailAfter w; calls := c |}.

Definition setPaymentMethods (d : Database) (l : list PaymentMethodEntity) : Database :=
  {| users := users d; paymentMethods := l; transactions := transactions d;
     webhookEvents := webhookEvents d; subscriptions := subscriptions d |}.

Definition setTransactions (d : Database) (l : list StripeTransactionEntity) : Database :=
  {| users := users d; paymentMethods := paymentMethods d; transactions := l;
     webhookEvents := webhookEvents d; subscriptions := subscriptions d |}.

Definition setWebhookEvents (d : Database) (l : list WebhookEventEntity) : Database :=
  {| users := users d; paymentMethods := paymentMethods d;
     transactions := transactions d;
     webhookEvents := l; subscriptions := subscriptions d |}.

Definition setSubscriptions (d : Database) (l : list UserSubscriptionEntity) : Database :=
  {| users := users d; paymentMethods := paymentMethods d;
     transactions := transactions d;
     webhookEvents := webhookEvents d; subscriptions := l |}.

(** *** The monad of [async] methods *)

Definition M (A : Type) : Type := World -> Outcome A * World.

Definition ret {A} (a : A) : M A := fun w => (Returned a, w).

Definition throw {A} (e : JsError) : M A := fun w => (Thrown e, w).

Definition bind {A B} (m : M A) (k : A -> M B) : M B :=
  fun w =>
    match m w with
    | (Returned a, w') => k a w'
    | (Thrown e, w') => (Thrown e, w')
    end.

(** [try { m } catch (error) { h error }] *)
Definition tryCatch {A} (m : M A) (h : JsError -> M A) : M A :=
  fun w =>
    match m w with
    | (Returned a, w') => (Returned a, w')
    | (Thrown e, w') => h e w'
    end.

Definition liftOutcome {A} (o : Outcome A) : M A := fun w => (o, w).

Notation "x <- m ;; k" := (bind m (fun x => k))
  (at level 61, m at next level, right associativity).
Notation "m ;;; k" := (bind m (fun _ => k))
  (at level 61, right associativity).

(** [new Date()] *)
Definition newDate : M JsDate :=
  fun w => (Returned (ValidDate (clock w (clockReads w))),
            setClockReads w (S (clockReads w))).

(** [process.env.STRIPE_WEBHOOK_LOGGING_ENABLED === 'true'] *)
Definition webhookLoggingEnabled : M bool :=
  fun w => (Returned (match env_logging w with
                      | Some v => v =? "true"
                      | None => false
                      end), w).

Definition enter (h : HandlerName) : M unit :=
  fun w => (Returned tt, setCalls w (h :: calls w)).

(** One call to the database. *)
Definition dbCall : M unit :=
  fun w =>
    match dbFailAfter w with
    | None => (Returned tt, w)
    | Some (S n) => (Returned tt, setDbFailAfter w (Some n))
    | Some O => (Thrown (mkError "Connection terminated unexpectedly"), w)
    end.

Definition getDb : M Database := fun w => (Returned (db w), w).
Definition putDb (d : Database) : M unit := fun w => (Returned tt, setDb w d).

(** *** Repositories *)

Definition hasCustomer (customerId : string) (u : UserEntity) : bool :=
  match stripeCustomerId u with
  | Some c => c =? customerId
  | None => false
  end.

(** [userRepository.findOne({ where: { stripeCustomerId } })] *)
Definition userRepository_findOne (customerId : string) : M (option UserEntity) :=
  dbCall ;;;
  d <- getDb ;;
  ret (find (hasCustomer customerId) (users d)).

Definition hasSubscriptionId (sid : string) (s : UserSubscriptionEntity) : bool :=
  sub_stripeSubscriptionId s =? sid.

(** [subscriptionRepository.findOne({ where: { stripeSubscriptionId } })] *)
Definition subscriptionRepository_findOne (sid : string)
  : M (option UserSubscriptionEntity) :=
  dbCall ;;;
  d <- getDb ;;
  ret (find (hasSubscriptionId sid) (subscriptions d)).

Definition hasKey (k : nat) (s : UserSubscriptionEntity) : bool :=
  match sub_id s with
  | Some i => Nat.eqb i k
  | None => false
  end.

Definition withKey (k : nat) (s : UserSubscriptionEntity) : UserSubscriptionEntity :=
  {| sub_id := Some k; sub_userId := sub_userId s;
     sub_stripeSubscriptionId := sub_stripeSubscriptionId s;
     sub_status := sub_status s; sub_planId := sub_planId s;
     sub_planName := sub_planName s; sub_amount := sub_amount s;
     sub_currency := sub_currency s; sub_interval := sub_interval s;
     sub_intervalCount := sub_intervalCount s;
     sub_currentPeriodStart := sub_currentPeriodStart s;
     sub_currentPeriodEnd := sub_currentPeriodEnd s;
     sub_trialStartDate := sub_trialStartDate s;
     sub_trialEndDate := sub_trialEndDate s;
     sub_failedPaymentCount := sub_failedPaymentCount s;
     sub_canceledAt := sub_canceledAt s; sub_endedAt := sub_endedAt s;
     sub_metadata := sub_metadata s |}.

Definition replaceRow (k : nat) (s : UserSubscriptionEntity)
  (rows : list UserSubscriptionEntity) : list UserSubscriptionEntity :=
  map (fun r => if hasKey k r then s else r) rows.

(** The key that the table gives to the next new row: one above the
    largest key in use. *)
Definition nextKey (rows : list UserSubscriptionEntity) : nat :=
  fold_right (fun r k => match sub_id r with
                         | Some i => Nat.max (S i) k
                         | None => k
                         end) 0%nat rows.

(** [subscriptionRepository.save(entity)]: an entity without a primary key
    is inserted under a fresh one; an entity with the key of a stored row
    overwrites that row. *)
Definition subscriptionRepository_save (s : UserSubscriptionEntity) : M unit :=
  dbCall ;;;
  d <- getDb ;;
  let rows := subscriptions d in
  match sub_id s with
  | Some k =>
      if existsb (hasKey k) rows
      then putDb (setSubscriptions d (replaceRow k s rows))
      else putDb (setSubscriptions d (rows ++ [s])%list)
  | None =>
      putDb (setSubscriptions d (rows ++ [withKey (nextKey rows) s])%list)
  end.

(** [transactionRepository.save(transaction)] of a new entity. *)
Definition transactionRepository_save (t : StripeTransactionEntity)
  : M StripeTransactionEntity :=
  dbCall ;;;
  d <- getDb ;;
  putDb (setTransactions d (transactions d ++ [t])%list) ;;;
  ret t.

(** [paymentMethodRepository.save(paymentMethod)] of a new entity. *)
Definition paymentMethodRepository_save (p : PaymentMethodEntity)
  : M PaymentMethodEntity :=
  dbCall ;;;
  d <- getDb ;;
  putDb (setPaymentMethods d (paymentMethods d ++ [p])%list) ;;;
  ret p.

Definition hasEventId (eventId : string) (e : WebhookEventEntity) : bool :=
  we_stripeEventId e =? eventId.

(** The error of the store on a second row with a unique value. *)
Definition duplicateKey : JsError :=
  mkError "duplicate key value violates unique constraint".

(** [webhookEventRepository.save(webhookEvent)] of a new entity: always an
    insert; it is refused when the table keeps [stripeEventId] unique and
    a row with that id is stored. *)
Definition webhookEventRepository_save (e : WebhookEventEntity)
  : M WebhookEventEntity :=
  dbCall ;;;
  d <- getDb ;;
  w <- (fun w => (Returned w, w)) ;;
  if uniqueStripeEventId w && existsb (hasEventId (we_stripeEventId e)) (webhookEvents d)
  then throw duplicateKey
  else
    putDb (setWebhookEvents d (webhookEvents d ++ [e])%list) ;;;
    ret e.

Definition incrementRetry (e : WebhookEventEntity) : WebhookEventEntity :=
  {| we_stripeEventId := we_stripeEventId e; we_eventType := we_eventType e;
     we_processingStatus := we_processingStatus e;
     we_retryCount := we_retryCount e + 1;
     we_processedAt := we_processedAt e;
     we_errorMessage := we_errorMessage e |}.

(** [webhookEventRepository.increment({ stripeEventId }, 'retryCount', 1)] *)
Definition webhookEventRepository_increment (eventId : string) : M unit :=
  dbCall ;;;
  d <- getDb ;;
  putDb (setWebhookEvents d
           (map (fun e => if hasEventId eventId e then incrementRetry e else e)
                (webhookEvents d))).

(** The [Partial<WebhookEventEntity>] of [updateWebhookEventStatus]; a
    property that is [undefined] is left out of the SQL update. *)
Record WebhookEventUpdate : Type := {
  upd_processingStatus : WebhookProcessingStatus.t;
  upd_errorMessage : option string;
  upd_processedAt : option JsDate
}.

Definition applyUpdate (u : WebhookEventUpdate) (e : WebhookEventEntity)
  : WebhookEventEntity :=
  {| we_stripeEventId := we_stripeEventId e; we_eventType := we_eventType e;
     we_processingStatus := upd_processingStatus u;
     we_retryCount := we_retryCount e;
     we_processedAt :=
       match upd_processedAt u with
       | Some d => Some d
       | None => we_processedAt e
       end;
     we_errorMessage :=
       match upd_errorMessage u with
       | Some m => Some m
       | None => we_errorMessage e
       end |}.

(** [webhookEventRepository.update({ stripeEventId }, updateData)] *)
Definition webhookEventRepository_update (eventId : string)
  (u : WebhookEventUpdate) : M unit :=
  dbCall ;;;
  d <- getDb ;;
  putDb (setWebhookEvents d
           (map (fun e => if hasEventId eventId e then applyUpdate u e else e)
                (webhookEvents d))).

(* ================================================================== *)
(** ** The service *)

(** A method body of the form [try { body } catch (error) { log; throw
    error }] has the outcomes of [body]; the wrapper is left out below. *)

(** [stripe.paymentIntents.retrieve(id, { expand: ['latest_charge'] })]
    when [expand], [stripe.paymentIntents.retrieve(id)] otherwise. *)
Definition stripeRetrieve (id : string) (expand : bool) : M PaymentIntent :=
  fun w => (paymentIntents_retrieve w id expand, w).

(** The entity that [recordTransaction] hands to
    [transactionRepository.create]. *)
Definition transactionOf
  (userId : string) (stripePaymentIntentId : option Expandable)
  (type : TransactionType.t) (amount : Q) (currency : string)
  (status : TransactionStatus.t) (description : string) (metadata : Metadata)
  (failureReason : option string) (stripeFee netAmount : option Q)
  (processedAt : option JsDate) : StripeTransactionEntity :=
  {| tx_userId := userId;
     tx_stripePaymentIntentId := stripePaymentIntentId;
     tx_transactionType := type;
     tx_amount := amount;
     tx_currency := toUpperCase currency;
     tx_status := status;
     tx_description := description;
     tx_metadata := metadata;
     tx_failureReason := failureReason;
     tx_stripeFee := stripeFee;
     tx_netAmount := netAmount;
     tx_processedAt := processedAt |}.

Definition recordTransaction
  (userId : string) (stripePaymentIntentId : option Expandable)
  (type : TransactionType.t) (amount : Q) (currency : string)
  (status : TransactionStatus.t) (description : string) (metadata : Metadata)
  (failureReason : option string) (stripeFee netAmount : option Q)
  (processedAt : option JsDate) : M StripeTransactionEntity :=
  let transaction :=
    transactionOf userId stripePaymentIntentId type amount currency status
      description metadata failureReason stripeFee netAmount processedAt in
  savedTransaction <- transactionRepository_save transaction ;;
  ret savedTransaction.

Definition savePaymentMethod (userId stripePaymentMethodId type : string)
  (card : Card) : M PaymentMethodEntity :=
  let paymentMethod :=
    {| pm_userId := userId;
       pm_stripePaymentMethodId := stripePaymentMethodId;
       pm_type := type;
       pm_last4 := card_last4 card;
       pm_brand := card_brand card;
       pm_expMonth := card_exp_month card;
       pm_expYear := card_exp_year card;
       pm_isDefault := false |} in
  paymentMethodRepository_save paymentMethod.

Definition logWebhookEvent (stripeEventId eventType : string)
  : M (option WebhookEventEntity) :=
  enabled <- webhookLoggingEnabled ;;
  if negb enabled then ret None
  else
    let webhookEvent :=
      {| we_stripeEventId := stripeEventId;
         we_eventType := eventType;
         we_processingStatus := WebhookProcessingStatus.PENDING;
         we_retryCount := 0;
         we_processedAt := None;
         we_errorMessage := None |} in
    savedEvent <- webhookEventRepository_save webhookEvent ;;
    ret (Some savedEvent).

Definition updateWebhookEventStatus (eventId : string)
  (status : WebhookProcessingStatus.t) (errorMessage : option string)
  : M unit :=
  enabled <- webhookLoggingEnabled ;;
  if negb enabled then ret tt
  else
    processedAt <-
      (if WebhookProcessingStatus.eqb status WebhookProcessingStatus.COMPLETED
       then d <- newDate ;; ret (Some d)
       else ret None) ;;
    let updateData :=
      {| upd_processingStatus := status;
         upd_errorMessage := errorMessage;
         upd_processedAt := processedAt |} in
    (if WebhookProcessingStatus.eqb status WebhookProcessingStatus.FAILED
        || WebhookProcessingStatus.eqb status WebhookProcessingStatus.RETRYING
     then webhookEventRepository_increment eventId
     else ret tt) ;;;
    webhookEventRepository_update eventId updateData.

(** The customer of a payload, when the field is truthy:
    [typeof c === 'string' ? c : c.id]. *)
Definition customerIdOf (customer : option Expandable) : option string :=
  if refTruthy customer then option_map refId customer else None.

Definition handleCheckoutSessionCompleted (session : CheckoutSession) : M unit :=
  enter HCheckoutSessionCompleted ;;;
  match customerIdOf (cs_customer session) with
  | Some customerId =>
      user <- userRepository_findOne customerId ;;
      match user with
      | Some user =>
          recordTransaction
            (user_id user)
            (orRef (cs_payment_intent session)
               (orRef (cs_subscription session) (Some (AsId (cs_id session)))))
            (if cs_mode session =? "subscription"
             then TransactionType.SUBSCRIPTION else TransactionType.PAYMENT)
            (inject_Z (orZero (cs_amount_total session)))
            (orString (cs_currency session) "usd")
            TransactionStatus.COMPLETED
            ("Checkout session completed - " ++ cs_mode session)
            [("sessionId", MString (Some (cs_id session)));
             ("mode", MString (Some (cs_mode session)));
             ("customerEmail", MString (cs_customer_email session))]
            None None None None ;;;
          ret tt
      | None => ret tt
      end
  | None => ret tt
  end.

(** The settlement object behind a retrieved payment intent: the expanded
    balance transaction of its expanded latest charge. *)
Definition balanceTransactionOf (paymentIntent : PaymentIntent)
  : option BalanceTransaction :=
  match pi_latest_charge paymentIntent with
  | ChObject (BtObject balanceTransaction) => Some balanceTransaction
  | _ => None
  end.

(** The [try] block that both success handlers run after setting
    [stripeFee = 0] and [netAmount = gross]: it returns the pair
    [(stripeFee, netAmount)] that holds after it. *)
Definition feeAndNet (paymentIntentId : string) (gross : Q) : M (Q * Q) :=
  tryCatch
    (paymentIntent <- stripeRetrieve paymentIntentId true ;;
     match balanceTransactionOf paymentIntent with
     | Some balanceTransaction =>
         ret (div100 (bt_fee balanceTransaction),
              div100 (bt_net balanceTransaction))
     | None => ret (0, gross)
     end)
    (fun _ => ret (0, gross)).

Definition showOption (s : option string) : string :=
  match s with Some x => x | None => "null" end.

Definition handleInvoicePaymentSucceeded (invoice : Invoice) : M unit :=
  enter HInvoicePaymentSucceeded ;;;
  match customerIdOf (inv_customer invoice) with
  | Some customerId =>
      user <- userRepository_findOne customerId ;;
      match user with
      | Some user =>
          (* [(invoice.amount_paid || 0) / 100]; [x || 0] is [x] on a number *)
          let gross := div100 (inv_amount_paid invoice) in
          fn <-
            match inv_payment_intent invoice with
            | Some (AsId pid) =>
                if refTruthy (inv_payment_intent invoice)
                then feeAndNet pid gross
                else ret (0, gross)
            | _ => ret (0, gross)
            end ;;
          processedAt <- newDate ;;
          recordTransaction
            (user_id user)
            (orRef (inv_payment_intent invoice) (Some (AsId (inv_id invoice))))
            TransactionType.SUBSCRIPTION
            (div100 (inv_amount_paid invoice))
            (orString (Some (inv_currency invoice)) "usd")
            TransactionStatus.COMPLETED
            ("Invoice payment succeeded - " ++ showOption (inv_number invoice))
            [("invoiceId", MString (Some (inv_id invoice)));
             ("invoiceNumber", MString (inv_number invoice));
             ("subscriptionId", MRef (inv_subscription invoice));
             ("periodStart", MValue (inv_period_start invoice));
             ("periodEnd", MValue (inv_period_end invoice))]
            None (Some (fst fn)) (Some (snd fn)) (Some processedAt) ;;;
          ret tt
      | None => ret tt
      end
  | None => ret tt
  end.

Definition handlePaymentMethodAttached (paymentMethod : PaymentMethod) : M unit :=
  enter HPaymentMethodAttached ;;;
  match customerIdOf (pm_customer paymentMethod) with
  | Some customerId =>
      user <- userRepository_findOne customerId ;;
      match user, pm_card paymentMethod with
      | Some user, Some card =>
          savePaymentMethod (user_id user) (pm_id paymentMethod)
            (pm_kind paymentMethod) card ;;;
          ret tt
      | _, _ => ret tt
      end
  | None => ret tt
  end.

Definition handlePaymentIntentSucceeded (paymentIntent : PaymentIntent) : M unit :=
  enter HPaymentIntentSucceeded ;;;
  match customerIdOf (pi_customer paymentIntent) with
  | Some customerId =>
      user <- userRepository_findOne customerId ;;
      match user with
      | Some user =>
          let isSubscriptionPayment := refTruthy (pi_invoice paymentIntent) in
          if negb isSubscriptionPayment then
            fn <- feeAndNet (pi_id paymentIntent) (div100 (pi_amount paymentIntent)) ;;
            processedAt <- newDate ;;
            recordTransaction
              (user_id user)
              (Some (AsId (pi_id paymentIntent)))
              TransactionType.PAYMENT
              (div100 (pi_amount paymentIntent))
              (pi_currency paymentIntent)
              TransactionStatus.COMPLETED
              (orString (pi_description paymentIntent) "Payment completed")
              [("paymentMethodId", MRef (pi_payment_method paymentIntent));
               ("metadata", MMap (pi_metadata paymentIntent))]
              None (Some (fst fn)) (Some (snd fn)) (Some processedAt) ;;;
            ret tt
          else ret tt
      | None => ret tt
      end
  | None => ret tt
  end.

Definition handlePaymentIntentFailed (paymentIntent : PaymentIntent) : M unit :=
  enter HPaymentIntentFailed ;;;
  match customerIdOf (pi_customer paymentIntent) with
  | Some customerId =>
      user <- userRepository_findOne customerId ;;
      match user with
      | Some user =>
          recordTransaction
            (user_id user)
            (Some (AsId (pi_id paymentIntent)))
            TransactionType.PAYMENT
            (div100 (pi_amount paymentIntent))
            (pi_currency paymentIntent)
            TransactionStatus.FAILED
            (orString (pi_description paymentIntent) "Payment failed")
            [("paymentMethodId", MRef (pi_payment_method paymentIntent));
             ("failureCode",
               MString (match pi_last_payment_error paymentIntent with
                        | Some e => pe_code e | None => None end));
             ("failureMessage",
               MString (match pi_last_payment_error paymentIntent with
                        | Some e => pe_message e | None => None end));
             ("metadata", MMap (pi_metadata paymentIntent))]
            None None None None ;;;
          ret tt
      | None => ret tt
      end
  | None => ret tt
  end.

Definition handlePaymentIntentCanceled (paymentIntent : PaymentIntent) : M unit :=
  enter HPaymentIntentCanceled ;;;
  match customerIdOf (pi_customer paymentIntent) with
  | Some customerId =>
      user <- userRepository_findOne customerId ;;
      match user with
      | Some user =>
          recordTransaction
            (user_id user)
            (Some (AsId (pi_id paymentIntent)))
            TransactionType.PAYMENT
            (div100 (pi_amount paymentIntent))
            (pi_currency paymentIntent)
            TransactionStatus.CANCELLED
            (orString (pi_description paymentIntent) "Payment canceled")
            [("paymentMethodId", MRef (pi_payment_method paymentIntent));
             ("cancellationReason",
               MString (pi_cancellation_reason paymentIntent));
             ("metadata", MMap (pi_metadata paymentIntent))]
            None None None None ;;;
          ret tt
      | None => ret tt
      end
  | None => ret tt
  end.

Definition handleChargeRefunded (charge : Charge) : M unit :=
  enter HChargeRefunded ;;;
  match customerIdOf (ch_customer charge) with
  | Some customerId =>
      user <- userRepository_findOne customerId ;;
      match user with
      | Some user =>
          let refund := hd_error (ch_refunds charge) in
          let refundAmount :=
            match refund with
            | Some r => div100 (rf_amount r)
            | None => div100 (ch_amount_refunded charge)
            end in
          recordTransaction
            (user_id user)
            (orRef (ch_payment_intent charge) (Some (AsId (ch_id charge))))
            TransactionType.REFUND
            refundAmount
            (ch_currency charge)
            TransactionStatus.REFUNDED
            ("Refund for charge " ++ ch_id charge)
            [("originalChargeId", MString (Some (ch_id charge)));
             ("refundId", MString (option_map rf_id refund));
             ("refundReason",
               MString (match refund with Some r => rf_reason r | None => None end));
             ("refundStatus",
               MString (match refund with Some r => rf_status r | None => None end));
             ("metadata", MMap (ch_metadata charge))]
            None None None None ;;;
          ret tt
      | None => ret tt
      end
  | None => ret tt
  end.

Definition setFailedPayment (s : UserSubscriptionEntity)
  (count : Z) (status : SubscriptionStatus.t) : UserSubscriptionEntity :=
  {| sub_id := sub_id s; sub_userId := sub_userId s;
     sub_stripeSubscriptionId := sub_stripeSubscriptionId s;
     sub_status := status; sub_planId := sub_planId s;
     sub_planName := sub_planName s; sub_amount := sub_amount s;
     sub_currency := sub_currency s; sub_interval := sub_interval s;
     sub_intervalCount := sub_intervalCount s;
     sub_currentPeriodStart := sub_currentPeriodStart s;
     sub_currentPeriodEnd := sub_currentPeriodEnd s;
     sub_trialStartDate := sub_trialStartDate s;
     sub_trialEndDate := sub_trialEndDate s;
     sub_failedPaymentCount := count;
     sub_canceledAt := sub_canceledAt s; sub_endedAt := sub_endedAt s;
     sub_metadata := sub_metadata s |}.

(** The two assignments of [handleInvoicePaymentFailed] on the entity it
    found: [failedPaymentCount += 1], then [status = PAST_DUE] when the
    count is 1. *)
Definition markPaymentFailed (subscription : UserSubscriptionEntity)
  : UserSubscriptionEntity :=
  let count := (sub_failedPaymentCount subscription + 1)%Z in
  setFailedPayment subscription count
    (if (count =? 1)%Z then SubscriptionStatus.PAST_DUE
     else sub_status subscription).

(** [message || code || 'Payment failed'] *)
Definition failureText (e : PaymentError) : string :=
  orString (pe_message e) (orString (pe_code e) "Payment failed").

Definition failureReasonOf (invoice : Invoice) : M string :=
  match inv_payment_intent invoice with
  | Some (AsId pid) =>
      if refTruthy (inv_payment_intent invoice) then
        tryCatch
          (paymentIntent <- stripeRetrieve pid false ;;
           match pi_last_payment_error paymentIntent with
           | Some e => ret (failureText e)
           | None => ret "Unknown failure reason"
           end)
          (fun _ => ret "Unknown failure reason")
      else ret "Unknown failure reason"
  | _ => ret "Unknown failure reason"
  end.

Definition handleInvoicePaymentFailed (invoice : Invoice) : M unit :=
  enter HInvoicePaymentFailed ;;;
  match customerIdOf (inv_customer invoice) with
  | Some customerId =>
      user <- userRepository_findOne customerId ;;
      match user with
      | Some user =>
          (if refTruthy (inv_subscription invoice) then
             match inv_subscription invoice with
             | Some ref =>
                 subscription <- subscriptionRepository_findOne (refId ref) ;;
                 match subscription with
                 | Some subscription =>
                     subscriptionRepository_save (markPaymentFailed subscription)
                 | None => ret tt
                 end
             | None => ret tt
             end
           else ret tt) ;;;
          failureReason <- failureReasonOf invoice ;;
          recordTransaction
            (user_id user)
            (inv_payment_intent invoice)
            TransactionType.SUBSCRIPTION
            (div100 (inv_amount_due invoice))
            (inv_currency invoice)
            TransactionStatus.FAILED
            ("Subscription payment failed: " ++ inv_id invoice)
            [("invoiceId", MString (Some (inv_id invoice)));
             ("subscriptionId", MRef (inv_subscription invoice));
             ("attemptCount", MNumber (Some (inv_attempt_count invoice)));
             ("nextPaymentAttempt", MNumber (inv_next_payment_attempt invoice))]
            (Some failureReason) None None None ;;;
          ret tt
      | None => ret tt
      end
  | None => ret tt
  end.

Definition handleInvoiceUpcoming (invoice : Invoice) : M unit :=
  enter HInvoiceUpcoming ;;;
  match customerIdOf (inv_customer invoice) with
  | Some customerId =>
      user <- userRepository_findOne customerId ;;
      match user with
      | Some _ =>
          (* the two conversions are arguments of the log line *)
          liftOutcome (convertStripeTimestamp (inv_period_start invoice)) ;;;
          liftOutcome (convertStripeTimestamp (inv_period_end invoice)) ;;;
          ret tt
      | None => ret tt
      end
  | None => ret tt
  end.

Definition mapStripeSubscriptionStatus (status : string) : SubscriptionStatus.t :=
  if status =? "trialing" then SubscriptionStatus.TRIALING
  else if status =? "active" then SubscriptionStatus.ACTIVE
  else if status =? "past_due" then SubscriptionStatus.PAST_DUE
  else if status =? "canceled" then SubscriptionStatus.CANCELED
  else if status =? "unpaid" then SubscriptionStatus.UNPAID
  else if status =? "incomplete" then SubscriptionStatus.INCOMPLETE
  else SubscriptionStatus.ACTIVE.

(** [subscriptionItem && subscriptionItem.field]: the field when the first
    item exists and the field is truthy. *)
Definition itemField (subscriptionItem : option SubscriptionItem)
  (field : SubscriptionItem -> JsValue) : option JsValue :=
  match subscriptionItem with
  | Some item => if truthy (field item) then Some (field item) else None
  | None => None
  end.

(** The [if / else if / else] that computes [periodStart], the same text in
    [handleSubscriptionCreated] and [handleSubscriptionUpdated]. *)
Definition resolvePeriodStart (subscription : Subscription)
  : Outcome (option JsDate) :=
  let subscriptionItem := hd_error (s_items subscription) in
  match itemField subscriptionItem item_current_period_start with
  | Some current_period_start => convertStripeTimestamp current_period_start
  | None =>
      if truthy (s_billing_cycle_anchor subscription)
      then convertStripeTimestamp (s_billing_cycle_anchor subscription)
      else convertStripeTimestamp (s_created subscription)
  end.

(** The [if] that computes [periodEnd]. *)
Definition resolvePeriodEnd (subscription : Subscription)
  : Outcome (option JsDate) :=
  let subscriptionItem := hd_error (s_items subscription) in
  match itemField subscriptionItem item_current_period_end with
  | Some current_period_end => convertStripeTimestamp current_period_end
  | None => Returned None
  end.

Definition planNameOf (price : option Price) : string :=
  let planName :=
    match price with
    | None => ""
    | Some price =>
        match price_nickname price with
        | Some n =>
            if negb (n =? "") then n
            else
              match price_product price with
              | Some (ProductId p) => p
              | Some (ProductObject name id) =>
                  orString name (orString id "Unknown Plan")
              | None => ""
              end
        | None =>
            match price_product price with
            | Some (ProductId p) => p
            | Some (ProductObject name id) =>
                orString name (orString id "Unknown Plan")
            | None => ""
            end
        end
    end in
  if planName =? "" then "Unknown Plan" else planName.

(** [n || d] on a nullable number. *)
Definition orNumber (n : option Z) (d : Z) : Z :=
  match n with
  | Some x => if (x =? 0)%Z then d else x
  | None => d
  end.

(** The entity that [handleSubscriptionCreated] fills in, given the user it
    found and the four converted dates. *)
Definition newUserSubscription (subscription : Subscription) (user : UserEntity)
  (periodStart periodEnd trialStart trialEnd : option JsDate)
  : UserSubscriptionEntity :=
  let price := option_map item_price (hd_error (s_items subscription)) in
  let priceId := option_map price_id price in
  {| sub_id := None;
     sub_userId := user_id user;
     sub_stripeSubscriptionId := s_id subscription;
     sub_status := mapStripeSubscriptionStatus (s_status subscription);
     sub_planId := priceId;
     sub_planName := planNameOf price;
     sub_amount :=
       match price with
       | Some p =>
           match price_unit_amount p with
           | Some a => if (a =? 0)%Z then 0 else div100 a
           | None => 0
           end
       | None => 0
       end;
     sub_currency :=
       orString (match price with Some p => price_currency p | None => None end)
                "usd";
     sub_interval :=
       orString
         (match price with
          | Some p => option_map rec_interval (price_recurring p)
          | None => None
          end) "month";
     sub_intervalCount :=
       orNumber
         (match price with
          | Some p => option_map rec_interval_count (price_recurring p)
          | None => None
          end) 1;
     sub_currentPeriodStart := periodStart;
     sub_currentPeriodEnd := periodEnd;
     sub_trialStartDate :=
       match trialStart, trialEnd with
       | Some d, Some _ => Some d
       | _, _ => None
       end;
     sub_trialEndDate :=
       match trialStart, trialEnd with
       | Some _, Some d => Some d
       | _, _ => None
       end;
     (* the column default of a fresh row *)
     sub_failedPaymentCount := 0;
     sub_canceledAt := None;
     sub_endedAt := None;
     sub_metadata := s_metadata subscription |}.

Definition handleSubscriptionCreated (subscription : Subscription) : M unit :=
  enter HSubscriptionCreated ;;;
  let customerId := refId (s_customer subscription) in
  user <- userRepository_findOne customerId ;;
  match user with
  | Some user =>
      periodStart <- liftOutcome (resolvePeriodStart subscription) ;;
      periodEnd <- liftOutcome (resolvePeriodEnd subscription) ;;
      trialStart <- liftOutcome (convertStripeTimestamp (s_trial_start subscription)) ;;
      trialEnd <- liftOutcome (convertStripeTimestamp (s_trial_end subscription)) ;;
      subscriptionRepository_save
        (newUserSubscription subscription user
           periodStart periodEnd trialStart trialEnd)
  | None => ret tt
  end.

(** [d ? d : old] for a converted date that overwrites a field only when
    it is not [null]. *)
Definition orKeep (d old : option JsDate) : option JsDate :=
  match d with
  | Some x => Some x
  | None => old
  end.

(** The assignments of [handleSubscriptionUpdated] on the entity it found,
    given the four converted dates. *)
Definition applySubscriptionUpdate (subscription : Subscription)
  (userSubscription : UserSubscriptionEntity)
  (periodStart periodEnd canceledAt endedAt : option JsDate)
  : UserSubscriptionEntity :=
  let previousStatus := sub_status userSubscription in
  let status := mapStripeSubscriptionStatus (s_status subscription) in
  {| sub_id := sub_id userSubscription;
     sub_userId := sub_userId userSubscription;
     sub_stripeSubscriptionId := sub_stripeSubscriptionId userSubscription;
     sub_status := status;
     sub_planId := sub_planId userSubscription;
     sub_planName := sub_planName userSubscription;
     sub_amount := sub_amount userSubscription;
     sub_currency := sub_currency userSubscription;
     sub_interval := sub_interval userSubscription;
     sub_intervalCount := sub_intervalCount userSubscription;
     sub_currentPeriodStart :=
       orKeep periodStart (sub_currentPeriodStart userSubscription);
     sub_currentPeriodEnd :=
       orKeep periodEnd (sub_currentPeriodEnd userSubscription);
     sub_trialStartDate := sub_trialStartDate userSubscription;
     sub_trialEndDate := sub_trialEndDate userSubscription;
     sub_failedPaymentCount :=
       if SubscriptionStatus.eqb status SubscriptionStatus.ACTIVE
          && SubscriptionStatus.eqb previousStatus SubscriptionStatus.PAST_DUE
       then 0
       else sub_failedPaymentCount userSubscription;
     sub_canceledAt := orKeep canceledAt (sub_canceledAt userSubscription);
     sub_endedAt := orKeep endedAt (sub_endedAt userSubscription);
     sub_metadata := s_metadata subscription |}.

Definition handleSubscriptionUpdated (subscription : Subscription) : M unit :=
  enter HSubscriptionUpdated ;;;
  found <- subscriptionRepository_findOne (s_id subscription) ;;
  match found with
  | Some userSubscription =>
      periodStart <- liftOutcome (resolvePeriodStart subscription) ;;
      periodEnd <- liftOutcome (resolvePeriodEnd subscription) ;;
      canceledAt <- liftOutcome (convertStripeTimestamp (s_canceled_at subscription)) ;;
      endedAt <- liftOutcome (convertStripeTimestamp (s_ended_at subscription)) ;;
      subscriptionRepository_save
        (applySubscriptionUpdate subscription userSubscription
           periodStart periodEnd canceledAt endedAt)
  | None => ret tt
  end.

(** The assignments of [handleSubscriptionDeleted] on the entity it found,
    given the two [new Date()]. *)
Definition applySubscriptionDelete (userSubscription : UserSubscriptionEntity)
  (canceledAt endedAt : JsDate) : UserSubscriptionEntity :=
  {| sub_id := sub_id userSubscription;
     sub_userId := sub_userId userSubscription;
     sub_stripeSubscriptionId := sub_stripeSubscriptionId userSubscription;
     sub_status := SubscriptionStatus.CANCELED;
     sub_planId := sub_planId userSubscription;
     sub_planName := sub_planName userSubscription;
     sub_amount := sub_amount userSubscription;
     sub_currency := sub_currency userSubscription;
     sub_interval := sub_interval userSubscription;
     sub_intervalCount := sub_intervalCount userSubscription;
     sub_currentPeriodStart := sub_currentPeriodStart userSubscription;
     sub_currentPeriodEnd := sub_currentPeriodEnd userSubscription;
     sub_trialStartDate := sub_trialStartDate userSubscription;
     sub_trialEndDate := sub_trialEndDate userSubscription;
     sub_failedPaymentCount := sub_failedPaymentCount userSubscription;
     sub_canceledAt := Some canceledAt;
     sub_endedAt := Some endedAt;
     sub_metadata := sub_metadata userSubscription |}.

Definition handleSubscriptionDeleted (subscription : Subscription) : M unit :=
  enter HSubscriptionDeleted ;;;
  found <- subscriptionRepository_findOne (s_id subscription) ;;
  match found with
  | Some userSubscription =>
      canceledAt <- newDate ;;
      endedAt <- newDate ;;
      subscriptionRepository_save
        (applySubscriptionDelete userSubscription canceledAt endedAt)
  | None => ret tt
  end.

Definition handleSubscriptionTrialWillEnd (subscription : Subscription) : M unit :=
  enter HSubscriptionTrialWillEnd ;;;
  let customerId := refId (s_customer subscription) in
  user <- userRepository_findOne customerId ;;
  match user with
  | Some _ =>
      subscriptionRepository_findOne (s_id subscription) ;;;
      ret tt
  | None => ret tt
  end.

(** The [switch (event.type)] of [handleWebhookEvent]. *)
Definition dispatch (data : EventData) : M unit :=
  match data with
  | CheckoutSessionCompleted session => handleCheckoutSessionCompleted session
  | InvoicePaymentSucceeded invoice => handleInvoicePaymentSucceeded invoice
  | InvoicePaymentFailed invoice => handleInvoicePaymentFailed invoice
  | InvoiceUpcoming invoice => handleInvoiceUpcoming invoice
  | PaymentMethodAttached paymentMethod => handlePaymentMethodAttached paymentMethod
  | CustomerSubscriptionCreated subscription => handleSubscriptionCreated subscription
  | CustomerSubscriptionUpdated subscription => handleSubscriptionUpdated subscription
  | CustomerSubscriptionDeleted subscription => handleSubscriptionDeleted subscription
  | CustomerSubscriptionTrialWillEnd subscription =>
      handleSubscriptionTrialWillEnd subscription
  | PaymentIntentSucceeded paymentIntent => handlePaymentIntentSucceeded paymentIntent
  | PaymentIntentCreated _ => ret tt
  | PaymentIntentPaymentFailed paymentIntent => handlePaymentIntentFailed paymentIntent
  | PaymentIntentCanceled paymentIntent => handlePaymentIntentCanceled paymentIntent
  | ChargeRefunded charge => handleChargeRefunded charge
  | OtherEvent _ => ret tt
  end.

(** The [catch] block of [handleWebhookEvent]. *)
Definition onWebhookError (error : JsError) : M unit :=
  enabled <- webhookLoggingEnabled ;;
  (if enabled then
     tryCatch
       (if negb (message error =? "") && includes "event.id" (message error)
        then
          match matchEventId (message error) with
          | Some eventId =>
              updateWebhookEventStatus eventId
                WebhookProcessingStatus.FAILED (Some (message error))
          | None => ret tt
          end
        else ret tt)
       (fun _ => ret tt)
   else ret tt) ;;;
  throw error.

(** [handleWebhookEvent(payload, signature)]; [constructed] is the outcome
    of [this.constructEvent(payload, signature)], the verification of the
    signed payload by the SDK. *)
Definition handleWebhookEvent (constructed : Outcome Event) : M unit :=
  tryCatch
    (event <- liftOutcome constructed ;;
     loggedEvent <- logWebhookEvent (ev_id event) (eventType (ev_data event)) ;;
     (match loggedEvent with
      | Some _ =>
          updateWebhookEventStatus (ev_id event)
            WebhookProcessingStatus.PENDING None
      | None => ret tt
      end) ;;;
     dispatch (ev_data event) ;;;
     (match loggedEvent with
      | Some _ =>
          updateWebhookEventStatus (ev_id event)
            WebhookProcessingStatus.COMPLETED None
      | None => ret tt
      end))
    onWebhookError.

(* ================================================================== *)
(** ** Vocabulary of the properties *)

(** The millisecond value [q * 1000] is within the range of [Date]. *)
Definition inDateRange (q : Q) : bool :=
  Qle_bool (Qabs (q * 1000)) (inject_Z maxTime).

(** Inputs that [convertStripeTimestamp] treats as absent: [undefined],
    [null], any value that is not a number, [NaN] and zero. *)
Definition absentOrZero (v : JsValue) : bool :=
  match v with
  | VNumber NaN => true
  | VNumber (Infinity _) => false
  | VNumber (Finite q) => Qeq_bool q 0
  | _ => true
  end.

(** The inputs that the specification lists as invalid for the converter:
    [null]/[undefined], not a number, [NaN], zero, negative. *)
Definition listedInvalid (v : JsValue) : bool :=
  match v with
  | VNumber NaN => true
  | VNumber (Infinity negative) => negative
  | VNumber (Finite q) => Qle_bool q 0
  | _ => true
  end.

(** A candidate qualifies, in the words of the specification, when it is
    non-null, numeric and finite. *)
Definition qualifies (v : JsValue) : bool :=
  match v with
  | VNumber (Finite _) => true
  | _ => false
  end.

(** The period start as the specification words it: the first qualifying
    candidate, converted to the calendar time at its seconds; [null] when
    no candidate qualifies. *)
Definition specifiedPeriodStart (candidates : list JsValue) : option JsDate :=
  match find qualifies candidates with
  | Some (VNumber (Finite q)) => Some (ValidDate (truncQ (q * 1000)))
  | _ => None
  end.

(** An epoch field as Stripe sends it: absent ([null] or missing), or a
    positive whole number of seconds whose time [Date] can represent. *)
Definition epochSeconds (v : JsValue) : bool :=
  match v with
  | VUndefined | VNull => true
  | VNumber (Finite q) =>
      (Qden q =? 1)%positive && (0 <? Qnum q)%Z
      && (Qnum q * 1000 <=? maxTime)%Z
  | _ => false
  end.

(** The candidates for [currentPeriodStart], in priority order. *)
Definition periodStartCandidates (subscription : Subscription) : list JsValue :=
  (match hd_error (s_items subscription) with
   | Some item => [item_current_period_start item]
   | None => []
   end ++ [s_billing_cycle_anchor subscription; s_created subscription])%list.

(** The outcome is a return, not a throw. *)
Definition returns {A} (o : Outcome A) : bool :=
  match o with Returned _ => true | Thrown _ => false end.

(** None of the four date conversions of [handleSubscriptionCreated]
    throws on this payload. *)
Definition createDatesConvert (subscription : Subscription) : bool :=
  returns (resolvePeriodStart subscription)
  && returns (resolvePeriodEnd subscription)
  && returns (convertStripeTimestamp (s_trial_start subscription))
  && returns (convertStripeTimestamp (s_trial_end subscription)).

(** None of the four date conversions of [handleSubscriptionUpdated]
    throws on this payload. *)
Definition updateDatesConvert (subscription : Subscription) : bool :=
  returns (resolvePeriodStart subscription)
  && returns (resolvePeriodEnd subscription)
  && returns (convertStripeTimestamp (s_canceled_at subscription))
  && returns (convertStripeTimestamp (s_ended_at subscription)).

(** The world after running [m] from [w], and the outcome of that run. *)
Definition worldAfter {A} (m : M A) (w : World) : World := snd (m w).
Definition outcomeOf {A} (m : M A) (w : World) : Outcome A := fst (m w).

(** The stored subscription with a given Stripe id, as
    [subscriptionRepository.findOne] would return it. *)
Definition storedSubscription (sid : string) (w : World)
  : option UserSubscriptionEntity :=
  find (hasSubscriptionId sid) (subscriptions (db w)).

(** The settlement object that [handleInvoicePaymentSucceeded] can reach:
    the invoice names its payment intent by a non-empty id, the Stripe API
    returns that payment intent, and its latest charge and the balance
    transaction of the charge come expanded. *)
Definition settlementOfInvoice (w : World) (invoice : Invoice)
  : option BalanceTransaction :=
  match inv_payment_intent invoice with
  | Some (AsId pid) =>
      if pid =? "" then None
      else
        match paymentIntents_retrieve w pid true with
        | Returned paymentIntent => balanceTransactionOf paymentIntent
        | Thrown _ => None
        end
  | _ => None
  end.

(** The settlement object that [handlePaymentIntentSucceeded] can reach. *)
Definition settlementOfPaymentIntent (w : World) (paymentIntent : PaymentIntent)
  : option BalanceTransaction :=
  match paymentIntents_retrieve w (pi_id paymentIntent) true with
  | Returned expanded => balanceTransactionOf expanded
  | Thrown _ => None
  end.

(** The handler method that the [switch] of [handleWebhookEvent] calls for
    an event, if any. *)
Definition handlerOf (data : EventData) : option HandlerName :=
  match data with
  | CheckoutSessionCompleted _ => Some HCheckoutSessionCompleted
  | InvoicePaymentSucceeded _ => Some HInvoicePaymentSucceeded
  | InvoicePaymentFailed _ => Some HInvoicePaymentFailed
  | InvoiceUpcoming _ => Some HInvoiceUpcoming
  | PaymentMethodAttached _ => Some HPaymentMethodAttached
  | CustomerSubscriptionCreated _ => Some HSubscriptionCreated
  | CustomerSubscriptionUpdated _ => Some HSubscriptionUpdated
  | CustomerSubscriptionDeleted _ => Some HSubscriptionDeleted
  | CustomerSubscriptionTrialWillEnd _ => Some HSubscriptionTrialWillEnd
  | PaymentIntentSucceeded _ => Some HPaymentIntentSucceeded
  | PaymentIntentCreated _ => None
  | PaymentIntentPaymentFailed _ => Some HPaymentIntentFailed
  | PaymentIntentCanceled _ => Some HPaymentIntentCanceled
  | ChargeRefunded _ => Some HChargeRefunded
  | OtherEvent _ => None
  end.

(** A computation that enters no handler: it leaves the ghost trace as it
    found it, whatever its outcome. *)
Definition keepsCalls {A} (m : M A) : Prop :=
  forall w, calls (snd (m w)) = calls w.

(** The ledger has a COMPLETED row for the event id. *)
Definition completedInLedger (eventId : string) (w : World) : bool :=
  existsb (fun e => hasEventId eventId e
                    && WebhookProcessingStatus.eqb (we_processingStatus e)
                         WebhookProcessingStatus.COMPLETED)
          (webhookEvents (db w)).

(** The ledger table refuses the insert of a row for this event id. *)
Definition insertRefused (eventId : string) (w : World) : bool :=
  uniqueStripeEventId w && existsb (hasEventId eventId) (webhookEvents (db w)).

(** The row that [logWebhookEvent] creates. *)
Definition pendingRow (stripeEventId eventType : string) : WebhookEventEntity :=
  {| we_stripeEventId := stripeEventId;
     we_eventType := eventType;
     we_processingStatus := WebhookProcessingStatus.PENDING;
     we_retryCount := 0;
     we_processedAt := None;
     we_errorMessage := None |}.

(** The update data of a status change to PENDING. *)
Definition toPending : WebhookEventUpdate :=
  {| upd_processingStatus := WebhookProcessingStatus.PENDING;
     upd_errorMessage := None;
     upd_processedAt := None |}.

(** The rows of the subscription table have primary keys, all different. *)
Definition keyed (rows : list UserSubscriptionEntity) : Prop :=
  NoDup (map sub_id rows) /\ Forall (fun r => sub_id r <> None) rows.

(* ================================================================== *)
(** ** Vocabulary of the properties of a whole delivery *)

(** Every run of [m] takes a world to one that is [R]-related to it,
    whatever the outcome. *)
Definition respects (R : World -> World -> Prop) {A} (m : M A) : Prop :=
  forall w, R w (snd (m w)).

(** [l'] is [l] with rows added at the end. *)
Definition extends {X} (l l' : list X) : Prop :=
  exists more, l' = (l ++ more)%list.

(** The event id and the event type of a ledger row. *)
Definition ledgerLabel (e : WebhookEventEntity) : string * string :=
  (we_stripeEventId e, we_eventType e).

(** What every step of the webhook processing keeps: the environment
    flag and the users table as they are, every stored transaction and
    payment method in place and unchanged, every ledger row in place with
    its event id and type, and no fewer subscription rows. *)
Definition evolves (w w' : World) : Prop :=
  env_logging w' = env_logging w
  /\ users (db w') = users (db w)
  /\ extends (transactions (db w)) (transactions (db w'))
  /\ extends (paymentMethods (db w)) (paymentMethods (db w'))
  /\ extends (map ledgerLabel (webhookEvents (db w)))
             (map ledgerLabel (webhookEvents (db w')))
  /\ (List.length (subscriptions (db w))
      <= List.length (subscriptions (db w')))%nat.

(** The ledger and the environment flag are as they were. *)
Definition ledgerKept (w w' : World) : Prop :=
  env_logging w' = env_logging w
  /\ webhookEvents (db w') = webhookEvents (db w).

(** With the ledger switched off, the ledger and the flag are as they
    were. *)
Definition quietKept (w w' : World) : Prop :=
  env_logging w <> Some "true" -> ledgerKept w w'.

(** The stored subscriptions satisfy [PS] and the stored transactions
    satisfy [PT]. *)
Definition tablesSatisfy (PS : UserSubscriptionEntity -> Prop)
  (PT : StripeTransactionEntity -> Prop) (w : World) : Prop :=
  Forall PS (subscriptions (db w)) /\ Forall PT (transactions (db w)).

(** Every run of [m] from tables that satisfy [PS] and [PT] ends, whatever
    its outcome, with tables that satisfy them, and a value it returns
    satisfies [Q]. *)
Definition maintains (PS : UserSubscriptionEntity -> Prop)
  (PT : StripeTransactionEntity -> Prop) {A} (m : M A) (Q : A -> Prop) : Prop :=
  forall w, tablesSatisfy PS PT w ->
    tablesSatisfy PS PT (snd (m w))
    /\ (forall a, fst (m w) = Returned a -> Q a).

(** The trial dates of a subscription are both set or both absent, and its
    count of failed payments is not negative. *)
Definition soundSubscription (s : UserSubscriptionEntity) : Prop :=
  (sub_trialStartDate s = None <-> sub_trialEndDate s = None)
  /\ (0 <= sub_failedPaymentCount s)%Z.

(** No character of the string is a lower-case ASCII letter. *)
Fixpoint noLowerCase (s : string) : bool :=
  match s with
  | EmptyString => true
  | String c r => negb (isLower c) && noLowerCase r
  end.

(** The currency of a transaction is written in upper case. *)
Definition upperCaseCurrency (t : StripeTransactionEntity) : Prop :=
  noLowerCase (tx_currency t) = true.

(** The events whose handling only reads and logs: the upcoming invoice,
    the trial that will end, the created payment intent, and every event
    type outside the [switch]. *)
Definition readOnlyEvent (data : EventData) : bool :=
  match data with
  | InvoiceUpcoming _ | CustomerSubscriptionTrialWillEnd _
  | PaymentIntentCreated _ | OtherEvent _ => true
  | _ => false
  end.

(** The customer id that the handler of an event looks up in the users
    table: [None] for the events whose handler looks up no customer,
    [Some None] when the payload carries no customer. *)
Definition customerOfEvent (data : EventData) : option (option string) :=
  match data with
  | CheckoutSessionCompleted session =>
      Some (customerIdOf (cs_customer session))
  | InvoicePaymentSucceeded invoice | InvoicePaymentFailed invoice
  | InvoiceUpcoming invoice =>
      Some (customerIdOf (inv_customer invoice))
  | PaymentMethodAttached paymentMethod =>
      Some (customerIdOf (pm_customer paymentMethod))
  | CustomerSubscriptionCreated subscription
  | CustomerSubscriptionTrialWillEnd subscription =>
      Some (Some (refId (s_customer subscription)))
  | PaymentIntentSucceeded paymentIntent
  | PaymentIntentPaymentFailed paymentIntent
  | PaymentIntentCanceled paymentIntent =>
      Some (customerIdOf (pi_customer paymentIntent))
  | ChargeRefunded charge => Some (customerIdOf (ch_customer charge))
  | CustomerSubscriptionUpdated _ | CustomerSubscriptionDeleted _
  | PaymentIntentCreated _ | OtherEvent _ => None
  end.

(** The handler of the event looks up a customer and finds no local user:
    the payload has no customer, or no user carries its id. *)
Definition noLocalUser (data : EventData) (w : World) : bool :=
  match customerOfEvent data with
  | Some None => true
  | Some (Some customerId) =>
      match find (hasCustomer customerId) (users (db w)) with
      | Some _ => false
      | None => true
      end
  | None => false
  end.

(** The whole database is as it was. *)
Definition dbKept (w w' : World) : Prop := db w' = db w.

(** No handler was entered and the users, subscriptions, transactions and
    payment methods are as they were: at most the ledger was written. *)
Definition businessKept (w w' : World) : Prop :=
  calls w' = calls w
  /\ users (db w') = users (db w)
  /\ subscriptions (db w') = subscriptions (db w)
  /\ transactions (db w') = transactions (db w)
  /\ paymentMethods (db w') = paymentMethods (db w).

(** [status === FAILED || status === RETRYING] *)
Definition countsAsRetry (status : WebhookProcessingStatus.t) : bool :=
  WebhookProcessingStatus.eqb status WebhookProcessingStatus.FAILED
  || WebhookProcessingStatus.eqb status WebhookProcessingStatus.RETRYING.

(** A ledger row after a status change made at time [now]. *)
Definition statusChanged (status : WebhookProcessingStatus.t)
  (errorMessage : option string) (now : JsDate) (e : WebhookEventEntity)
  : WebhookEventEntity :=
  {| we_stripeEventId := we_stripeEventId e;
     we_eventType := we_eventType e;
     we_processingStatus := status;
     we_retryCount :=
       if countsAsRetry status
       then (we_retryCount e + 1)%Z else we_retryCount e;
     we_processedAt :=
       if WebhookProcessingStatus.eqb status WebhookProcessingStatus.COMPLETED
       then Some now else we_processedAt e;
     we_errorMessage :=
       match errorMessage with
       | Some m => Some m
       | None => we_errorMessage e
       end |}.

(** The ledger after a status change of the rows of one event id. *)
Definition ledgerAfterStatus (eventId : string)
  (status : WebhookProcessingStatus.t) (errorMessage : option string)
  (now : JsDate) (ledger : list WebhookEventEntity) : list WebhookEventEntity :=
  map (fun e => if hasEventId eventId e
                then statusChanged status errorMessage now e else e)
      ledger.

(* ================================================================== *)
(** ** The configuration of the service and its calls to Stripe *)

(** The variables that the service reads through [ConfigService]; a
    variable that is not set is [None]. *)
Record ConfigService : Type := {
  STRIPE_SECRET_KEY : option string;
  PAYMENTS_MODE : option string;
  STRIPE_WEBHOOK_SECRET : option string
}.

(** [!!s] on an optional string. *)
Definition truthyString (s : option string) : bool :=
  match s with
  | Some x => negb (x =? "")
  | None => false
  end.

(** [configService.get<string>('PAYMENTS_MODE', 'none')]: the default
    stands in for a variable that is not set. *)
Definition paymentsMode (c : ConfigService) : string :=
  match PAYMENTS_MODE c with
  | Some m => m
  | None => "none"
  end.

Record LineItem : Type := {
  li_price : string;
  li_quantity : Z
}.

(** [Stripe.Checkout.SessionCreateParams], the fields that the service
    sets; [scp_trial_period_days] is [subscription_data.trial_period_days],
    [None] when [subscription_data] is left out. *)
Record SessionCreateParams : Type := {
  scp_mode : string;
  scp_payment_method_types : list string;
  scp_line_items : list LineItem;
  scp_success_url : string;
  scp_cancel_url : string;
  scp_customer_email : option string;
  scp_metadata : list (string * string);
  scp_trial_period_days : option JsNumber
}.

(** [Stripe.CustomerCreateParams], the fields that the service sets. *)
Record CustomerCreateParams : Type := {
  ccp_email : option string;
  ccp_name : option string;
  ccp_metadata_userId : string
}.

Record Customer : Type := {
  cus_id : string
}.

(** The answers of the Stripe SDK to the calls of the methods below:
    [stripe.checkout.sessions.create(params)],
    [stripe.webhooks.constructEvent(payload, signature, secret)] and
    [stripe.customers.create(params)]. *)
Record StripeSdk : Type := {
  checkout_sessions_create : SessionCreateParams -> Outcome CheckoutSession;
  webhooks_constructEvent : string -> string -> string -> Outcome Event;
  customers_create : CustomerCreateParams -> Outcome Customer
}.

Record StripeService : Type := {
  configService : ConfigService;
  stripe : StripeSdk;
  isEnabled : bool
}.

(** The constructor: [isEnabled = paymentsMode !== 'none' && !!secretKey]. *)
Definition newStripeService (c : ConfigService) (sdk : StripeSdk) : StripeService :=
  {| configService := c;
     stripe := sdk;
     isEnabled :=
       negb (paymentsMode c =? "none") && truthyString (STRIPE_SECRET_KEY c) |}.

Definition isConfigured (svc : StripeService) : bool := isEnabled svc.

Definition notConfigured : JsError := mkError "Stripe is not configured".

Record CreatePaymentSessionData : Type := {
  cps_priceId : string;
  cps_mode : string;
  cps_successUrl : string;
  cps_cancelUrl : string;
  cps_customerEmail : option string;
  cps_metadata : option (list (string * string))
}.

Record CreateSubscriptionSessionData : Type := {
  css_priceId : string;
  css_successUrl : string;
  css_cancelUrl : string;
  css_customerEmail : option string;
  css_trialPeriodDays : option JsNumber;
  css_metadata : option (list (string * string))
}.

(** [metadata || {}] *)
Definition orEmpty (m : option (list (string * string))) : list (string * string) :=
  match m with
  | Some x => x
  | None => []
  end.

Definition createPaymentSession (svc : StripeService)
  (data : CreatePaymentSessionData) : Outcome CheckoutSession :=
  if negb (isConfigured svc) then Thrown notConfigured
  else
    let paymentsMode := paymentsMode (configService svc) in
    if negb (paymentsMode =? "single") && negb (paymentsMode =? "both")
    then Thrown (mkError "Single payments are not enabled in PAYMENTS_MODE")
    else
      checkout_sessions_create (stripe svc)
        {| scp_mode := cps_mode data;
           scp_payment_method_types := ["card"];
           scp_line_items :=
             [ {| li_price := cps_priceId data; li_quantity := 1 |} ];
           scp_success_url := cps_successUrl data;
           scp_cancel_url := cps_cancelUrl data;
           scp_customer_email := cps_customerEmail data;
           scp_metadata := orEmpty (cps_metadata data);
           scp_trial_period_days := None |}.

Definition createSubscriptionSession (svc : StripeService)
  (data : CreateSubscriptionSessionData) : Outcome CheckoutSession :=
  if negb (isConfigured svc) then Thrown notConfigured
  else
    let paymentsMode := paymentsMode (configService svc) in
    if negb (paymentsMode =? "subscription") && negb (paymentsMode =? "both")
    then Thrown (mkError "Subscriptions are not enabled in PAYMENTS_MODE")
    else
      checkout_sessions_create (stripe svc)
        {| scp_mode := "subscription";
           scp_payment_method_types := ["card"];
           scp_line_items :=
             [ {| li_price := css_priceId data; li_quantity := 1 |} ];
           scp_success_url := css_successUrl data;
           scp_cancel_url := css_cancelUrl data;
           scp_customer_email := css_customerEmail data;
           scp_metadata := orEmpty (css_metadata data);
           scp_trial_period_days :=
             match css_trialPeriodDays data with
             | Some n => if truthy (VNumber n) then Some n else None
             | None => None
             end |}.

Definition constructEvent (svc : StripeService) (payload signature : string)
  : Outcome Event :=
  if negb (isConfigured svc) then Thrown notConfigured
  else
    match STRIPE_WEBHOOK_SECRET (configService svc) with
    | Some endpointSecret =>
        if endpointSecret =? ""
        then Thrown (mkError "Stripe webhook secret is not configured")
        else webhooks_constructEvent (stripe svc) payload signature endpointSecret
    | None => Thrown (mkError "Stripe webhook secret is not configured")
    end.

(** [handleWebhookEvent(payload, signature)] of a service instance. *)
Definition handleWebhook (svc : StripeService) (payload signature : string)
  : M unit :=
  handleWebhookEvent (constructEvent svc payload signature).

(* ================================================================== *)
(** ** Stripe customers of local users *)

Definition setUsers (d : Database) (l : list UserEntity) : Database :=
  {| users := l; paymentMethods := paymentMethods d;
     transactions := transactions d;
     webhookEvents := webhookEvents d; subscriptions := subscriptions d |}.

Definition hasUserId (id : string) (u : UserEntity) : bool :=
  user_id u =? id.

(** [userRepository.findOne({ where: { id } })] *)
Definition userRepository_findOneById (id : string) : M (option UserEntity) :=
  dbCall ;;;
  d <- getDb ;;
  ret (find (hasUserId id) (users d)).

(** [userRepository.update(id, { stripeCustomerId })]; an id without a
    row updates nothing and is no error. *)
Definition userRepository_update (id customerId : string) : M unit :=
  dbCall ;;;
  d <- getDb ;;
  putDb (setUsers d
           (map (fun u => if hasUserId id u
                          then {| user_id := user_id u;
                                  stripeCustomerId := Some customerId |}
                          else u)
                (users d))).

(** [s.trimEnd()] and [s.trim()] *)
Fixpoint trimEnd (s : string) : string :=
  match s with
  | EmptyString => EmptyString
  | String c r =>
      let r' := trimEnd r in
      if (r' =? "") && isSpace c then EmptyString else String c r'
  end.

Definition trim (s : string) : string := trimEnd (skipSpaces s).

(** A nullable string inside a template literal. *)
Definition templateText (s : option string) : string :=
  match s with
  | Some x => x
  | None => "null"
  end.

(** The [userData] of [createCustomerForUserData]; [ud_id] is
    [userData.id.toString()], the only form in which the method uses the
    id. *)
Record UserData : Type := {
  ud_id : string;
  ud_email : option string;
  ud_firstName : option string;
  ud_lastName : option string
}.

(** The argument of [stripe.customers.create] in
    [createCustomerForUserData]. *)
Definition customerParams (userData : UserData) (name : option string)
  : CustomerCreateParams :=
  {| ccp_email :=
       if truthyString (ud_email userData) then ud_email userData else None;
     ccp_name :=
       if truthyString name || truthyString (ud_firstName userData)
       then Some (trim (templateText (ud_firstName userData) ++ " "
                        ++ orString (ud_lastName userData) ""))
       else None;
     ccp_metadata_userId := ud_id userData |}.

(** [existingUser?.stripeCustomerId], when it is truthy. *)
Definition existingCustomerOf (existingUser : option UserEntity) : option string :=
  match existingUser with
  | Some u =>
      if truthyString (stripeCustomerId u) then stripeCustomerId u else None
  | None => None
  end.

Definition createCustomerForUserData (svc : StripeService)
  (userData : UserData) (name : option string) : M string :=
  if negb (isConfigured svc) then throw notConfigured
  else
    existingUser <- userRepository_findOneById (ud_id userData) ;;
    match existingCustomerOf existingUser with
    | Some existing => ret existing
    | None =>
        customer <- liftOutcome
                      (customers_create (stripe svc)
                         (customerParams userData name)) ;;
        userRepository_update (ud_id userData) (cus_id customer) ;;;
        ret (cus_id customer)
    end.

(* ================================================================== *)
(** ** The controller: the transaction history of a user *)

Definition isDigit (c : ascii) : bool :=
  let n := nat_of_ascii c in (48 <=? n)%nat && (n <=? 57)%nat.

(** The value of the longest prefix of decimal digits of [s], read after
    the digits that gave [acc]; [None] when no digit was read at all. *)
Fixpoint digitsValue (s : string) (acc : option Z) : option Z :=
  match s with
  | String c r =>
      if isDigit c
      then digitsValue r
             (Some (10 * orZero acc + Z.of_nat (nat_of_ascii c - 48))%Z)
      else acc
  | EmptyString => acc
  end.

(** [parseInt(s, 10)]: leading white space, an optional sign, the longest
    prefix of digits; [None] is [NaN].  The value is the exact integer:
    the number the engine returns compares with 1 and 100 as it does. *)
Definition parseInt10 (s : string) : option Z :=
  match skipSpaces s with
  | String "-"%char r => option_map Z.opp (digitsValue r None)
  | String "+"%char r => digitsValue r None
  | t => digitsValue t None
  end.

Record HttpException : Type := {
  http_response : string;
  http_status : Z
}.

(** What the [try] block of a controller method can throw: an
    [HttpException] of its own, or the error of the service. *)
Inductive Caught : Type :=
| OfController (e : HttpException)
| OfService (e : JsError).

(** [getUserTransactions(userId, limit)] of the controller.
    [service_getUserTransactions] is the method of the service, [view]
    the projection of a stored transaction in the response; the result on
    the right is the [transactions] of the response. *)
Definition getUserTransactions {A B : Type} (svc : StripeService)
  (service_getUserTransactions : string -> Z -> Outcome (list A))
  (view : A -> B) (userId : string) (limit : option string)
  : HttpException + list B :=
  let attempt : Caught + list B :=
    if negb (isConfigured svc)
    then inl (OfController
                {| http_response := "Payment service is not available";
                   http_status := 503 |})
    else
      match parseInt10 userId with
      | None =>
          inl (OfController
                 {| http_response := "Invalid user ID"; http_status := 400 |})
      | Some _ =>
          let limitNumber :=
            if truthyString limit then parseInt10 (orString limit "")
            else Some 50%Z in
          match limitNumber with
          | Some n =>
              if (n <? 1)%Z || (n >? 100)%Z
              then inl (OfController
                          {| http_response :=
                               "Limit must be a number between 1 and 100";
                             http_status := 400 |})
              else
                match service_getUserTransactions userId n with
                | Returned transactions => inr (map view transactions)
                | Thrown e => inl (OfService e)
                end
          | None =>
              inl (OfController
                     {| http_response :=
                          "Limit must be a number between 1 and 100";
                        http_status := 400 |})
          end
      end in
  match attempt with
  | inr response => inr response
  | inl (OfController e) => inl e
  | inl (OfService _) =>
      inl {| http_response := "Failed to retrieve transactions";
             http_status := 500 |}
  end.


(* ================================================================== *)
(** ** Sample data *)

Module Sample.

Definition alice : UserEntity :=
  {| user_id := "user_1"; stripeCustomerId := Some "cus_1" |}.

(** The stored subscription [sub_1] of [alice]. *)
Definition row (status : SubscriptionStatus.t) (failedPaymentCount : Z)
  : UserSubscriptionEntity :=
  {| sub_id := Some 0%nat;
     sub_userId := "user_1";
     sub_stripeSubscriptionId := "sub_1";
     sub_status := status;
     sub_planId := Some "price_basic";
     sub_planName := "Basic";
     sub_amount := 99;
     sub_currency := "usd";
     sub_interval := "month";
     sub_intervalCount := 1;
     sub_currentPeriodStart := Some (ValidDate 1700000000000);
     sub_currentPeriodEnd := None;
     sub_trialStartDate := None;
     sub_trialEndDate := None;
     sub_failedPaymentCount := failedPaymentCount;
     sub_canceledAt := None;
     sub_endedAt := None;
     sub_metadata := [] |}.

(** A database with [alice], the given subscriptions and ledger rows. *)
Definition database (rows : list UserSubscriptionEntity)
  (ledger : list WebhookEventEntity) : Database :=
  {| users := [alice]; paymentMethods := []; transactions := [];
     webhookEvents := ledger; subscriptions := rows |}.

(** A world with ledger logging on, a clock that starts at 1700000100 s and
    advances one millisecond per reading, a Stripe API that knows no payment
    intent, and a database that does not fail. *)
Definition world (unique : bool) (rows : list UserSubscriptionEntity)
  (ledger : list WebhookEventEntity) : World :=
  {| env_logging := Some "true";
     clock := fun n => (1700000100000 + Z.of_nat n)%Z;
     paymentIntents_retrieve :=
       fun _ _ => Thrown (mkError "No such payment_intent");
     uniqueStripeEventId := unique;
     db := database rows ledger;
     clockReads := 0;
     dbFailAfter := None;
     calls := [] |}.

(** The same world with a Stripe API that returns every payment intent
    with its charge and balance transaction expanded: fee 175, net 4825. *)
Definition settledWorld : World :=
  {| env_logging := Some "true";
     clock := fun n => (1700000100000 + Z.of_nat n)%Z;
     paymentIntents_retrieve :=
       fun id _ =>
         Returned
           {| pi_id := id;
              pi_customer := Some (AsId "cus_1");
              pi_invoice := None;
              pi_amount := 5000;
              pi_currency := "usd";
              pi_description := None;
              pi_payment_method := None;
              pi_metadata := [];
              pi_last_payment_error := None;
              pi_cancellation_reason := None;
              pi_latest_charge :=
                ChObject (BtObject {| bt_fee := 175; bt_net := 4825 |}) |};
     uniqueStripeEventId := false;
     db := database [] [];
     clockReads := 0;
     dbFailAfter := None;
     calls := [] |}.

(** The payload of a subscription event for [sub_1]. *)
Definition subscription (status : string) (canceled_at : JsValue) : Subscription :=
  {| s_id := "sub_1";
     s_customer := AsId "cus_1";
     s_status := status;
     s_items := [];
     s_billing_cycle_anchor := VNull;
     s_created := VNumber (Finite 1700000000);
     s_trial_start := VNull;
     s_trial_end := VNull;
     s_canceled_at := canceled_at;
     s_ended_at := VNull;
     s_metadata := [] |}.

(** The payload of a subscription event for [sub_1] whose first item
    carries [current_period_start] and whose [billing_cycle_anchor] is a
    valid epoch number. *)
Definition subscriptionWithItem (current_period_start : JsValue) : Subscription :=
  {| s_id := "sub_1";
     s_customer := AsId "cus_1";
     s_status := "active";
     s_items :=
       [ {| item_price :=
              {| price_id := "price_basic";
                 price_unit_amount := Some 9900%Z;
                 price_currency := Some "usd";
                 price_nickname := Some "Basic";
                 price_product := Some (ProductId "prod_1");
                 price_recurring :=
                   Some {| rec_interval := "month"; rec_interval_count := 1 |} |};
            item_current_period_start := current_period_start;
            item_current_period_end := VNull |} ];
     s_billing_cycle_anchor := VNumber (Finite 1700000500);
     s_created := VNumber (Finite 1700000000);
     s_trial_start := VNull;
     s_trial_end := VNull;
     s_canceled_at := VNull;
     s_ended_at := VNull;
     s_metadata := [] |}.

(** An invoice for [sub_1], billed to [customer], with the amounts due and
    paid in cents. *)
Definition invoice (customer : option Expandable) (amount_due amount_paid : Z)
  : Invoice :=
  {| inv_id := "in_1";
     inv_customer := customer;
     inv_subscription := Some (AsId "sub_1");
     inv_payment_intent := Some (AsId "pi_1");
     inv_amount_paid := amount_paid;
     inv_amount_due := amount_due;
     inv_currency := "usd";
     inv_number := Some "INV-0001";
     inv_period_start := VNumber (Finite 1700000000);
     inv_period_end := VNumber (Finite 1702592000);
     inv_attempt_count := 1;
     inv_next_payment_attempt := None |}.

(** A checkout session of [amount_total] cents paid by [cus_1]. *)
Definition session (amount_total : Z) : CheckoutSession :=
  {| cs_id := "cs_1";
     cs_customer := Some (AsId "cus_1");
     cs_payment_intent := Some (AsId "pi_1");
     cs_subscription := None;
     cs_mode := "payment";
     cs_amount_total := Some amount_total;
     cs_currency := Some "usd";
     cs_customer_email := None |}.

(** A payment intent of [cus_1] for 5000 cents. *)
Definition paymentIntent (invoice : option Expandable) : PaymentIntent :=
  {| pi_id := "pi_1";
     pi_customer := Some (AsId "cus_1");
     pi_invoice := invoice;
     pi_amount := 5000;
     pi_currency := "usd";
     pi_description := None;
     pi_payment_method := None;
     pi_metadata := [];
     pi_last_payment_error := None;
     pi_cancellation_reason := None;
     pi_latest_charge := ChId "ch_1" |}.

(** The ledger row of the processed event [evt_1]. *)
Definition completedRow : WebhookEventEntity :=
  {| we_stripeEventId := "evt_1";
     we_eventType := "checkout.session.completed";
     we_processingStatus := WebhookProcessingStatus.COMPLETED;
     we_retryCount := 0;
     we_processedAt := Some (ValidDate 1700000050000);
     we_errorMessage := None |}.

(** The event [evt_1]: the checkout session of 5000 cents completed. *)
Definition checkoutEvent : Event :=
  {| ev_id := "evt_1";
     ev_data := CheckoutSessionCompleted (session 5000) |}.

(** The event [evt_2]: [sub_1] updated, with a [canceled_at] far outside
    the range of [Date]. *)
Definition brokenUpdateEvent : Event :=
  {| ev_id := "evt_2";
     ev_data :=
       CustomerSubscriptionUpdated
         (subscription "active" (VNumber (Finite 100000000000000))) |}.

(** A world like [world], with the environment variable of the ledger
    not set. *)
Definition quietWorld (rows : list UserSubscriptionEntity)
  (ledger : list WebhookEventEntity) : World :=
  {| env_logging := None;
     clock := fun n => (1700000100000 + Z.of_nat n)%Z;
     paymentIntents_retrieve :=
       fun _ _ => Thrown (mkError "No such payment_intent");
     uniqueStripeEventId := false;
     db := database rows ledger;
     clockReads := 0;
     dbFailAfter := None;
     calls := [] |}.

(** A card attached by [cus_1]. *)
Definition cardMethod : PaymentMethod :=
  {| pm_id := "pm_1";
     pm_customer := Some (AsId "cus_1");
     pm_kind := "card";
     pm_card :=
       Some {| card_last4 := "4242"; card_brand := "visa";
               card_exp_month := 12; card_exp_year := 2030 |} |}.

(** A charge of [cus_1], refunded twice: 1000 cents, then 500 cents; the
    list of refunds starts with the latest one. *)
Definition refundedCharge : Charge :=
  {| ch_id := "ch_1";
     ch_customer := Some (AsId "cus_1");
     ch_payment_intent := Some (AsId "pi_1");
     ch_amount_refunded := 1500;
     ch_currency := "usd";
     ch_refunds :=
       [ {| rf_id := "re_2"; rf_amount := 500;
            rf_reason := None; rf_status := Some "succeeded" |};
         {| rf_id := "re_1"; rf_amount := 1000;
            rf_reason := None; rf_status := Some "succeeded" |} ];
     ch_metadata := [] |}.

(** A user without Stripe customer. *)
Definition bob : UserEntity :=
  {| user_id := "user_2"; stripeCustomerId := None |}.

Definition bobData : UserData :=
  {| ud_id := "user_2";
     ud_email := Some "bob@example.com";
     ud_firstName := None;
     ud_lastName := None |}.

(** The world of [world] with [bob] stored after [alice]. *)
Definition worldWithBob : World :=
  setDb (world false [] []) (setUsers (database [] []) [alice; bob]).

(** An SDK that answers every customer request with [cus_2] and refuses
    the other calls. *)
Definition sdk : StripeSdk :=
  {| checkout_sessions_create := fun _ => Thrown (mkError "declined");
     webhooks_constructEvent :=
       fun _ _ _ => Thrown (mkError "No signatures found");
     customers_create := fun _ => Returned {| cus_id := "cus_2" |} |}.

Definition service : StripeService :=
  newStripeService
    {| STRIPE_SECRET_KEY := Some "sk_test_1";
       PAYMENTS_MODE := Some "both";
       STRIPE_WEBHOOK_SECRET := Some "whsec_1" |}
    sdk.

End Sample.

(* ================================================================== *)
(** ** The timestamp converter and the fallback chain *)

Lemma convert_absent (v : JsValue) :
  absentOrZero v = true -> convertStripeTimestamp v = Returned None.
Proof.
  destruct v as [| | b | [| s | q] | s |]; try reflexivity.
  - discriminate.
  - cbv beta iota delta [absentOrZero]. intros Hq.
    unfold convertStripeTimestamp, truthy. rewrite Hq. reflexivity.
Qed.

Tactic Notation "unfold_convert" :=
  cbv beta iota delta
    [convertStripeTimestamp truthy typeofNumber isNaN negb orb
     newDateOf times1000 toISOString inDateRange].
Tactic Notation "unfold_convert" "in" hyp(H) :=
  cbv beta iota delta
    [convertStripeTimestamp truthy typeofNumber isNaN negb orb
     newDateOf times1000 toISOString inDateRange] in H.

Lemma convert_finite (q : Q) :
  Qeq_bool q 0 = false ->
  convertStripeTimestamp (VNumber (Finite q)) =
    match newDateOf (roundToDouble (q * 1000)) with
    | ValidDate ms => Returned (Some (ValidDate ms))
    | InvalidDate => Thrown (mkError "Invalid time value")
    end.
Proof.
  intros Hq.
  cbv beta iota delta
    [convertStripeTimestamp truthy typeofNumber isNaN negb orb times1000].
  rewrite Hq. cbv zeta.
  destruct (newDateOf (roundToDouble (q * 1000))); reflexivity.
Qed.

Lemma convert_zero (q : Q) :
  Qeq_bool q 0 = true ->
  convertStripeTimestamp (VNumber (Finite q)) = Returned None.
Proof.
  intros Hq. unfold_convert. rewrite Hq. reflexivity.
Qed.

Lemma convert_not_number (v : JsValue) :
  typeofNumber v = false -> convertStripeTimestamp v = Returned None.
Proof. destruct v; try reflexivity. discriminate. Qed.

Lemma convert_falsy (v : JsValue) :
  truthy v = false -> convertStripeTimestamp v = Returned None.
Proof.
  intros Hv. apply convert_absent.
  destruct v as [| | b | [| s | q] | s |]; try reflexivity; try discriminate.
  cbv beta iota delta [truthy absentOrZero] in *.
  destruct (Qeq_bool q 0); [ reflexivity | discriminate ].
Qed.

(** *** The rounding of [timestamp * 1000] *)

Lemma roundDiv_between (num den y : Z) :
  (0 < den)%Z ->
  ((y * den <= num)%Z -> (y <= roundDiv num den)%Z)
  /\ ((num <= y * den)%Z -> (roundDiv num den <= y)%Z).
Proof.
  intros Hden. unfold roundDiv.
  pose proof (Z.div_mod num den ltac:(lia)) as Hdm.
  pose proof (Z.mod_pos_bound num den Hden) as Hr.
  set (m := (num / den)%Z) in *. set (r := (num mod den)%Z) in *.
  split; intros Hy.
  - assert (y <= m)%Z by nia.
    destruct (2 * r <? den)%Z; [ lia | ].
    destruct (den <? 2 * r)%Z; [ lia | ].
    destruct (Z.even m); lia.
  - destruct (2 * r <? den)%Z eqn:H1; [ nia | ].
    apply Z.ltb_ge in H1.
    assert (m + 1 <= y)%Z by nia.
    destruct (den <? 2 * r)%Z; [ lia | ].
    destruct (Z.even m); lia.
Qed.

(** Rounding to a unit [2 ^ k] that divides 1 never crosses an integer. *)
Lemma nearestMultiple_between (k : Z) (n d : positive) (y : Z) :
  (k <= 0)%Z ->
  ((y * Zpos d <= Zpos n)%Z -> (y * 2 ^ (- k) <= nearestMultiple k n d)%Z)
  /\ ((Zpos n <= y * Zpos d)%Z -> (nearestMultiple k n d <= y * 2 ^ (- k))%Z).
Proof.
  intros Hk. unfold nearestMultiple.
  destruct (0 <=? k)%Z eqn:H0.
  - apply Z.leb_le in H0. assert (k = 0%Z) by lia. subst k.
    change (2 ^ (- 0))%Z with 1%Z. change (2 ^ 0)%Z with 1%Z.
    rewrite !Z.mul_1_r.
    apply roundDiv_between. lia.
  - assert (Hpow : (0 < 2 ^ (- k))%Z) by (apply Z.pow_pos_nonneg; lia).
    destruct (roundDiv_between (Zpos n * 2 ^ (- k)) (Zpos d) (y * 2 ^ (- k))
                ltac:(lia)) as [Hlow Hhigh].
    split; intros Hy; [ apply Hlow | apply Hhigh ]; nia.
Qed.

Lemma binade_le_52 (n d : positive) :
  (Zpos n < 2 ^ 53 * Zpos d)%Z -> (binade n d <= 52)%Z.
Proof.
  intros Hlt. unfold binade.
  set (e := (Z.log2 (Zpos n) - Z.log2 (Zpos d))%Z).
  assert (He : (e <= 53)%Z).
  { unfold e.
    assert (Z.log2 (Zpos n) <= Z.log2 (Zpos d * 2 ^ 53))%Z
      by (apply Z.log2_le_mono; lia).
    rewrite Z.log2_mul_pow2 in H by lia. lia. }
  destruct (0 <=? e)%Z eqn:Hsign.
  - destruct (Zpos d * 2 ^ e <=? Zpos n)%Z eqn:Htest; [ | lia ].
    apply Z.leb_le in Htest.
    destruct (Z.eq_dec e 53) as [Heq | Hne]; [ | lia ].
    rewrite Heq in Htest. lia.
  - apply Z.leb_gt in Hsign.
    destruct (Zpos d <=? Zpos n * 2 ^ (- e))%Z; lia.
Qed.

(** A positive number in the range of [Date] rounds to a finite number
    [m / K] between its floor and its ceiling. *)
Lemma roundMagnitude_in_range (n d : positive) :
  (Zpos n <= maxTime * Zpos d)%Z ->
  exists m K : Z,
    roundMagnitude n d = Some (Qmake m (Z.to_pos K))
    /\ (0 < K)%Z
    /\ (Zpos n / Zpos d * K <= m)%Z
    /\ (m <= - (- Zpos n / Zpos d) * K)%Z
    /\ (m <= maxTime * K)%Z.
Proof.
  intros Hrange. unfold roundMagnitude.
  assert (Hk : (Z.max (binade n d) (-1022) - 52 <= 0)%Z).
  { assert (binade n d <= 52)%Z; [ | lia ].
    apply binade_le_52. unfold maxTime in Hrange. lia. }
  set (k := (Z.max (binade n d) (-1022) - 52)%Z) in *.
  set (m := nearestMultiple k n d).
  assert (Hpow : (0 < 2 ^ (- k))%Z) by (apply Z.pow_pos_nonneg; lia).
  assert (Hfloor : (Zpos n / Zpos d * 2 ^ (- k) <= m)%Z).
  { apply (nearestMultiple_between k n d); [ exact Hk | ].
    pose proof (Z.mul_div_le (Zpos n) (Zpos d) ltac:(lia)). lia. }
  assert (Hceil : (m <= - (- Zpos n / Zpos d) * 2 ^ (- k))%Z).
  { apply (nearestMultiple_between k n d); [ exact Hk | ].
    pose proof (Z.mul_div_le (- Zpos n) (Zpos d) ltac:(lia)). lia. }
  assert (Hmax : (m <= maxTime * 2 ^ (- k))%Z).
  { apply (nearestMultiple_between k n d); [ exact Hk | lia ]. }
  exists m, (2 ^ (- k))%Z.
  split; [ | repeat split; assumption ].
  unfold scaled. destruct (0 <=? k)%Z eqn:H0.
  - apply Z.leb_le in H0. assert (Hz : k = 0%Z) by lia.
    rewrite Hz in *. change (2 ^ (- 0))%Z with 1%Z in *.
    change (2 ^ 0)%Z with 1%Z. rewrite Z.mul_1_r in *.
    assert (Hsmall : (2 ^ 1024 <=? m)%Z = false).
    { apply Z.leb_gt. unfold maxTime in Hmax.
      assert (8640000000000000 < 2 ^ 1024)%Z by reflexivity. lia. }
    rewrite Hsmall. reflexivity.
  - reflexivity.
Qed.

Lemma newDateOf_fraction (m K : Z) :
  (0 < K)%Z -> (0 <= m)%Z -> (m <= maxTime * K)%Z ->
  newDateOf (Finite (Qmake m (Z.to_pos K))) = ValidDate (m / K)
  /\ newDateOf (Finite (- Qmake m (Z.to_pos K))) = ValidDate (- (m / K)).
Proof.
  intros HK Hm Hmax.
  assert (Hid : Zpos (Z.to_pos K) = K) by (apply Z2Pos.id; exact HK).
  unfold newDateOf, truncQ, Qopp.
  cbv beta iota delta [Qnum Qden Qabs].
  assert (Hle : forall z, Z.abs z = m ->
            Qle_bool (Z.abs z # Z.to_pos K) (inject_Z maxTime) = true).
  { intros z Hz. apply Qle_bool_iff. unfold Qle, inject_Z.
    cbv beta iota delta [Qnum Qden]. rewrite Hz, Hid. lia. }
  rewrite (Hle m) by lia. rewrite (Hle (- m)%Z) by lia.
  rewrite Hid. split.
  - rewrite Z.quot_div_nonneg by lia. reflexivity.
  - rewrite Z.quot_opp_l by lia. rewrite Z.quot_div_nonneg by lia. reflexivity.
Qed.

(** The date of a number in the range of [Date], after rounding to a
    double: its time value lies between the floor and the ceiling of the
    number, so it is the number itself when that is an integer. *)
Lemma newDateOf_roundToDouble (x : Q) :
  Qle_bool (Qabs x) (inject_Z maxTime) = true ->
  exists ms,
    newDateOf (roundToDouble x) = ValidDate ms
    /\ (Qfloor x <= ms <= Qceiling x)%Z.
Proof.
  intros Hrange. apply Qle_bool_iff in Hrange.
  destruct x as [a d]. unfold Qle, inject_Z, Qabs in Hrange.
  cbv beta iota delta [Qnum Qden] in Hrange.
  unfold roundToDouble, Qceiling, Qfloor, Qopp.
  cbv beta iota delta [Qnum Qden].
  destruct a as [|n|n].
  - exists 0%Z. split; [ reflexivity | ].
    change (- 0)%Z with 0%Z. rewrite Z.div_0_l by lia. lia.
  - change (Z.abs (Zpos n)) with (Zpos n) in Hrange.
    destruct (roundMagnitude_in_range n d ltac:(lia))
      as (m & K & Hround & HK & Hfloor & Hceil & Hmax).
    assert (Hm : (0 <= m)%Z).
    { pose proof (Z.div_pos (Zpos n) (Zpos d) ltac:(lia) ltac:(lia)). nia. }
    rewrite Hround.
    exists (m / K)%Z.
    split; [ exact (proj1 (newDateOf_fraction m K HK Hm Hmax)) | ].
    split.
    + apply Z.div_le_lower_bound; lia.
    + apply Z.div_le_upper_bound; lia.
  - change (Z.abs (Zneg n)) with (Zpos n) in Hrange.
    destruct (roundMagnitude_in_range n d ltac:(lia))
      as (m & K & Hround & HK & Hfloor & Hceil & Hmax).
    assert (Hm : (0 <= m)%Z).
    { pose proof (Z.div_pos (Zpos n) (Zpos d) ltac:(lia) ltac:(lia)). nia. }
    rewrite Hround.
    exists (- (m / K))%Z.
    split; [ exact (proj2 (newDateOf_fraction m K HK Hm Hmax)) | ].
    change (- Zneg n)%Z with (Zpos n).
    change (Zneg n) with (- Zpos n)%Z.
    assert (Zpos n / Zpos d <= m / K)%Z
      by (apply Z.div_le_lower_bound; lia).
    assert (m / K <= - (- Zpos n / Zpos d))%Z
      by (apply Z.div_le_upper_bound; lia).
    lia.
Qed.

Lemma newDateOf_roundToDouble_integer (z : Z) :
  (Z.abs z <= maxTime)%Z ->
  newDateOf (roundToDouble (inject_Z z)) = ValidDate z.
Proof.
  intros Hz.
  destruct (newDateOf_roundToDouble (inject_Z z)) as (ms & Hdate & Hlow & Hhigh).
  - apply Qle_bool_iff. unfold Qle, inject_Z, Qabs.
    cbv beta iota delta [Qnum Qden]. lia.
  - rewrite Hdate. f_equal.
    unfold Qceiling, Qfloor, inject_Z, Qopp in *.
    cbv beta iota delta [Qnum Qden] in *.
    rewrite !Z.div_1_r in *. lia.
Qed.

(** The converter on a number in the range of [Date]. *)
Lemma convert_in_range (q : Q) :
  Qeq_bool q 0 = false -> inDateRange q = true ->
  exists ms,
    convertStripeTimestamp (VNumber (Finite q)) = Returned (Some (ValidDate ms))
    /\ (Qfloor (q * 1000) <= ms <= Qceiling (q * 1000))%Z
    /\ (q < 0 -> (ms <= 0)%Z).
Proof.
  intros Hq Hrange. rewrite (convert_finite q Hq).
  destruct (newDateOf_roundToDouble (q * 1000) Hrange) as (ms & Hdate & Hms).
  exists ms. rewrite Hdate. split; [ reflexivity | ]. split; [ exact Hms | ].
  intros Hneg.
  assert (Hceil : (Qceiling (q * 1000) <= 0)%Z).
  { change 0%Z with (Qceiling 0). apply Qceiling_resp_le.
    destruct q as [a d]. unfold Qlt, Qle, Qmult in *.
    cbv beta iota delta [Qnum Qden] in *. lia. }
  lia.
Qed.

(** The converter on a whole number of seconds. *)
Lemma convert_whole (z : Z) :
  z <> 0%Z -> (Z.abs z * 1000 <= maxTime)%Z ->
  convertStripeTimestamp (VNumber (Finite (inject_Z z)))
  = Returned (Some (ValidDate (z * 1000))).
Proof.
  intros Hz Hrange.
  assert (Hq : Qeq_bool (inject_Z z) 0 = false).
  { destruct (Qeq_bool (inject_Z z) 0) eqn:H; [ | reflexivity ].
    apply Qeq_bool_iff in H. unfold Qeq, inject_Z in H.
    cbv beta iota delta [Qnum Qden] in H. lia. }
  rewrite (convert_finite _ Hq).
  change (inject_Z z * 1000) with (inject_Z (z * 1000)).
  rewrite newDateOf_roundToDouble_integer; [ reflexivity | ].
  rewrite Z.abs_mul. change (Z.abs 1000) with 1000%Z. exact Hrange.
Qed.

(** C5, as stated, fails: the negative number [-5] is on the list of
    invalid inputs, yet the converter returns the date 5000 ms before the
    epoch for it instead of [null]. *)
Lemma convertStripeTimestamp_negative_counterexample :
  listedInvalid (VNumber (Finite (-5))) = true
  /\ convertStripeTimestamp (VNumber (Finite (-5))) = Returned (Some (ValidDate (-5000)))
  /\ convertStripeTimestamp (VNumber (Finite (-5))) <> Returned None.
Proof.
  split; [ reflexivity | split; [ reflexivity | discriminate ] ].
Qed.

(** C5, amended: the converter returns [null] exactly when the input is
    [null]/[undefined], not a number, [NaN] or zero.  For every other
    finite number, negative ones included, whose value times 1000 is in
    the range of [Date], it returns a date.  The time value of that date
    lies between the floor and the ceiling of [input * 1000] (the product
    is rounded to a double, then truncated), so it is [input * 1000]
    whenever that is an integer: a whole number of seconds, positive or
    negative, gives the date at exactly [input * 1000] ms.  So no date at
    all comes from an input of the first kind, and a negative input gives
    a date at or before the epoch, not [null]. *)
Theorem convertStripeTimestamp_amended (v : JsValue) :
  (convertStripeTimestamp v = Returned None <-> absentOrZero v = true)
  /\ (forall q, v = VNumber (Finite q) -> Qeq_bool q 0 = false ->
        inDateRange q = true ->
        exists ms,
          convertStripeTimestamp v = Returned (Some (ValidDate ms))
          /\ (Qfloor (q * 1000) <= ms <= Qceiling (q * 1000))%Z
          /\ (q < 0 -> (ms <= 0)%Z))
  /\ (forall z, v = VNumber (Finite (inject_Z z)) -> z <> 0%Z ->
        (Z.abs z * 1000 <= maxTime)%Z ->
        convertStripeTimestamp v = Returned (Some (ValidDate (z * 1000)))).
Proof.
  split; [ split | split ].
  - destruct v as [| | b | [| s | q] | s |]; try reflexivity.
    + intros H; unfold_convert in H; discriminate H.
    + cbv beta iota delta [absentOrZero].
      destruct (Qeq_bool q 0) eqn:Hq; [ reflexivity | ].
      rewrite (convert_finite q Hq).
      destruct (newDateOf (roundToDouble (q * 1000))); discriminate.
  - apply convert_absent.
  - intros q -> Hq Hr. exact (convert_in_range q Hq Hr).
  - intros z -> Hz Hr. exact (convert_whole z Hz Hr).
Qed.

Lemma convertStripeTimestamp_amended_witness :
  convertStripeTimestamp (VNumber (Finite (inject_Z 1700000000)))
  = Returned (Some (ValidDate (1700000000 * 1000)))
  /\ (exists ms,
        convertStripeTimestamp (VNumber (Finite (3565158400002097 # 2097152)))
        = Returned (Some (ValidDate ms))
        /\ (Qfloor ((3565158400002097 # 2097152) * 1000) <= ms
            <= Qceiling ((3565158400002097 # 2097152) * 1000))%Z
        /\ ((3565158400002097 # 2097152) < 0 -> (ms <= 0)%Z)).
Proof.
  split.
  - exact (proj2 (proj2 (convertStripeTimestamp_amended
                           (VNumber (Finite (inject_Z 1700000000)))))
             1700000000%Z eq_refl ltac:(discriminate)
             ltac:(vm_compute; discriminate)).
  - exact (proj1 (proj2 (convertStripeTimestamp_amended
                           (VNumber (Finite (3565158400002097 # 2097152)))))
             (3565158400002097 # 2097152) eq_refl eq_refl eq_refl).
Defined.

(** The converter on three numbers that are not whole seconds.  The first
    is the double nearest to 1700000000.001: its exact value times 1000
    lies just below 1700000000001, the product rounds to that integer,
    and the date is one millisecond after the truncated exact product.
    The second gives the epoch itself, the third the millisecond before
    it. *)
Example convert_fractions :
  convertStripeTimestamp (VNumber (Finite (3565158400002097 # 2097152)))
  = Returned (Some (ValidDate 1700000000001))
  /\ truncQ ((3565158400002097 # 2097152) * 1000) = 1700000000000%Z
  /\ convertStripeTimestamp (VNumber (Finite (1 # 4096)))
     = Returned (Some (ValidDate 0))
  /\ convertStripeTimestamp (VNumber (Finite (- 3 # 2048)))
     = Returned (Some (ValidDate (-1))).
Proof. vm_compute. repeat split; reflexivity. Qed.


(* ================================================================== *)
(** ** Running the repositories *)

Lemma sample_keyed (status : SubscriptionStatus.t) (n : Z) :
  keyed [Sample.row status n].
Proof.
  split.
  - constructor; [ intros [] | constructor ].
  - constructor; [ discriminate | constructor ].
Defined.

Lemma bind_returned {A B} (m : M A) (k : A -> M B) (w w' : World) (a : A) :
  m w = (Returned a, w') -> bind m k w = k a w'.
Proof. unfold bind. intros ->. reflexivity. Qed.

Lemma bind_thrown {A B} (m : M A) (k : A -> M B) (w w' : World) (e : JsError) :
  m w = (Thrown e, w') -> bind m k w = (Thrown e, w').
Proof. unfold bind. intros ->. reflexivity. Qed.

Lemma dbCall_up (w : World) :
  dbFailAfter w = None -> dbCall w = (Returned tt, w).
Proof. unfold dbCall. intros ->. reflexivity. Qed.

Lemma userRepository_findOne_up (customerId : string) (w : World) :
  dbFailAfter w = None ->
  userRepository_findOne customerId w
  = (Returned (find (hasCustomer customerId) (users (db w))), w).
Proof.
  intros Hup. unfold userRepository_findOne.
  rewrite (bind_returned _ _ _ _ _ (dbCall_up w Hup)). reflexivity.
Qed.

(** Whatever the state of the database, a lookup changes no table. *)
Lemma userRepository_findOne_cases (customerId : string) (w : World) :
  (exists e, userRepository_findOne customerId w = (Thrown e, w))
  \/ (exists w',
        userRepository_findOne customerId w
        = (Returned (find (hasCustomer customerId) (users (db w))), w')
        /\ db w' = db w /\ calls w' = calls w).
Proof.
  unfold userRepository_findOne, bind, dbCall, getDb, ret.
  destruct (dbFailAfter w) as [[|n]|].
  - left. eexists. reflexivity.
  - right. eexists. split; [ reflexivity | split; reflexivity ].
  - right. eexists. split; [ reflexivity | split; reflexivity ].
Qed.

Lemma subscriptionRepository_findOne_up (sid : string) (w : World) :
  dbFailAfter w = None ->
  subscriptionRepository_findOne sid w
  = (Returned (find (hasSubscriptionId sid) (subscriptions (db w))), w).
Proof.
  intros Hup. unfold subscriptionRepository_findOne.
  rewrite (bind_returned _ _ _ _ _ (dbCall_up w Hup)). reflexivity.
Qed.

Lemma transactionRepository_save_up (t : StripeTransactionEntity) (w : World) :
  dbFailAfter w = None ->
  transactionRepository_save t w
  = (Returned t, setDb w (setTransactions (db w) (transactions (db w) ++ [t])%list)).
Proof.
  intros Hup. unfold transactionRepository_save.
  rewrite (bind_returned _ _ _ _ _ (dbCall_up w Hup)). reflexivity.
Qed.

Lemma find_existsb_key (sid : string) (rows : list UserSubscriptionEntity)
  (us : UserSubscriptionEntity) (k : nat) :
  find (hasSubscriptionId sid) rows = Some us -> sub_id us = Some k ->
  existsb (hasKey k) rows = true.
Proof.
  intros Hfind Hk. apply find_some in Hfind. destruct Hfind as [Hin _].
  apply existsb_exists. exists us. split; [ exact Hin | ].
  unfold hasKey. rewrite Hk. apply Nat.eqb_refl.
Qed.

Lemma subscriptionRepository_save_stored (s : UserSubscriptionEntity) (k : nat)
  (w : World) :
  dbFailAfter w = None -> sub_id s = Some k ->
  existsb (hasKey k) (subscriptions (db w)) = true ->
  subscriptionRepository_save s w
  = (Returned tt,
     setDb w (setSubscriptions (db w) (replaceRow k s (subscriptions (db w))))).
Proof.
  intros Hup Hk Hex. unfold subscriptionRepository_save.
  rewrite (bind_returned _ _ _ _ _ (dbCall_up w Hup)).
  unfold bind, getDb. rewrite Hk, Hex. reflexivity.
Qed.

Lemma subscriptionRepository_save_new (s : UserSubscriptionEntity) (w : World) :
  dbFailAfter w = None -> sub_id s = None ->
  subscriptionRepository_save s w
  = (Returned tt,
     setDb w (setSubscriptions (db w)
                (subscriptions (db w)
                   ++ [withKey (nextKey (subscriptions (db w))) s])%list)).
Proof.
  intros Hup Hk. unfold subscriptionRepository_save.
  rewrite (bind_returned _ _ _ _ _ (dbCall_up w Hup)).
  unfold bind, getDb. rewrite Hk. reflexivity.
Qed.

(** After a found row is overwritten under its own key by an entity with
    the same Stripe id, a lookup by that id finds the new entity. *)
Lemma find_replaceRow (sid : string) (rows : list UserSubscriptionEntity)
  (us us' : UserSubscriptionEntity) (k : nat) :
  NoDup (map sub_id rows) ->
  find (hasSubscriptionId sid) rows = Some us ->
  sub_id us = Some k ->
  sub_stripeSubscriptionId us' = sid ->
  find (hasSubscriptionId sid) (replaceRow k us' rows) = Some us'.
Proof.
  intros Hnd Hfind Hk Hsid.
  induction rows as [| r rest IH]; [ discriminate | ].
  cbn [find replaceRow map] in *.
  destruct (hasSubscriptionId sid r) eqn:Hr.
  - inversion Hfind; subst r.
    assert (Hkey : hasKey k us = true)
      by (unfold hasKey; rewrite Hk; apply Nat.eqb_refl).
    assert (Hnew : hasSubscriptionId sid us' = true)
      by (unfold hasSubscriptionId; rewrite Hsid; apply String.eqb_refl).
    rewrite Hkey, Hnew. reflexivity.
  - inversion Hnd as [| x l Hnotin Hnd']; subst.
    assert (Hkey : hasKey k r = false).
    { unfold hasKey. destruct (sub_id r) as [i|] eqn:Hi; [ | reflexivity ].
      destruct (Nat.eqb i k) eqn:Hik; [ | reflexivity ].
      apply Nat.eqb_eq in Hik; subst i.
      exfalso. apply Hnotin.
      apply find_some in Hfind. destruct Hfind as [Hin _].
      rewrite <- Hk. apply in_map. exact Hin. }
    rewrite Hkey, Hr. apply IH; assumption.
Qed.

Lemma recordTransaction_up
  (userId : string) (ref : option Expandable)
  (type : TransactionType.t) (amount : Q) (currency : string)
  (status : TransactionStatus.t) (description : string) (metadata : Metadata)
  (failureReason : option string) (stripeFee netAmount : option Q)
  (processedAt : option JsDate) (w : World) :
  dbFailAfter w = None ->
  let t := transactionOf userId ref type amount currency status description
             metadata failureReason stripeFee netAmount processedAt in
  recordTransaction userId ref type amount currency status description
    metadata failureReason stripeFee netAmount processedAt w
  = (Returned t, setDb w (setTransactions (db w) (transactions (db w) ++ [t])%list)).
Proof.
  intros Hup t. unfold recordTransaction. fold t.
  rewrite (bind_returned _ _ _ _ _ (transactionRepository_save_up t w Hup)).
  reflexivity.
Qed.

Lemma keyed_found (rows : list UserSubscriptionEntity) (sid : string)
  (us : UserSubscriptionEntity) :
  keyed rows -> find (hasSubscriptionId sid) rows = Some us ->
  exists k, sub_id us = Some k /\ sub_stripeSubscriptionId us = sid.
Proof.
  intros [_ Hkeys] Hfind.
  apply find_some in Hfind. destruct Hfind as [Hin Hsid].
  rewrite Forall_forall in Hkeys. specialize (Hkeys us Hin).
  destruct (sub_id us) as [k|]; [ | contradiction ].
  exists k. split; [ reflexivity | ]. apply String.eqb_eq. exact Hsid.
Qed.

Lemma returns_inv {A} (o : Outcome A) :
  returns o = true -> exists a, o = Returned a.
Proof. destruct o as [a|e]; [ eauto | discriminate ]. Qed.

(** [handleSubscriptionUpdated] on a stored subscription and a payload
    whose dates convert: the row is overwritten by
    [applySubscriptionUpdate]. *)
Lemma handleSubscriptionUpdated_stored (subscription : Subscription)
  (w : World) (us : UserSubscriptionEntity) :
  dbFailAfter w = None ->
  keyed (subscriptions (db w)) ->
  find (hasSubscriptionId (s_id subscription)) (subscriptions (db w)) = Some us ->
  updateDatesConvert subscription = true ->
  exists w' ps pe ca ea,
    handleSubscriptionUpdated subscription w = (Returned tt, w')
    /\ resolvePeriodStart subscription = Returned ps
    /\ resolvePeriodEnd subscription = Returned pe
    /\ convertStripeTimestamp (s_canceled_at subscription) = Returned ca
    /\ convertStripeTimestamp (s_ended_at subscription) = Returned ea
    /\ find (hasSubscriptionId (s_id subscription)) (subscriptions (db w'))
       = Some (applySubscriptionUpdate subscription us ps pe ca ea)
    /\ transactions (db w') = transactions (db w)
    /\ dbFailAfter w' = None.
Proof.
  intros Hup Hkeyed Hfind Hdates.
  destruct (keyed_found _ _ _ Hkeyed Hfind) as (k & Hk & Hsid).
  unfold updateDatesConvert in Hdates.
  apply andb_prop in Hdates. destruct Hdates as [Hdates Hea].
  apply andb_prop in Hdates. destruct Hdates as [Hdates Hca].
  apply andb_prop in Hdates. destruct Hdates as [Hps Hpe].
  apply returns_inv in Hps, Hpe, Hca, Hea.
  destruct Hps as [ps Hps]. destruct Hpe as [pe Hpe].
  destruct Hca as [ca Hca]. destruct Hea as [ea Hea].
  set (w1 := setCalls w (HSubscriptionUpdated :: calls w)).
  set (us' := applySubscriptionUpdate subscription us ps pe ca ea).
  exists (setDb w1 (setSubscriptions (db w1)
                      (replaceRow k us' (subscriptions (db w1))))).
  exists ps, pe, ca, ea.
  split; [ | repeat split; try assumption ].
  - unfold handleSubscriptionUpdated.
    rewrite (bind_returned (enter HSubscriptionUpdated) _ w w1 tt eq_refl).
    rewrite (bind_returned _ _ _ _ _
               (subscriptionRepository_findOne_up (s_id subscription) w1 Hup)).
    assert (Hfind1 : find (hasSubscriptionId (s_id subscription))
                          (subscriptions (db w1)) = Some us) by exact Hfind.
    rewrite Hfind1.
    unfold liftOutcome.
    rewrite (bind_returned _ _ w1 w1 ps) by (rewrite Hps; reflexivity).
    rewrite (bind_returned _ _ w1 w1 pe) by (rewrite Hpe; reflexivity).
    rewrite (bind_returned _ _ w1 w1 ca) by (rewrite Hca; reflexivity).
    rewrite (bind_returned _ _ w1 w1 ea) by (rewrite Hea; reflexivity).
    exact (subscriptionRepository_save_stored us' k w1 Hup Hk
             (find_existsb_key _ _ _ _ Hfind Hk)).
  - change (find (hasSubscriptionId (s_id subscription))
              (replaceRow k us' (subscriptions (db w))) = Some us').
    apply (find_replaceRow _ _ us); try assumption.
    destruct Hkeyed as [Hnd _]. exact Hnd.
Qed.

(* ================================================================== *)
(** ** Subscription updates *)

(** C6: a subscription-updated event on a stored subscription sets
    [failedPaymentCount] to zero when the previous local status was
    PAST_DUE and the new mapped status is ACTIVE, and leaves the counter as
    it was on every other transition. *)
Theorem updated_resets_failedPaymentCount (subscription : Subscription)
  (w : World) (us : UserSubscriptionEntity) :
  dbFailAfter w = None ->
  keyed (subscriptions (db w)) ->
  find (hasSubscriptionId (s_id subscription)) (subscriptions (db w)) = Some us ->
  updateDatesConvert subscription = true ->
  exists w' us',
    handleSubscriptionUpdated subscription w = (Returned tt, w')
    /\ find (hasSubscriptionId (s_id subscription)) (subscriptions (db w'))
       = Some us'
    /\ sub_failedPaymentCount us' =
         if SubscriptionStatus.eqb (sub_status us) SubscriptionStatus.PAST_DUE
            && SubscriptionStatus.eqb
                 (mapStripeSubscriptionStatus (s_status subscription))
                 SubscriptionStatus.ACTIVE
         then 0%Z
         else sub_failedPaymentCount us.
Proof.
  intros Hup Hkeyed Hfind Hdates.
  destruct (handleSubscriptionUpdated_stored subscription w us
              Hup Hkeyed Hfind Hdates)
    as (w' & ps & pe & ca & ea & Hrun & _ & _ & _ & _ & Hfound & _).
  exists w', (applySubscriptionUpdate subscription us ps pe ca ea).
  split; [ exact Hrun | split; [ exact Hfound | ] ].
  cbn [applySubscriptionUpdate sub_failedPaymentCount].
  rewrite andb_comm. reflexivity.
Qed.

Lemma updated_resets_failedPaymentCount_witness :
  exists w' us',
    handleSubscriptionUpdated (Sample.subscription "active" VNull)
      (Sample.world false [Sample.row SubscriptionStatus.PAST_DUE 2] [])
    = (Returned tt, w')
    /\ find (hasSubscriptionId "sub_1") (subscriptions (db w')) = Some us'
    /\ sub_failedPaymentCount us' = 0%Z.
Proof.
  exact (updated_resets_failedPaymentCount
           (Sample.subscription "active" VNull)
           (Sample.world false [Sample.row SubscriptionStatus.PAST_DUE 2] [])
           (Sample.row SubscriptionStatus.PAST_DUE 2)
           eq_refl (sample_keyed _ _) eq_refl eq_refl).
Defined.

(** [handleSubscriptionDeleted] on a stored subscription: the row is
    overwritten by [applySubscriptionDelete] with two successive readings
    of the clock. *)
Lemma handleSubscriptionDeleted_stored (subscription : Subscription)
  (w : World) (us : UserSubscriptionEntity) :
  dbFailAfter w = None ->
  keyed (subscriptions (db w)) ->
  storedSubscription (s_id subscription) w = Some us ->
  exists w',
    handleSubscriptionDeleted subscription w = (Returned tt, w')
    /\ storedSubscription (s_id subscription) w'
       = Some (applySubscriptionDelete us
                 (ValidDate (clock w (clockReads w)))
                 (ValidDate (clock w (S (clockReads w))))).
Proof.
  intros Hup Hkeyed Hfind. unfold storedSubscription in *.
  destruct (keyed_found _ _ _ Hkeyed Hfind) as (k & Hk & Hsid).
  set (w1 := setCalls w (HSubscriptionDeleted :: calls w)).
  set (w2 := setClockReads w1 (S (clockReads w1))).
  set (w3 := setClockReads w2 (S (clockReads w2))).
  set (us' := applySubscriptionDelete us
                (ValidDate (clock w (clockReads w)))
                (ValidDate (clock w (S (clockReads w))))).
  exists (setDb w3 (setSubscriptions (db w3)
                      (replaceRow k us' (subscriptions (db w3))))).
  split.
  - unfold handleSubscriptionDeleted.
    rewrite (bind_returned (enter HSubscriptionDeleted) _ w w1 tt eq_refl).
    rewrite (bind_returned _ _ _ _ _
               (subscriptionRepository_findOne_up (s_id subscription) w1 Hup)).
    assert (Hfind1 : find (hasSubscriptionId (s_id subscription))
                          (subscriptions (db w1)) = Some us) by exact Hfind.
    rewrite Hfind1.
    rewrite (bind_returned newDate _ w1 w2 (ValidDate (clock w (clockReads w)))
               eq_refl).
    rewrite (bind_returned newDate _ w2 w3
               (ValidDate (clock w (S (clockReads w)))) eq_refl).
    exact (subscriptionRepository_save_stored us' k w3 Hup Hk
             (find_existsb_key _ _ _ _ Hfind Hk)).
  - change (find (hasSubscriptionId (s_id subscription))
              (replaceRow k us' (subscriptions (db w))) = Some us').
    apply (find_replaceRow _ _ us); try assumption.
    destruct Hkeyed as [Hnd _]. exact Hnd.
Qed.

(** C8, as stated, fails: [sub_1] is deleted, so its status is CANCELED;
    the subscription-updated event with status [active] that follows moves
    it to ACTIVE. *)
Lemma late_update_reverts_canceled_counterexample :
  let w0 := Sample.world false [Sample.row SubscriptionStatus.ACTIVE 0] [] in
  let w1 := worldAfter (handleSubscriptionDeleted
                          (Sample.subscription "canceled" VNull)) w0 in
  let w2 := worldAfter (handleSubscriptionUpdated
                          (Sample.subscription "active" VNull)) w1 in
  option_map sub_status (storedSubscription "sub_1" w1)
    = Some SubscriptionStatus.CANCELED
  /\ outcomeOf (handleSubscriptionUpdated
                  (Sample.subscription "active" VNull)) w1 = Returned tt
  /\ option_map sub_status (storedSubscription "sub_1" w2)
    = Some SubscriptionStatus.ACTIVE.
Proof.
  vm_compute. repeat split; reflexivity.
Qed.

(** C8, amended: a subscription-deleted event for a stored subscription
    sets its status to CANCELED and sets [canceledAt] and [endedAt] to the
    two clock readings taken while it is processed.  A subscription-updated
    event for a stored subscription, whatever its stored status, CANCELED
    included, sets the status to the status that the event maps to: a
    CANCELED subscription stays CANCELED exactly when the event maps to
    CANCELED. *)
Theorem deleted_cancels_updated_overwrites :
  (forall (subscription : Subscription) (w : World) (us : UserSubscriptionEntity),
      dbFailAfter w = None ->
      keyed (subscriptions (db w)) ->
      storedSubscription (s_id subscription) w = Some us ->
      exists w' us',
        handleSubscriptionDeleted subscription w = (Returned tt, w')
        /\ storedSubscription (s_id subscription) w' = Some us'
        /\ sub_status us' = SubscriptionStatus.CANCELED
        /\ sub_canceledAt us' = Some (ValidDate (clock w (clockReads w)))
        /\ sub_endedAt us' = Some (ValidDate (clock w (S (clockReads w)))))
  /\
  (forall (subscription : Subscription) (w : World) (us : UserSubscriptionEntity),
      dbFailAfter w = None ->
      keyed (subscriptions (db w)) ->
      storedSubscription (s_id subscription) w = Some us ->
      updateDatesConvert subscription = true ->
      exists w' us',
        handleSubscriptionUpdated subscription w = (Returned tt, w')
        /\ storedSubscription (s_id subscription) w' = Some us'
        /\ sub_status us' = mapStripeSubscriptionStatus (s_status subscription)).
Proof.
  split.
  - intros subscription w us Hup Hkeyed Hfind.
    destruct (handleSubscriptionDeleted_stored subscription w us
                Hup Hkeyed Hfind) as (w' & Hrun & Hfound).
    exists w'. eexists. split; [ exact Hrun | split; [ exact Hfound | ] ].
    repeat split; reflexivity.
  - intros subscription w us Hup Hkeyed Hfind Hdates.
    destruct (handleSubscriptionUpdated_stored subscription w us
                Hup Hkeyed Hfind Hdates)
      as (w' & ps & pe & ca & ea & Hrun & _ & _ & _ & _ & Hfound & _).
    exists w'. eexists. split; [ exact Hrun | split; [ exact Hfound | ] ].
    reflexivity.
Qed.

Lemma deleted_cancels_updated_overwrites_witness :
  (exists w' us',
      handleSubscriptionDeleted (Sample.subscription "canceled" VNull)
        (Sample.world false [Sample.row SubscriptionStatus.ACTIVE 0] [])
      = (Returned tt, w')
      /\ storedSubscription "sub_1" w' = Some us'
      /\ sub_status us' = SubscriptionStatus.CANCELED
      /\ sub_canceledAt us' = Some (ValidDate 1700000100000)
      /\ sub_endedAt us' = Some (ValidDate 1700000100001))
  /\
  (exists w' us',
      handleSubscriptionUpdated (Sample.subscription "past_due" VNull)
        (Sample.world false [Sample.row SubscriptionStatus.CANCELED 0] [])
      = (Returned tt, w')
      /\ storedSubscription "sub_1" w' = Some us'
      /\ sub_status us' = SubscriptionStatus.PAST_DUE).
Proof.
  split.
  - exact (proj1 deleted_cancels_updated_overwrites
             (Sample.subscription "canceled" VNull)
             (Sample.world false [Sample.row SubscriptionStatus.ACTIVE 0] [])
             (Sample.row SubscriptionStatus.ACTIVE 0)
             eq_refl (sample_keyed _ _) eq_refl).
  - exact (proj2 deleted_cancels_updated_overwrites
             (Sample.subscription "past_due" VNull)
             (Sample.world false [Sample.row SubscriptionStatus.CANCELED 0] [])
             (Sample.row SubscriptionStatus.CANCELED 0)
             eq_refl (sample_keyed _ _) eq_refl eq_refl).
Defined.

(* ================================================================== *)
(** ** Failed invoice payments *)

Lemma failureReasonOf_pure (invoice : Invoice) (w : World) :
  exists reason, failureReasonOf invoice w = (Returned reason, w).
Proof.
  unfold failureReasonOf.
  destruct (inv_payment_intent invoice) as [[pid|pid]|]; try (eexists; reflexivity).
  destruct (refTruthy (Some (AsId pid))); try (eexists; reflexivity).
  unfold tryCatch, bind, stripeRetrieve.
  destruct (paymentIntents_retrieve w pid false) as [paymentIntent|e];
    try (eexists; reflexivity).
  destruct (pi_last_payment_error paymentIntent); eexists; reflexivity.
Qed.

(** C7, as stated, fails: the invoice references the stored subscription
    [sub_1], but its customer is linked to no local user; the handler
    returns without touching the subscription, whose counter stays 0. *)
Lemma invoice_failed_unlinked_customer_counterexample :
  let w0 := Sample.world false [Sample.row SubscriptionStatus.ACTIVE 0] [] in
  let invoice := Sample.invoice (Some (AsId "cus_unknown")) 5000 0 in
  let w1 := worldAfter (handleInvoicePaymentFailed invoice) w0 in
  option_map sub_failedPaymentCount (storedSubscription "sub_1" w0) = Some 0%Z
  /\ inv_subscription invoice = Some (AsId "sub_1")
  /\ outcomeOf (handleInvoicePaymentFailed invoice) w0 = Returned tt
  /\ option_map sub_failedPaymentCount (storedSubscription "sub_1" w1) = Some 0%Z
  /\ option_map sub_status (storedSubscription "sub_1" w1)
     = Some SubscriptionStatus.ACTIVE.
Proof.
  vm_compute. repeat split; reflexivity.
Qed.

(** C7, amended: for an invoice-payment-failed event whose customer is
    linked to a local user and whose invoice references a stored
    subscription, [failedPaymentCount] grows by exactly one; when the new
    count is 1 the status becomes PAST_DUE whatever it was, and otherwise
    the status is left as it was. *)
Theorem invoice_failed_counts_failure (invoice : Invoice) (w : World)
  (customerId : string) (user : UserEntity) (ref : Expandable)
  (us : UserSubscriptionEntity) :
  dbFailAfter w = None ->
  keyed (subscriptions (db w)) ->
  customerIdOf (inv_customer invoice) = Some customerId ->
  find (hasCustomer customerId) (users (db w)) = Some user ->
  inv_subscription invoice = Some ref ->
  refTruthy (Some ref) = true ->
  storedSubscription (refId ref) w = Some us ->
  exists w' us',
    handleInvoicePaymentFailed invoice w = (Returned tt, w')
    /\ storedSubscription (refId ref) w' = Some us'
    /\ sub_failedPaymentCount us' = (sub_failedPaymentCount us + 1)%Z
    /\ sub_status us' =
         if (sub_failedPaymentCount us + 1 =? 1)%Z
         then SubscriptionStatus.PAST_DUE
         else sub_status us.
Proof.
  intros Hup Hkeyed Hcust Huser Hsub Htruthy Hfind.
  unfold storedSubscription in *.
  destruct (keyed_found _ _ _ Hkeyed Hfind) as (k & Hk & Hsid).
  set (w1 := setCalls w (HInvoicePaymentFailed :: calls w)).
  set (us' := markPaymentFailed us).
  set (w2 := setDb w1 (setSubscriptions (db w1)
                         (replaceRow k us' (subscriptions (db w1))))).
  destruct (failureReasonOf_pure invoice w2) as [reason Hreason].
  eexists. exists us'.
  split; [ | split; [ | split; reflexivity ] ].
  - unfold handleInvoicePaymentFailed.
    rewrite (bind_returned (enter HInvoicePaymentFailed) _ w w1 tt eq_refl).
    rewrite Hcust.
    rewrite (bind_returned _ _ _ _ _ (userRepository_findOne_up customerId w1 Hup)).
    assert (Huser1 : find (hasCustomer customerId) (users (db w1)) = Some user)
      by exact Huser.
    rewrite Huser1, Hsub, Htruthy.
    assert (Hsave :
      (subscription <- subscriptionRepository_findOne (refId ref) ;;
       match subscription with
       | Some subscription =>
           subscriptionRepository_save (markPaymentFailed subscription)
       | None => ret tt
       end) w1 = (Returned tt, w2)).
    { rewrite (bind_returned _ _ _ _ _
                 (subscriptionRepository_findOne_up (refId ref) w1 Hup)).
      assert (Hfind1 : find (hasSubscriptionId (refId ref))
                            (subscriptions (db w1)) = Some us) by exact Hfind.
      rewrite Hfind1.
      exact (subscriptionRepository_save_stored us' k w1 Hup Hk
               (find_existsb_key _ _ _ _ Hfind Hk)). }
    rewrite (bind_returned _ _ _ _ _ Hsave).
    rewrite (bind_returned _ _ _ _ _ Hreason).
    assert (Hup2 : dbFailAfter w2 = None) by exact Hup.
    rewrite (bind_returned _ _ _ _ _
               (recordTransaction_up _ _ _ _ _ _ _ _ _ _ _ _ w2 Hup2)).
    reflexivity.
  - change (find (hasSubscriptionId (refId ref))
              (replaceRow k us' (subscriptions (db w))) = Some us').
    apply (find_replaceRow _ _ us); try assumption.
    destruct Hkeyed as [Hnd _]. exact Hnd.
Qed.

Lemma invoice_failed_counts_failure_witness :
  exists w' us',
    handleInvoicePaymentFailed (Sample.invoice (Some (AsId "cus_1")) 5000 0)
      (Sample.world false [Sample.row SubscriptionStatus.ACTIVE 0] [])
    = (Returned tt, w')
    /\ storedSubscription "sub_1" w' = Some us'
    /\ sub_failedPaymentCount us' = 1%Z
    /\ sub_status us' = SubscriptionStatus.PAST_DUE.
Proof.
  exact (invoice_failed_counts_failure
           (Sample.invoice (Some (AsId "cus_1")) 5000 0)
           (Sample.world false [Sample.row SubscriptionStatus.ACTIVE 0] [])
           "cus_1" Sample.alice (AsId "sub_1")
           (Sample.row SubscriptionStatus.ACTIVE 0)
           eq_refl (sample_keyed _ _) eq_refl eq_refl eq_refl eq_refl eq_refl).
Defined.

(* ================================================================== *)
(** ** Fee and net amount *)

Lemma feeAndNet_run (paymentIntentId : string) (gross : Q) (w : World) :
  feeAndNet paymentIntentId gross w =
    (Returned
       match paymentIntents_retrieve w paymentIntentId true with
       | Returned paymentIntent =>
           match balanceTransactionOf paymentIntent with
           | Some balanceTransaction =>
               (div100 (bt_fee balanceTransaction),
                div100 (bt_net balanceTransaction))
           | None => (0, gross)
           end
       | Thrown _ => (0, gross)
       end, w).
Proof.
  unfold feeAndNet, tryCatch, bind, stripeRetrieve.
  destruct (paymentIntents_retrieve w paymentIntentId true) as [paymentIntent|e];
    [ | reflexivity ].
  destruct (balanceTransactionOf paymentIntent); reflexivity.
Qed.

(** C9: the transaction recorded for an invoice-payment-succeeded event,
    and for a payment-intent-succeeded event without invoice, carries the
    fee and the net of the settlement object, divided by 100, when the
    handler can reach one; otherwise its fee is zero and its net amount is
    the gross amount of the transaction. *)
Theorem succeeded_fee_and_net :
  (forall (invoice : Invoice) (w : World) (customerId : string)
          (user : UserEntity),
      dbFailAfter w = None ->
      customerIdOf (inv_customer invoice) = Some customerId ->
      find (hasCustomer customerId) (users (db w)) = Some user ->
      exists w' t,
        handleInvoicePaymentSucceeded invoice w = (Returned tt, w')
        /\ transactions (db w') = (transactions (db w) ++ [t])%list
        /\ tx_amount t = inject_Z (inv_amount_paid invoice) / 100
        /\ match settlementOfInvoice w invoice with
           | Some balanceTransaction =>
               tx_stripeFee t = Some (inject_Z (bt_fee balanceTransaction) / 100)
               /\ tx_netAmount t = Some (inject_Z (bt_net balanceTransaction) / 100)
           | None =>
               tx_stripeFee t = Some 0
               /\ tx_netAmount t = Some (inject_Z (inv_amount_paid invoice) / 100)
           end)
  /\
  (forall (paymentIntent : PaymentIntent) (w : World) (customerId : string)
          (user : UserEntity),
      dbFailAfter w = None ->
      customerIdOf (pi_customer paymentIntent) = Some customerId ->
      find (hasCustomer customerId) (users (db w)) = Some user ->
      refTruthy (pi_invoice paymentIntent) = false ->
      exists w' t,
        handlePaymentIntentSucceeded paymentIntent w = (Returned tt, w')
        /\ transactions (db w') = (transactions (db w) ++ [t])%list
        /\ tx_amount t = inject_Z (pi_amount paymentIntent) / 100
        /\ match settlementOfPaymentIntent w paymentIntent with
           | Some balanceTransaction =>
               tx_stripeFee t = Some (inject_Z (bt_fee balanceTransaction) / 100)
               /\ tx_netAmount t = Some (inject_Z (bt_net balanceTransaction) / 100)
           | None =>
               tx_stripeFee t = Some 0
               /\ tx_netAmount t = Some (inject_Z (pi_amount paymentIntent) / 100)
           end).
Proof.
  split.
  - intros invoice w customerId user Hup Hcust Huser.
    set (w1 := setCalls w (HInvoicePaymentSucceeded :: calls w)).
    set (w2 := setClockReads w1 (S (clockReads w1))).
    assert (Hup2 : dbFailAfter w2 = None) by exact Hup.
    assert (Huser1 : find (hasCustomer customerId) (users (db w1)) = Some user)
      by exact Huser.
    unfold handleInvoicePaymentSucceeded.
    rewrite (bind_returned (enter HInvoicePaymentSucceeded) _ w w1 tt eq_refl).
    rewrite Hcust.
    rewrite (bind_returned _ _ _ _ _ (userRepository_findOne_up customerId w1 Hup)).
    rewrite Huser1.
    unfold settlementOfInvoice.
    destruct (inv_payment_intent invoice) as [[pid|pid]|] eqn:Hpi.
    + unfold refTruthy. destruct (pid =? "") eqn:Hempty; cbn [negb].
      * rewrite (bind_returned (ret _) _ w1 w1 _ eq_refl).
        rewrite (bind_returned newDate _ w1 w2 _ eq_refl).
        rewrite (bind_returned _ _ _ _ _
                   (recordTransaction_up _ _ _ _ _ _ _ _ _ _ _ _ w2 Hup2)).
        eexists. eexists. split; [ reflexivity | ].
        repeat split; reflexivity.
      * rewrite (bind_returned _ _ _ _ _ (feeAndNet_run pid _ w1)).
        rewrite (bind_returned newDate _ w1 w2 _ eq_refl).
        rewrite (bind_returned _ _ _ _ _
                   (recordTransaction_up _ _ _ _ _ _ _ _ _ _ _ _ w2 Hup2)).
        eexists. eexists. split; [ reflexivity | ].
        split; [ reflexivity | split; [ reflexivity | ] ].
        change (paymentIntents_retrieve w1 pid true)
          with (paymentIntents_retrieve w pid true).
        destruct (paymentIntents_retrieve w pid true) as [paymentIntent|e];
          [ | split; reflexivity ].
        destruct (balanceTransactionOf paymentIntent); split; reflexivity.
    + rewrite (bind_returned (ret _) _ w1 w1 _ eq_refl).
      rewrite (bind_returned newDate _ w1 w2 _ eq_refl).
      rewrite (bind_returned _ _ _ _ _
                 (recordTransaction_up _ _ _ _ _ _ _ _ _ _ _ _ w2 Hup2)).
      eexists. eexists. split; [ reflexivity | ].
      repeat split; reflexivity.
    + rewrite (bind_returned (ret _) _ w1 w1 _ eq_refl).
      rewrite (bind_returned newDate _ w1 w2 _ eq_refl).
      rewrite (bind_returned _ _ _ _ _
                 (recordTransaction_up _ _ _ _ _ _ _ _ _ _ _ _ w2 Hup2)).
      eexists. eexists. split; [ reflexivity | ].
      repeat split; reflexivity.
  - intros paymentIntent w customerId user Hup Hcust Huser Hinvoice.
    set (w1 := setCalls w (HPaymentIntentSucceeded :: calls w)).
    set (w2 := setClockReads w1 (S (clockReads w1))).
    assert (Hup2 : dbFailAfter w2 = None) by exact Hup.
    assert (Huser1 : find (hasCustomer customerId) (users (db w1)) = Some user)
      by exact Huser.
    unfold handlePaymentIntentSucceeded.
    rewrite (bind_returned (enter HPaymentIntentSucceeded) _ w w1 tt eq_refl).
    rewrite Hcust.
    rewrite (bind_returned _ _ _ _ _ (userRepository_findOne_up customerId w1 Hup)).
    rewrite Huser1, Hinvoice. cbn [negb].
    rewrite (bind_returned _ _ _ _ _ (feeAndNet_run (pi_id paymentIntent) _ w1)).
    rewrite (bind_returned newDate _ w1 w2 _ eq_refl).
    rewrite (bind_returned _ _ _ _ _
               (recordTransaction_up _ _ _ _ _ _ _ _ _ _ _ _ w2 Hup2)).
    eexists. eexists. split; [ reflexivity | ].
    split; [ reflexivity | split; [ reflexivity | ] ].
    unfold settlementOfPaymentIntent.
    change (paymentIntents_retrieve w1 (pi_id paymentIntent) true)
      with (paymentIntents_retrieve w (pi_id paymentIntent) true).
    destruct (paymentIntents_retrieve w (pi_id paymentIntent) true)
      as [expanded|e]; [ | split; reflexivity ].
    destruct (balanceTransactionOf expanded); split; reflexivity.
Qed.

Lemma succeeded_fee_and_net_witness :
  (exists w' t,
      handleInvoicePaymentSucceeded
        (Sample.invoice (Some (AsId "cus_1")) 5000 5000) Sample.settledWorld
      = (Returned tt, w')
      /\ transactions (db w') = [t]
      /\ tx_amount t = (5000 # 100)
      /\ tx_stripeFee t = Some (175 # 100)
      /\ tx_netAmount t = Some (4825 # 100))
  /\
  (exists w' t,
      handlePaymentIntentSucceeded (Sample.paymentIntent None)
        (Sample.world false [] [])
      = (Returned tt, w')
      /\ transactions (db w') = [t]
      /\ tx_amount t = (5000 # 100)
      /\ tx_stripeFee t = Some 0
      /\ tx_netAmount t = Some (5000 # 100)).
Proof.
  split.
  - exact (proj1 succeeded_fee_and_net
             (Sample.invoice (Some (AsId "cus_1")) 5000 5000)
             Sample.settledWorld "cus_1" Sample.alice
             eq_refl eq_refl eq_refl).
  - exact (proj2 succeeded_fee_and_net
             (Sample.paymentIntent None) (Sample.world false [] [])
             "cus_1" Sample.alice eq_refl eq_refl eq_refl eq_refl).
Defined.

(* ================================================================== *)
(** ** Payment intents of subscription charges *)

(** C10: a payment-intent-succeeded event whose payment intent carries an
    invoice reference leaves the database as it was, whatever the world
    and whether or not a local user is linked to the customer: no
    transaction is recorded.  With the database up the handler returns. *)
Theorem paymentIntent_with_invoice_records_nothing
  (paymentIntent : PaymentIntent) (w : World) :
  refTruthy (pi_invoice paymentIntent) = true ->
  db (worldAfter (handlePaymentIntentSucceeded paymentIntent) w) = db w
  /\ (dbFailAfter w = None ->
      outcomeOf (handlePaymentIntentSucceeded paymentIntent) w = Returned tt).
Proof.
  intros Hinvoice.
  set (w1 := setCalls w (HPaymentIntentSucceeded :: calls w)).
  unfold worldAfter, outcomeOf, handlePaymentIntentSucceeded.
  rewrite (bind_returned (enter HPaymentIntentSucceeded) _ w w1 tt eq_refl).
  destruct (customerIdOf (pi_customer paymentIntent)) as [customerId|];
    [ | split; reflexivity ].
  destruct (userRepository_findOne_cases customerId w1)
    as [[e Hthrown] | (w2 & Hfound & Hdb & Hsame)].
  - rewrite (bind_thrown _ _ _ _ _ Hthrown). split; [ reflexivity | ].
    intros Hup. rewrite (userRepository_findOne_up customerId w1 Hup) in Hthrown.
    discriminate Hthrown.
  - rewrite (bind_returned _ _ _ _ _ Hfound).
    destruct (find (hasCustomer customerId) (users (db w1)));
      rewrite ?Hinvoice; split; try reflexivity; exact Hdb.
Qed.

Lemma paymentIntent_with_invoice_records_nothing_witness :
  db (worldAfter
        (handlePaymentIntentSucceeded (Sample.paymentIntent (Some (AsId "in_1"))))
        (Sample.world false [] []))
  = db (Sample.world false [] [])
  /\ (dbFailAfter (Sample.world false [] []) = None ->
      outcomeOf
        (handlePaymentIntentSucceeded (Sample.paymentIntent (Some (AsId "in_1"))))
        (Sample.world false [] [])
      = Returned tt).
Proof.
  exact (paymentIntent_with_invoice_records_nothing
           (Sample.paymentIntent (Some (AsId "in_1")))
           (Sample.world false [] []) eq_refl).
Defined.

(* ================================================================== *)
(** ** Which computations enter a handler *)

Section KeepsCalls.

Lemma keepsCalls_ret {A} (a : A) : keepsCalls (ret a).
Proof. intros w. reflexivity. Qed.

Lemma keepsCalls_throw {A} (e : JsError) : keepsCalls (@throw A e).
Proof. intros w. reflexivity. Qed.

Lemma keepsCalls_liftOutcome {A} (o : Outcome A) : keepsCalls (liftOutcome o).
Proof. intros w. reflexivity. Qed.

Lemma keepsCalls_bind {A B} (m : M A) (k : A -> M B) :
  keepsCalls m -> (forall a, keepsCalls (k a)) -> keepsCalls (bind m k).
Proof.
  intros Hm Hk w. unfold bind. specialize (Hm w).
  destruct (m w) as [[a|e] w']; cbn [snd] in *.
  - rewrite (Hk a w'). exact Hm.
  - exact Hm.
Qed.

Lemma keepsCalls_tryCatch {A} (m : M A) (h : JsError -> M A) :
  keepsCalls m -> (forall e, keepsCalls (h e)) -> keepsCalls (tryCatch m h).
Proof.
  intros Hm Hh w. unfold tryCatch. specialize (Hm w).
  destruct (m w) as [[a|e] w']; cbn [snd] in *.
  - exact Hm.
  - rewrite (Hh e w'). exact Hm.
Qed.

Lemma keepsCalls_dbCall : keepsCalls dbCall.
Proof. intros w. unfold dbCall. destruct (dbFailAfter w) as [[|n]|]; reflexivity. Qed.

Lemma keepsCalls_getDb : keepsCalls getDb.
Proof. intros w. reflexivity. Qed.

Lemma keepsCalls_putDb (d : Database) : keepsCalls (putDb d).
Proof. intros w. reflexivity. Qed.

Lemma keepsCalls_newDate : keepsCalls newDate.
Proof. intros w. reflexivity. Qed.

Lemma keepsCalls_webhookLoggingEnabled : keepsCalls webhookLoggingEnabled.
Proof. intros w. reflexivity. Qed.

Lemma keepsCalls_stripeRetrieve (id : string) (expand : bool) :
  keepsCalls (stripeRetrieve id expand).
Proof. intros w. reflexivity. Qed.

Lemma keepsCalls_getWorld : keepsCalls (fun w : World => (Returned w, w)).
Proof. intros w. reflexivity. Qed.

End KeepsCalls.

Create HintDb calls.
#[local] Hint Resolve keepsCalls_ret keepsCalls_throw keepsCalls_liftOutcome
  keepsCalls_dbCall keepsCalls_getDb keepsCalls_putDb keepsCalls_newDate
  keepsCalls_webhookLoggingEnabled keepsCalls_stripeRetrieve
  keepsCalls_getWorld : calls.

(** Splits a computation along its binds, handlers and case distinctions
    and closes the leaves with the hints of [calls]. *)
Ltac keeps_calls :=
  repeat first
    [ solve [ auto with calls ]
    | apply keepsCalls_bind; [ | intros ? ]
    | apply keepsCalls_tryCatch; [ | intros ? ]
    | match goal with
      | |- keepsCalls (match ?x with _ => _ end) => destruct x
      | |- keepsCalls (let _ := _ in _) => cbv zeta
      end ].

Lemma keepsCalls_userRepository_findOne (customerId : string) :
  keepsCalls (userRepository_findOne customerId).
Proof. unfold userRepository_findOne. keeps_calls. Qed.

Lemma keepsCalls_subscriptionRepository_findOne (sid : string) :
  keepsCalls (subscriptionRepository_findOne sid).
Proof. unfold subscriptionRepository_findOne. keeps_calls. Qed.

Lemma keepsCalls_subscriptionRepository_save (s : UserSubscriptionEntity) :
  keepsCalls (subscriptionRepository_save s).
Proof. unfold subscriptionRepository_save. keeps_calls. Qed.

Lemma keepsCalls_transactionRepository_save (t : StripeTransactionEntity) :
  keepsCalls (transactionRepository_save t).
Proof. unfold transactionRepository_save. keeps_calls. Qed.

Lemma keepsCalls_paymentMethodRepository_save (p : PaymentMethodEntity) :
  keepsCalls (paymentMethodRepository_save p).
Proof. unfold paymentMethodRepository_save. keeps_calls. Qed.

Lemma keepsCalls_webhookEventRepository_save (e : WebhookEventEntity) :
  keepsCalls (webhookEventRepository_save e).
Proof. unfold webhookEventRepository_save. keeps_calls. Qed.

Lemma keepsCalls_webhookEventRepository_increment (eventId : string) :
  keepsCalls (webhookEventRepository_increment eventId).
Proof. unfold webhookEventRepository_increment. keeps_calls. Qed.

Lemma keepsCalls_webhookEventRepository_update (eventId : string)
  (u : WebhookEventUpdate) :
  keepsCalls (webhookEventRepository_update eventId u).
Proof. unfold webhookEventRepository_update. keeps_calls. Qed.

#[local] Hint Resolve keepsCalls_userRepository_findOne
  keepsCalls_subscriptionRepository_findOne
  keepsCalls_subscriptionRepository_save
  keepsCalls_transactionRepository_save
  keepsCalls_paymentMethodRepository_save
  keepsCalls_webhookEventRepository_save
  keepsCalls_webhookEventRepository_increment
  keepsCalls_webhookEventRepository_update : calls.

Lemma keepsCalls_recordTransaction
  (userId : string) (ref : option Expandable)
  (type : TransactionType.t) (amount : Q) (currency : string)
  (status : TransactionStatus.t) (description : string) (metadata : Metadata)
  (failureReason : option string) (stripeFee netAmount : option Q)
  (processedAt : option JsDate) :
  keepsCalls (recordTransaction userId ref type amount currency status
                description metadata failureReason stripeFee netAmount
                processedAt).
Proof. unfold recordTransaction. keeps_calls. Qed.

Lemma keepsCalls_logWebhookEvent (stripeEventId eventType : string) :
  keepsCalls (logWebhookEvent stripeEventId eventType).
Proof. unfold logWebhookEvent. keeps_calls. Qed.

Lemma keepsCalls_updateWebhookEventStatus (eventId : string)
  (status : WebhookProcessingStatus.t) (errorMessage : option string) :
  keepsCalls (updateWebhookEventStatus eventId status errorMessage).
Proof. unfold updateWebhookEventStatus. keeps_calls. Qed.

Lemma keepsCalls_feeAndNet (paymentIntentId : string) (gross : Q) :
  keepsCalls (feeAndNet paymentIntentId gross).
Proof. unfold feeAndNet. keeps_calls. Qed.

Lemma keepsCalls_failureReasonOf (invoice : Invoice) :
  keepsCalls (failureReasonOf invoice).
Proof. unfold failureReasonOf. keeps_calls. Qed.

#[local] Hint Resolve keepsCalls_recordTransaction keepsCalls_logWebhookEvent
  keepsCalls_updateWebhookEventStatus keepsCalls_feeAndNet
  keepsCalls_failureReasonOf : calls.

Lemma keepsCalls_onWebhookError (error : JsError) :
  keepsCalls (onWebhookError error).
Proof. unfold onWebhookError. keeps_calls. Qed.

(** A handler pushes its own name, once, and nothing else. *)
Lemma entered {A} (h : HandlerName) (rest : M A) (w : World) :
  keepsCalls rest -> calls (snd ((enter h ;;; rest) w)) = h :: calls w.
Proof.
  intros Hrest.
  rewrite (bind_returned (enter h) _ w (setCalls w (h :: calls w)) tt eq_refl).
  rewrite Hrest. reflexivity.
Qed.

Lemma dispatch_enters (data : EventData) (w : World) :
  calls (snd (dispatch data w)) =
    match handlerOf data with
    | Some h => h :: calls w
    | None => calls w
    end.
Proof.
  destruct data; cbn [dispatch handlerOf]; try reflexivity.
  - unfold handleCheckoutSessionCompleted. apply entered. keeps_calls.
  - unfold handleInvoicePaymentSucceeded. apply entered. keeps_calls.
  - unfold handleInvoicePaymentFailed. apply entered. keeps_calls.
  - unfold handleInvoiceUpcoming. apply entered. keeps_calls.
  - unfold handlePaymentMethodAttached. apply entered. keeps_calls.
  - unfold handleSubscriptionCreated. apply entered. keeps_calls.
  - unfold handleSubscriptionUpdated. apply entered. keeps_calls.
  - unfold handleSubscriptionDeleted. apply entered. keeps_calls.
  - unfold handleSubscriptionTrialWillEnd. apply entered. keeps_calls.
  - unfold handlePaymentIntentSucceeded. apply entered. keeps_calls.
  - unfold handlePaymentIntentFailed. apply entered. keeps_calls.
  - unfold handlePaymentIntentCanceled. apply entered. keeps_calls.
  - unfold handleChargeRefunded. apply entered. keeps_calls.
Qed.

(* ================================================================== *)
(** ** The dispatcher and the ledger *)

Lemma webhookLoggingEnabled_on (w : World) :
  env_logging w = Some "true" -> webhookLoggingEnabled w = (Returned true, w).
Proof. unfold webhookLoggingEnabled. intros ->. reflexivity. Qed.

(** An error whose message does not contain [event.id] goes through the
    [catch] block of [handleWebhookEvent] without any write to the ledger. *)
Lemma onWebhookError_untagged (error : JsError) (w : World) :
  includes "event.id" (message error) = false ->
  onWebhookError error w = (Thrown error, w).
Proof.
  intros Hmsg. unfold onWebhookError, bind, webhookLoggingEnabled, tryCatch.
  rewrite Hmsg, andb_false_r.
  destruct (match env_logging w with
            | Some v => v =? "true"
            | None => false
            end); reflexivity.
Qed.

(** C1, as stated, fails.  The ledger holds a COMPLETED row for [evt_1];
    delivering [evt_1] again enters the checkout handler and records a
    transaction.  When the ledger table keeps event ids unique the same
    delivery throws instead of returning.  And two deliveries of [evt_1] to
    a fresh ledger record two transactions. *)
Lemma redelivery_reprocessed_counterexample :
  let w0 := Sample.world false [] [Sample.completedRow] in
  let again := handleWebhookEvent (Returned Sample.checkoutEvent) in
  completedInLedger "evt_1" w0 = true
  /\ outcomeOf again w0 = Returned tt
  /\ calls (worldAfter again w0) = [HCheckoutSessionCompleted]
  /\ List.length (transactions (db (worldAfter again w0))) = 1%nat
  /\ outcomeOf again (Sample.world true [] [Sample.completedRow])
     = Thrown duplicateKey
  /\ List.length
       (transactions
          (db (worldAfter again (worldAfter again (Sample.world false [] [])))))
     = 2%nat.
Proof.
  vm_compute. repeat split; reflexivity.
Qed.

Lemma webhookEventRepository_save_up (e : WebhookEventEntity) (w : World) :
  dbFailAfter w = None ->
  webhookEventRepository_save e w =
    if insertRefused (we_stripeEventId e) w
    then (Thrown duplicateKey, w)
    else (Returned e,
          setDb w (setWebhookEvents (db w) (webhookEvents (db w) ++ [e])%list)).
Proof.
  intros Hup. unfold webhookEventRepository_save.
  rewrite (bind_returned _ _ _ _ _ (dbCall_up w Hup)).
  unfold bind, getDb, insertRefused.
  destruct (uniqueStripeEventId w
            && existsb (hasEventId (we_stripeEventId e)) (webhookEvents (db w)));
    reflexivity.
Qed.

Lemma logWebhookEvent_on (stripeEventId eventType : string) (w : World) :
  env_logging w = Some "true" ->
  dbFailAfter w = None ->
  logWebhookEvent stripeEventId eventType w =
    if insertRefused stripeEventId w
    then (Thrown duplicateKey, w)
    else (Returned (Some (pendingRow stripeEventId eventType)),
          setDb w (setWebhookEvents (db w)
                     (webhookEvents (db w)
                        ++ [pendingRow stripeEventId eventType])%list)).
Proof.
  intros Hlog Hup. unfold logWebhookEvent.
  rewrite (bind_returned _ _ _ _ _ (webhookLoggingEnabled_on w Hlog)).
  cbn [negb]. fold (pendingRow stripeEventId eventType).
  unfold bind.
  rewrite (webhookEventRepository_save_up (pendingRow stripeEventId eventType) w Hup).
  change (we_stripeEventId (pendingRow stripeEventId eventType)) with stripeEventId.
  destruct (insertRefused stripeEventId w); reflexivity.
Qed.

Lemma webhookEventRepository_update_up (eventId : string)
  (u : WebhookEventUpdate) (w : World) :
  dbFailAfter w = None ->
  webhookEventRepository_update eventId u w =
    (Returned tt,
     setDb w (setWebhookEvents (db w)
                (map (fun e => if hasEventId eventId e then applyUpdate u e else e)
                     (webhookEvents (db w))))).
Proof.
  intros Hup. unfold webhookEventRepository_update.
  rewrite (bind_returned _ _ _ _ _ (dbCall_up w Hup)). reflexivity.
Qed.

Lemma updateWebhookEventStatus_pending_on (eventId : string) (w : World) :
  env_logging w = Some "true" ->
  dbFailAfter w = None ->
  updateWebhookEventStatus eventId WebhookProcessingStatus.PENDING None w =
    (Returned tt,
     setDb w (setWebhookEvents (db w)
                (map (fun e => if hasEventId eventId e
                               then applyUpdate toPending e else e)
                     (webhookEvents (db w))))).
Proof.
  intros Hlog Hup. unfold updateWebhookEventStatus.
  rewrite (bind_returned _ _ _ _ _ (webhookLoggingEnabled_on w Hlog)).
  cbn [negb WebhookProcessingStatus.eqb orb].
  rewrite (bind_returned (ret None) _ w w None eq_refl).
  rewrite (bind_returned (ret tt) _ w w tt eq_refl).
  apply webhookEventRepository_update_up. exact Hup.
Qed.

(** C1, amended: with ledger logging enabled, a delivery does not look at
    the status of the rows in the ledger.  When the ledger table accepts a
    row for the event id, the delivery enters the handler of the event
    type, whether or not a COMPLETED row is stored, so that a second
    delivery of an event runs its handler a second time; when the table
    refuses the row, the delivery throws the error of the store, enters no
    handler and changes nothing. *)
Theorem delivery_always_dispatches (event : Event) (w : World)
  (h : HandlerName) :
  env_logging w = Some "true" ->
  dbFailAfter w = None ->
  handlerOf (ev_data event) = Some h ->
  if insertRefused (ev_id event) w
  then handleWebhookEvent (Returned event) w = (Thrown duplicateKey, w)
  else calls (worldAfter (handleWebhookEvent (Returned event)) w) = h :: calls w.
Proof.
  intros Hlog Hup Hh.
  pose proof (logWebhookEvent_on (ev_id event) (eventType (ev_data event)) w
                Hlog Hup) as Hlogged.
  unfold worldAfter, handleWebhookEvent, tryCatch.
  rewrite (bind_returned (liftOutcome (Returned event)) _ w w event eq_refl).
  destruct (insertRefused (ev_id event) w).
  - rewrite (bind_thrown _ _ _ _ _ Hlogged).
    apply onWebhookError_untagged. reflexivity.
  - rewrite (bind_returned _ _ _ _ _ Hlogged).
    set (w1 := setDb w _).
    rewrite (bind_returned _ _ _ _ _
               (updateWebhookEventStatus_pending_on (ev_id event) w1 Hlog Hup)).
    set (w2 := setDb w1 _).
    pose proof (dispatch_enters (ev_data event) w2) as Hd.
    rewrite Hh in Hd. unfold bind.
    destruct (dispatch (ev_data event) w2) as [[[]|e] w3]; cbn [snd] in Hd.
    + cbv beta iota.
      pose proof (keepsCalls_updateWebhookEventStatus (ev_id event)
                    WebhookProcessingStatus.COMPLETED None w3) as Hc.
      destruct (updateWebhookEventStatus (ev_id event)
                  WebhookProcessingStatus.COMPLETED None w3) as [[a|e] w4];
        cbn [snd] in *.
      * rewrite Hc, Hd. reflexivity.
      * rewrite (keepsCalls_onWebhookError e w4), Hc, Hd. reflexivity.
    + rewrite (keepsCalls_onWebhookError e w3), Hd. reflexivity.
Qed.

Lemma delivery_always_dispatches_witness :
  calls (worldAfter (handleWebhookEvent (Returned Sample.checkoutEvent))
           (Sample.world false [] [Sample.completedRow]))
  = [HCheckoutSessionCompleted].
Proof.
  exact (delivery_always_dispatches Sample.checkoutEvent
           (Sample.world false [] [Sample.completedRow])
           HCheckoutSessionCompleted eq_refl eq_refl eq_refl).
Defined.

(** C2: the code does not do what the claim says.  Ledger logging is on and
    the database is up.  The subscription-updated event [evt_2] makes its
    handler throw (its [canceled_at] is outside the range of [Date]).  The
    error reaches the caller, but the ledger row of [evt_2] is still
    PENDING, with [retryCount] 0 and no [errorMessage]: the [catch] block
    writes FAILED only for an error whose message contains
    [event.id: <id>], which this error, like the errors of the store, does
    not. *)
Theorem handler_failure_leaves_row_pending :
  let w0 := Sample.world false [Sample.row SubscriptionStatus.ACTIVE 0] [] in
  let delivery := handleWebhookEvent (Returned Sample.brokenUpdateEvent) in
  outcomeOf delivery w0 = Thrown (mkError "Invalid time value")
  /\ calls (worldAfter delivery w0) = [HSubscriptionUpdated]
  /\ webhookEvents (db (worldAfter delivery w0))
     = [ {| we_stripeEventId := "evt_2";
            we_eventType := "customer.subscription.updated";
            we_processingStatus := WebhookProcessingStatus.PENDING;
            we_retryCount := 0;
            we_processedAt := None;
            we_errorMessage := None |} ]
  /\ dbFailAfter (worldAfter delivery w0) = None.
Proof.
  vm_compute. repeat split; reflexivity.
Qed.

(** The path that the [catch] block does take for an error that names the
    event in its message: the row becomes FAILED, its [retryCount] grows
    by one and the message is stored. *)
Example tagged_error_marks_row_failed :
  let w0 := Sample.world false [] [pendingRow "evt_2" "customer.subscription.updated"] in
  let error := mkError "handler failed, event.id: evt_2" in
  webhookEvents (db (worldAfter (onWebhookError error) w0))
  = [ {| we_stripeEventId := "evt_2";
         we_eventType := "customer.subscription.updated";
         we_processingStatus := WebhookProcessingStatus.FAILED;
         we_retryCount := 1;
         we_processedAt := None;
         we_errorMessage := Some "handler failed, event.id: evt_2" |} ].
Proof. vm_compute. reflexivity. Qed.

(* ================================================================== *)
(** ** Amounts and currency of recorded transactions *)

(** [recordTransaction] stores the amount it is given and the upper-cased
    currency. *)
Lemma recordTransaction_stores_amount
  (userId : string) (ref : option Expandable)
  (type : TransactionType.t) (amount : Q) (currency : string)
  (status : TransactionStatus.t) (description : string) (metadata : Metadata)
  (failureReason : option string) (stripeFee netAmount : option Q)
  (processedAt : option JsDate) (w : World) :
  dbFailAfter w = None ->
  exists t,
    outcomeOf (recordTransaction userId ref type amount currency status
                 description metadata failureReason stripeFee netAmount
                 processedAt) w = Returned t
    /\ tx_amount t = amount
    /\ tx_currency t = toUpperCase currency.
Proof.
  intros Hup. eexists. unfold outcomeOf.
  rewrite (recordTransaction_up _ _ _ _ _ _ _ _ _ _ _ _ w Hup).
  repeat split; reflexivity.
Qed.

(** The end-to-end example of an invoice-payment-failed event of 5000
    cents in [usd]: the transaction holds 50, [USD] and FAILED; the
    subscription counts one failure and is PAST_DUE. *)
Example invoice_failed_5000_usd :
  let w0 := Sample.world false [Sample.row SubscriptionStatus.ACTIVE 0] [] in
  let w1 := worldAfter (handleInvoicePaymentFailed
                          (Sample.invoice (Some (AsId "cus_1")) 5000 0)) w0 in
  exists t,
    transactions (db w1) = [t]
    /\ tx_amount t == 50
    /\ tx_currency t = "USD"
    /\ tx_status t = TransactionStatus.FAILED
    /\ option_map sub_failedPaymentCount (storedSubscription "sub_1" w1) = Some 1%Z
    /\ option_map sub_status (storedSubscription "sub_1" w1)
       = Some SubscriptionStatus.PAST_DUE.
Proof.
  eexists. split; [ vm_compute; reflexivity | ].
  repeat split; vm_compute; reflexivity.
Qed.

(** C3: the code does not do what the claim says.  For a completed
    checkout session of 5000 cents in [usd], paid by a linked customer,
    [handleCheckoutSessionCompleted] passes [session.amount_total] to
    [recordTransaction] as it is: the stored amount is 5000, not 50, while
    the currency is stored as [USD]. *)
Theorem checkout_amount_not_converted :
  let w0 := Sample.world false [] [] in
  let handling := handleCheckoutSessionCompleted (Sample.session 5000) in
  outcomeOf handling w0 = Returned tt
  /\ map tx_amount (transactions (db (worldAfter handling w0))) = [inject_Z 5000]
  /\ map tx_currency (transactions (db (worldAfter handling w0))) = ["USD"]
  /\ map tx_status (transactions (db (worldAfter handling w0)))
     = [TransactionStatus.COMPLETED]
  /\ ~ inject_Z 5000 == div100 5000.
Proof.
  vm_compute. repeat split; try reflexivity. discriminate.
Qed.

(** The same holds for every session of a linked customer: the amount
    stored is [amount_total] itself. *)
Lemma checkout_records_amount_total (session : CheckoutSession) (w : World)
  (customerId : string) (user : UserEntity) :
  dbFailAfter w = None ->
  customerIdOf (cs_customer session) = Some customerId ->
  find (hasCustomer customerId) (users (db w)) = Some user ->
  exists w' t,
    handleCheckoutSessionCompleted session w = (Returned tt, w')
    /\ transactions (db w') = (transactions (db w) ++ [t])%list
    /\ tx_amount t = inject_Z (orZero (cs_amount_total session)).
Proof.
  intros Hup Hcust Huser.
  set (w1 := setCalls w (HCheckoutSessionCompleted :: calls w)).
  assert (Huser1 : find (hasCustomer customerId) (users (db w1)) = Some user)
    by exact Huser.
  unfold handleCheckoutSessionCompleted.
  rewrite (bind_returned (enter HCheckoutSessionCompleted) _ w w1 tt eq_refl).
  rewrite Hcust.
  rewrite (bind_returned _ _ _ _ _ (userRepository_findOne_up customerId w1 Hup)).
  rewrite Huser1.
  rewrite (bind_returned _ _ _ _ _
             (recordTransaction_up _ _ _ _ _ _ _ _ _ _ _ _ w1 Hup)).
  eexists. eexists. repeat split; reflexivity.
Qed.

(* ================================================================== *)
(** ** The period start of a subscription *)

(** The chain selects the first truthy candidate and converts it; the
    last candidate is converted also when it is falsy, to [null]. *)
Lemma resolvePeriodStart_chain (subscription : Subscription) :
  resolvePeriodStart subscription =
    match find truthy (periodStartCandidates subscription) with
    | Some v => convertStripeTimestamp v
    | None => Returned None
    end.
Proof.
  unfold resolvePeriodStart, periodStartCandidates.
  destruct (hd_error (s_items subscription)) as [item|];
    cbn [itemField app find].
  - destruct (truthy (item_current_period_start item)); [ reflexivity | ].
    destruct (truthy (s_billing_cycle_anchor subscription)); [ reflexivity | ].
    destruct (truthy (s_created subscription)) eqn:Hc; [ reflexivity | ].
    apply convert_falsy. exact Hc.
  - destruct (truthy (s_billing_cycle_anchor subscription)); [ reflexivity | ].
    destruct (truthy (s_created subscription)) eqn:Hc; [ reflexivity | ].
    apply convert_falsy. exact Hc.
Qed.

Lemma epochSeconds_cases (v : JsValue) :
  epochSeconds v = true ->
  (truthy v = false /\ qualifies v = false)
  \/ (exists z, v = VNumber (Finite (inject_Z z))
                /\ (0 < z)%Z /\ (z * 1000 <= maxTime)%Z
                /\ truthy v = true /\ qualifies v = true).
Proof.
  destruct v as [| | b | [| s | [a d]] | s |]; try discriminate;
    try (intros _; left; split; reflexivity).
  cbv beta iota delta [epochSeconds Qnum Qden]. intros H.
  apply andb_prop in H. destruct H as [H Hmax].
  apply andb_prop in H. destruct H as [Hd Hpos].
  apply Pos.eqb_eq in Hd. apply Z.ltb_lt in Hpos. apply Z.leb_le in Hmax.
  subst d. right. exists a.
  split; [ reflexivity | ]. split; [ exact Hpos | ]. split; [ exact Hmax | ].
  split; [ | reflexivity ].
  cbv beta iota delta [truthy].
  destruct (Qeq_bool (a # 1) 0) eqn:Hq; [ | reflexivity ].
  apply Qeq_bool_iff in Hq. unfold Qeq in Hq.
  cbv beta iota delta [Qnum Qden] in Hq. lia.
Qed.

Lemma find_truthy_qualifies (candidates : list JsValue) :
  Forall (fun v => epochSeconds v = true) candidates ->
  find truthy candidates = find qualifies candidates.
Proof.
  induction 1 as [| v l Hv _ IH]; [ reflexivity | ].
  cbn [find].
  destruct (epochSeconds_cases v Hv)
    as [[Ht Hq] | (z & _ & _ & _ & Ht & Hq)]; rewrite Ht, Hq;
    [ exact IH | reflexivity ].
Qed.

(** On fields as Stripe sends them the chain of the code is the chain of
    the specification. *)
Lemma resolvePeriodStart_specified (subscription : Subscription) :
  Forall (fun v => epochSeconds v = true) (periodStartCandidates subscription) ->
  resolvePeriodStart subscription
  = Returned (specifiedPeriodStart (periodStartCandidates subscription))
  /\ resolvePeriodStart subscription <> Returned (Some (ValidDate 0)).
Proof.
  intros Hall. rewrite resolvePeriodStart_chain.
  unfold specifiedPeriodStart.
  rewrite (find_truthy_qualifies _ Hall).
  destruct (find qualifies (periodStartCandidates subscription)) as [v|] eqn:Hfind;
    [ | split; [ reflexivity | discriminate ] ].
  apply find_some in Hfind. destruct Hfind as [Hin Hq].
  rewrite Forall_forall in Hall.
  destruct (epochSeconds_cases v (Hall v Hin))
    as [[_ Hq'] | (z & -> & Hpos & Hmax & _ & _)];
    [ rewrite Hq' in Hq; discriminate Hq | ].
  rewrite (convert_whole z) by lia.
  assert (Htrunc : truncQ (inject_Z z * 1000) = (z * 1000)%Z).
  { unfold truncQ, inject_Z, Qmult. cbv beta iota delta [Qnum Qden].
    change (Zpos (1 * 1)) with 1%Z. apply Z.quot_1_r. }
  rewrite Htrunc. split; [ reflexivity | ].
  intros H. injection H as H. lia.
Qed.

(** [handleSubscriptionCreated] for a linked customer and a payload whose
    dates convert: a row made by [newUserSubscription] is appended. *)
Lemma handleSubscriptionCreated_linked (subscription : Subscription)
  (w : World) (user : UserEntity) :
  dbFailAfter w = None ->
  find (hasCustomer (refId (s_customer subscription))) (users (db w)) = Some user ->
  createDatesConvert subscription = true ->
  exists w' ps pe ts te,
    handleSubscriptionCreated subscription w = (Returned tt, w')
    /\ resolvePeriodStart subscription = Returned ps
    /\ subscriptions (db w') =
         (subscriptions (db w)
            ++ [withKey (nextKey (subscriptions (db w)))
                  (newUserSubscription subscription user ps pe ts te)])%list.
Proof.
  intros Hup Huser Hdates.
  unfold createDatesConvert in Hdates.
  apply andb_prop in Hdates. destruct Hdates as [Hdates Hte].
  apply andb_prop in Hdates. destruct Hdates as [Hdates Hts].
  apply andb_prop in Hdates. destruct Hdates as [Hps Hpe].
  apply returns_inv in Hps, Hpe, Hts, Hte.
  destruct Hps as [ps Hps]. destruct Hpe as [pe Hpe].
  destruct Hts as [ts Hts]. destruct Hte as [te Hte].
  set (w1 := setCalls w (HSubscriptionCreated :: calls w)).
  assert (Huser1 : find (hasCustomer (refId (s_customer subscription)))
                        (users (db w1)) = Some user) by exact Huser.
  eexists. exists ps, pe, ts, te.
  split; [ | split; [ exact Hps | ] ].
  - unfold handleSubscriptionCreated.
    rewrite (bind_returned (enter HSubscriptionCreated) _ w w1 tt eq_refl).
    cbv zeta.
    rewrite (bind_returned _ _ _ _ _
               (userRepository_findOne_up _ w1 Hup)).
    rewrite Huser1. unfold liftOutcome.
    rewrite (bind_returned _ _ w1 w1 ps) by (rewrite Hps; reflexivity).
    rewrite (bind_returned _ _ w1 w1 pe) by (rewrite Hpe; reflexivity).
    rewrite (bind_returned _ _ w1 w1 ts) by (rewrite Hts; reflexivity).
    rewrite (bind_returned _ _ w1 w1 te) by (rewrite Hte; reflexivity).
    exact (subscriptionRepository_save_new
             (newUserSubscription subscription user ps pe ts te) w1 Hup eq_refl).
  - reflexivity.
Qed.

(** C4, as stated, fails.  The first item of the payload carries the
    text ['1700001000'] as [current_period_start]; the first qualifying
    candidate is the billing-cycle anchor, a valid epoch number, yet the
    code selects the text because it is truthy, converts it to [null] and
    does not go on to the anchor. *)
Lemma periodStart_text_candidate_counterexample :
  let subscription := Sample.subscriptionWithItem (VString "1700001000") in
  find qualifies (periodStartCandidates subscription)
  = Some (VNumber (Finite 1700000500))
  /\ specifiedPeriodStart (periodStartCandidates subscription)
     = Some (ValidDate 1700000500000)
  /\ resolvePeriodStart subscription = Returned None.
Proof. vm_compute. repeat split; reflexivity. Qed.

(** C4, amended: for a subscription-created or subscription-updated
    event, [currentPeriodStart] is resolved from the first candidate that
    is truthy, in the order item-level [current_period_start],
    [billing_cycle_anchor], [created], and the chain ends there.  A whole
    number of seconds resolves to the time at that many seconds, which is
    not the epoch-zero date; a truthy value that is not a number resolves
    to [null], whatever the later candidates; with no truthy candidate the
    result is [null].  When every candidate is absent or a positive whole
    number of seconds, as Stripe sends these fields, the result is that of
    the specification: the first qualifying candidate, converted, so the
    creation time when only [created] qualifies, and [null], never the
    epoch-zero date, when none does.  [handleSubscriptionCreated] stores
    the resolved value in the new row; [handleSubscriptionUpdated] stores
    it in the row it found when it is a date and keeps the stored date
    when it is [null]. *)
Theorem periodStart_fallback_chain (subscription : Subscription) :
  let candidates := periodStartCandidates subscription in
  let resolved := resolvePeriodStart subscription in
  (forall z,
      find truthy candidates = Some (VNumber (Finite (inject_Z z))) ->
      (Z.abs z * 1000 <= maxTime)%Z ->
      resolved = Returned (Some (ValidDate (z * 1000)))
      /\ (z * 1000 <> 0)%Z)
  /\ (forall v,
        find truthy candidates = Some v -> typeofNumber v = false ->
        resolved = Returned None)
  /\ (find truthy candidates = None -> resolved = Returned None)
  /\ (Forall (fun v => epochSeconds v = true) candidates ->
      resolved = Returned (specifiedPeriodStart candidates)
      /\ resolved <> Returned (Some (ValidDate 0))
      /\ (forall z,
            find qualifies candidates = Some (s_created subscription) ->
            s_created subscription = VNumber (Finite (inject_Z z)) ->
            resolved = Returned (Some (ValidDate (z * 1000))))
      /\ (find qualifies candidates = None -> resolved = Returned None))
  /\ (forall (w : World) (user : UserEntity),
        dbFailAfter w = None ->
        find (hasCustomer (refId (s_customer subscription))) (users (db w))
          = Some user ->
        createDatesConvert subscription = true ->
        exists w' row,
          handleSubscriptionCreated subscription w = (Returned tt, w')
          /\ subscriptions (db w') = (subscriptions (db w) ++ [row])%list
          /\ resolved = Returned (sub_currentPeriodStart row))
  /\ (forall (w : World) (us : UserSubscriptionEntity),
        dbFailAfter w = None ->
        keyed (subscriptions (db w)) ->
        storedSubscription (s_id subscription) w = Some us ->
        updateDatesConvert subscription = true ->
        exists w' us' ps,
          handleSubscriptionUpdated subscription w = (Returned tt, w')
          /\ storedSubscription (s_id subscription) w' = Some us'
          /\ resolved = Returned ps
          /\ sub_currentPeriodStart us' =
               match ps with
               | Some date => Some date
               | None => sub_currentPeriodStart us
               end).
Proof.
  intros candidates resolved.
  pose proof (resolvePeriodStart_chain subscription) as Hchain.
  fold candidates resolved in Hchain.
  split; [ | split; [ | split; [ | split; [ | split ] ] ] ].
  - intros z Hfind Hrange.
    assert (Hz : z <> 0%Z).
    { intros ->. apply find_some in Hfind. destruct Hfind as [_ Ht].
      discriminate Ht. }
    rewrite Hchain, Hfind. split; [ apply convert_whole; assumption | lia ].
  - intros v Hfind Htype. rewrite Hchain, Hfind.
    apply convert_not_number. exact Htype.
  - intros Hfind. rewrite Hchain, Hfind. reflexivity.
  - intros Hall.
    destruct (resolvePeriodStart_specified subscription Hall) as [Hspec Hzero].
    fold candidates resolved in Hspec, Hzero.
    split; [ exact Hspec | ]. split; [ exact Hzero | ]. split.
    + intros z Hfind Hcreated. rewrite Hspec. unfold specifiedPeriodStart.
      rewrite Hfind, Hcreated.
      unfold truncQ, inject_Z, Qmult. cbv beta iota delta [Qnum Qden].
      change (Zpos (1 * 1)) with 1%Z. rewrite Z.quot_1_r. reflexivity.
    + intros Hfind. rewrite Hspec. unfold specifiedPeriodStart.
      rewrite Hfind. reflexivity.
  - intros w user Hup Huser Hdates.
    destruct (handleSubscriptionCreated_linked subscription w user
                Hup Huser Hdates)
      as (w' & ps & pe & ts & te & Hrun & Hps & Hrows).
    exists w'. eexists. split; [ exact Hrun | split; [ exact Hrows | ] ].
    exact Hps.
  - intros w us Hup Hkeyed Hfind Hdates.
    destruct (handleSubscriptionUpdated_stored subscription w us
                Hup Hkeyed Hfind Hdates)
      as (w' & ps & pe & ca & ea & Hrun & Hps & _ & _ & _ & Hfound & _).
    exists w'. eexists. exists ps.
    split; [ exact Hrun | split; [ exact Hfound | ] ].
    split; [ exact Hps | ].
    destruct ps; reflexivity.
Qed.

Lemma periodStart_fallback_chain_witness :
  (resolvePeriodStart (Sample.subscription "active" VNull)
   = Returned (Some (ValidDate (1700000000 * 1000)))
   /\ (1700000000 * 1000 <> 0)%Z)
  /\ resolvePeriodStart (Sample.subscriptionWithItem VUndefined)
     = Returned
         (specifiedPeriodStart
            (periodStartCandidates (Sample.subscriptionWithItem VUndefined))).
Proof.
  split.
  - exact (proj1 (periodStart_fallback_chain (Sample.subscription "active" VNull))
             1700000000%Z eq_refl ltac:(vm_compute; discriminate)).
  - assert (Hfields : Forall (fun v => epochSeconds v = true)
                        (periodStartCandidates
                           (Sample.subscriptionWithItem VUndefined))).
    { repeat constructor. }
    exact (proj1 (proj1 (proj2 (proj2 (proj2
                   (periodStart_fallback_chain
                      (Sample.subscriptionWithItem VUndefined))))) Hfields)).
Defined.

(** The chain on sample payloads: the item-level field wins when it is a
    valid epoch number; when it is absent the billing-cycle anchor is
    taken; a negative item-level number is taken too, and gives a date
    before the epoch. *)
Example chain_on_samples :
  resolvePeriodStart (Sample.subscriptionWithItem (VNumber (Finite 1700001000)))
    = Returned (Some (ValidDate 1700001000000))
  /\ resolvePeriodStart (Sample.subscriptionWithItem VUndefined)
    = Returned (Some (ValidDate 1700000500000))
  /\ resolvePeriodStart (Sample.subscriptionWithItem (VNumber (Finite (-5))))
    = Returned (Some (ValidDate (-5000))).
Proof. vm_compute. repeat split; reflexivity. Qed.

(* ================================================================== *)
(** ** What a delivery keeps *)

Section Respects.

Variable R : World -> World -> Prop.
Hypothesis R_refl : forall w, R w w.
Hypothesis R_trans : forall a b c, R a b -> R b c -> R a c.

Lemma respects_ret {A} (a : A) : respects R (ret a).
Proof. intros w. apply R_refl. Qed.

Lemma respects_throw {A} (e : JsError) : respects R (@throw A e).
Proof. intros w. apply R_refl. Qed.

Lemma respects_liftOutcome {A} (o : Outcome A) : respects R (liftOutcome o).
Proof. intros w. apply R_refl. Qed.

Lemma respects_bind {A B} (m : M A) (k : A -> M B) :
  respects R m -> (forall a, respects R (k a)) -> respects R (bind m k).
Proof.
  intros Hm Hk w. unfold bind. specialize (Hm w).
  destruct (m w) as [[a|e] w']; cbn [snd] in *.
  - exact (R_trans _ _ _ Hm (Hk a w')).
  - exact Hm.
Qed.

Lemma respects_tryCatch {A} (m : M A) (h : JsError -> M A) :
  respects R m -> (forall e, respects R (h e)) -> respects R (tryCatch m h).
Proof.
  intros Hm Hh w. unfold tryCatch. specialize (Hm w).
  destruct (m w) as [[a|e] w']; cbn [snd] in *.
  - exact Hm.
  - exact (R_trans _ _ _ Hm (Hh e w')).
Qed.

End Respects.

Lemma extends_refl {X} (l : list X) : extends l l.
Proof. exists []. symmetry. apply app_nil_r. Qed.

Lemma extends_trans {X} (a b c : list X) :
  extends a b -> extends b c -> extends a c.
Proof.
  intros [m1 ->] [m2 ->]. exists (m1 ++ m2)%list. symmetry. apply app_assoc.
Qed.

Lemma extends_snoc {X} (l : list X) (x : X) : extends l (l ++ [x])%list.
Proof. exists [x]. reflexivity. Qed.

Lemma evolves_refl (w : World) : evolves w w.
Proof.
  repeat split; try reflexivity; try apply extends_refl.
Qed.

Lemma evolves_trans (a b c : World) : evolves a b -> evolves b c -> evolves a c.
Proof.
  intros (E1 & U1 & T1 & P1 & L1 & S1) (E2 & U2 & T2 & P2 & L2 & S2).
  repeat split.
  - rewrite E2. exact E1.
  - rewrite U2. exact U1.
  - exact (extends_trans _ _ _ T1 T2).
  - exact (extends_trans _ _ _ P1 P2).
  - exact (extends_trans _ _ _ L1 L2).
  - exact (Nat.le_trans _ _ _ S1 S2).
Qed.

(** A step that leaves the database and the flag alone. *)
Lemma evolves_same (w w' : World) :
  env_logging w' = env_logging w -> db w' = db w -> evolves w w'.
Proof.
  intros He Hd. unfold evolves. rewrite He, Hd.
  repeat split; try reflexivity; apply extends_refl.
Qed.

Lemma length_replaceRow (k : nat) (s : UserSubscriptionEntity)
  (rows : list UserSubscriptionEntity) :
  List.length (replaceRow k s rows) = List.length rows.
Proof. unfold replaceRow. apply length_map. Qed.

Lemma ledgerLabel_map (f : WebhookEventEntity -> WebhookEventEntity)
  (rows : list WebhookEventEntity) :
  (forall e, ledgerLabel (f e) = ledgerLabel e) ->
  map ledgerLabel (map f rows) = map ledgerLabel rows.
Proof.
  intros Hf. rewrite map_map. apply map_ext. exact Hf.
Qed.

Lemma evolves_dbCall : respects evolves dbCall.
Proof.
  intros w. unfold dbCall.
  destruct (dbFailAfter w) as [[|n]|]; apply evolves_same; reflexivity.
Qed.

Lemma evolves_enter (h : HandlerName) : respects evolves (enter h).
Proof. intros w. apply evolves_same; reflexivity. Qed.

Lemma evolves_newDate : respects evolves newDate.
Proof. intros w. apply evolves_same; reflexivity. Qed.

Lemma evolves_webhookLoggingEnabled : respects evolves webhookLoggingEnabled.
Proof. intros w. apply evolves_refl. Qed.

Lemma evolves_stripeRetrieve (id : string) (expand : bool) :
  respects evolves (stripeRetrieve id expand).
Proof. intros w. apply evolves_refl. Qed.

Lemma evolves_userRepository_findOne (customerId : string) :
  respects evolves (userRepository_findOne customerId).
Proof.
  intros w. unfold userRepository_findOne, bind, dbCall, getDb, ret.
  destruct (dbFailAfter w) as [[|n]|]; apply evolves_same; reflexivity.
Qed.

Lemma evolves_subscriptionRepository_findOne (sid : string) :
  respects evolves (subscriptionRepository_findOne sid).
Proof.
  intros w. unfold subscriptionRepository_findOne, bind, dbCall, getDb, ret.
  destruct (dbFailAfter w) as [[|n]|]; apply evolves_same; reflexivity.
Qed.

Lemma evolves_subscriptions (w w' : World) (rows : list UserSubscriptionEntity) :
  env_logging w' = env_logging w ->
  db w' = setSubscriptions (db w) rows ->
  (List.length (subscriptions (db w)) <= List.length rows)%nat ->
  evolves w w'.
Proof.
  intros He Hd Hlen. unfold evolves. rewrite He, Hd. cbn.
  repeat split; try reflexivity; try apply extends_refl. exact Hlen.
Qed.

Lemma evolves_subscriptionRepository_save (s : UserSubscriptionEntity) :
  respects evolves (subscriptionRepository_save s).
Proof.
  intros w. unfold subscriptionRepository_save, bind, dbCall, getDb, putDb.
  destruct (dbFailAfter w) as [[|n]|]; cbn [snd];
    try (apply evolves_same; reflexivity);
    cbn [db setDbFailAfter];
    (destruct (sub_id s) as [k|];
     [ destruct (existsb (hasKey k) (subscriptions (db w))) | ]);
    cbn [snd];
    (eapply evolves_subscriptions; [ reflexivity | reflexivity | ]);
    rewrite ?length_replaceRow, ?length_app; cbn [List.length]; lia.
Qed.

Lemma evolves_transactionRepository_save (t : StripeTransactionEntity) :
  respects evolves (transactionRepository_save t).
Proof.
  intros w. unfold transactionRepository_save, bind, dbCall, getDb, putDb, ret.
  destruct (dbFailAfter w) as [[|n]|]; cbn [snd];
    try (apply evolves_same; reflexivity);
    (repeat split; cbn; try reflexivity; try apply extends_refl;
     try apply extends_snoc).
Qed.

Lemma evolves_paymentMethodRepository_save (p : PaymentMethodEntity) :
  respects evolves (paymentMethodRepository_save p).
Proof.
  intros w. unfold paymentMethodRepository_save, bind, dbCall, getDb, putDb, ret.
  destruct (dbFailAfter w) as [[|n]|]; cbn [snd];
    try (apply evolves_same; reflexivity);
    (repeat split; cbn; try reflexivity; try apply extends_refl;
     try apply extends_snoc).
Qed.

Lemma evolves_ledger (w w' : World) (rows : list WebhookEventEntity) :
  env_logging w' = env_logging w ->
  db w' = setWebhookEvents (db w) rows ->
  extends (map ledgerLabel (webhookEvents (db w))) (map ledgerLabel rows) ->
  evolves w w'.
Proof.
  intros He Hd Hext. unfold evolves. rewrite He, Hd. cbn.
  repeat split; try reflexivity; try apply extends_refl. exact Hext.
Qed.

Lemma evolves_webhookEventRepository_save (e : WebhookEventEntity) :
  respects evolves (webhookEventRepository_save e).
Proof.
  intros w. unfold webhookEventRepository_save, bind, dbCall, getDb, putDb, ret, throw.
  destruct (dbFailAfter w) as [[|n]|]; cbn [snd];
    try (apply evolves_same; reflexivity);
    cbn [db setDbFailAfter uniqueStripeEventId];
    (destruct (uniqueStripeEventId w
               && existsb (hasEventId (we_stripeEventId e)) (webhookEvents (db w)));
     cbn [snd];
     [ apply evolves_same; reflexivity
     | eapply evolves_ledger; [ reflexivity | reflexivity | ];
       rewrite map_app; apply extends_snoc ]).
Qed.

Lemma evolves_webhookEventRepository_increment (eventId : string) :
  respects evolves (webhookEventRepository_increment eventId).
Proof.
  intros w. unfold webhookEventRepository_increment, bind, dbCall, getDb, putDb.
  destruct (dbFailAfter w) as [[|n]|]; cbn [snd];
    try (apply evolves_same; reflexivity);
    (eapply evolves_ledger; [ reflexivity | reflexivity | ];
     cbn [db setDbFailAfter];
     rewrite ledgerLabel_map;
     [ apply extends_refl | intros e; destruct (hasEventId eventId e); reflexivity ]).
Qed.

Lemma evolves_webhookEventRepository_update (eventId : string)
  (u : WebhookEventUpdate) :
  respects evolves (webhookEventRepository_update eventId u).
Proof.
  intros w. unfold webhookEventRepository_update, bind, dbCall, getDb, putDb.
  destruct (dbFailAfter w) as [[|n]|]; cbn [snd];
    try (apply evolves_same; reflexivity);
    (eapply evolves_ledger; [ reflexivity | reflexivity | ];
     cbn [db setDbFailAfter];
     rewrite ledgerLabel_map;
     [ apply extends_refl | intros e; destruct (hasEventId eventId e); reflexivity ]).
Qed.

Create HintDb evolves.
#[local] Hint Resolve evolves_dbCall evolves_enter evolves_newDate
  evolves_webhookLoggingEnabled evolves_stripeRetrieve
  evolves_userRepository_findOne evolves_subscriptionRepository_findOne
  evolves_subscriptionRepository_save evolves_transactionRepository_save
  evolves_paymentMethodRepository_save evolves_webhookEventRepository_save
  evolves_webhookEventRepository_increment
  evolves_webhookEventRepository_update : evolves.
#[local] Hint Extern 1 (respects evolves (ret _)) =>
  apply (respects_ret evolves evolves_refl) : evolves.
#[local] Hint Extern 1 (respects evolves (throw _)) =>
  apply (respects_throw evolves evolves_refl) : evolves.
#[local] Hint Extern 1 (respects evolves (liftOutcome _)) =>
  apply (respects_liftOutcome evolves evolves_refl) : evolves.

(** Splits a computation along its binds, handlers and case distinctions
    and closes the leaves with the hints of [evolves]. *)
Ltac evolves_steps :=
  repeat first
    [ solve [ auto with evolves ]
    | apply (respects_bind evolves evolves_trans); [ | intros ? ]
    | apply (respects_tryCatch evolves evolves_trans); [ | intros ? ]
    | match goal with
      | |- respects evolves (match ?x with _ => _ end) => destruct x
      | |- respects evolves (let _ := _ in _) => cbv zeta
      end ].

Lemma evolves_recordTransaction
  (userId : string) (ref : option Expandable)
  (type : TransactionType.t) (amount : Q) (currency : string)
  (status : TransactionStatus.t) (description : string) (metadata : Metadata)
  (failureReason : option string) (stripeFee netAmount : option Q)
  (processedAt : option JsDate) :
  respects evolves (recordTransaction userId ref type amount currency status
                      description metadata failureReason stripeFee netAmount
                      processedAt).
Proof. unfold recordTransaction. evolves_steps. Qed.

Lemma evolves_savePaymentMethod (userId id type : string) (card : Card) :
  respects evolves (savePaymentMethod userId id type card).
Proof. unfold savePaymentMethod. evolves_steps. Qed.

Lemma evolves_logWebhookEvent (stripeEventId eventType : string) :
  respects evolves (logWebhookEvent stripeEventId eventType).
Proof. unfold logWebhookEvent. evolves_steps. Qed.

Lemma evolves_updateWebhookEventStatus (eventId : string)
  (status : WebhookProcessingStatus.t) (errorMessage : option string) :
  respects evolves (updateWebhookEventStatus eventId status errorMessage).
Proof. unfold updateWebhookEventStatus. evolves_steps. Qed.

Lemma evolves_feeAndNet (paymentIntentId : string) (gross : Q) :
  respects evolves (feeAndNet paymentIntentId gross).
Proof. unfold feeAndNet. evolves_steps. Qed.

Lemma evolves_failureReasonOf (invoice : Invoice) :
  respects evolves (failureReasonOf invoice).
Proof. unfold failureReasonOf. evolves_steps. Qed.

#[local] Hint Resolve evolves_recordTransaction evolves_savePaymentMethod
  evolves_logWebhookEvent evolves_updateWebhookEventStatus evolves_feeAndNet
  evolves_failureReasonOf : evolves.

Lemma evolves_dispatch (data : EventData) : respects evolves (dispatch data).
Proof.
  destruct data; cbn [dispatch].
  - unfold handleCheckoutSessionCompleted. evolves_steps.
  - unfold handleInvoicePaymentSucceeded. evolves_steps.
  - unfold handleInvoicePaymentFailed. evolves_steps.
  - unfold handleInvoiceUpcoming. evolves_steps.
  - unfold handlePaymentMethodAttached. evolves_steps.
  - unfold handleSubscriptionCreated. evolves_steps.
  - unfold handleSubscriptionUpdated. evolves_steps.
  - unfold handleSubscriptionDeleted. evolves_steps.
  - unfold handleSubscriptionTrialWillEnd. evolves_steps.
  - unfold handlePaymentIntentSucceeded. evolves_steps.
  - evolves_steps.
  - unfold handlePaymentIntentFailed. evolves_steps.
  - unfold handlePaymentIntentCanceled. evolves_steps.
  - unfold handleChargeRefunded. evolves_steps.
  - evolves_steps.
Qed.

Lemma evolves_onWebhookError (error : JsError) :
  respects evolves (onWebhookError error).
Proof. unfold onWebhookError. evolves_steps. Qed.

#[local] Hint Resolve evolves_dispatch evolves_onWebhookError : evolves.

(** X1: whatever the outcome of [constructEvent], the event, the state of
    the database and the answers of the Stripe API, a call of
    [handleWebhookEvent] leaves the users table as it was, keeps every
    stored transaction and payment method unchanged and in place (new ones
    come after them), keeps every ledger row with its event id and type,
    and removes no subscription row. *)
Theorem delivery_only_adds (constructed : Outcome Event) (w : World) :
  evolves w (worldAfter (handleWebhookEvent constructed) w).
Proof.
  unfold worldAfter. revert w.
  change (respects evolves (handleWebhookEvent constructed)).
  unfold handleWebhookEvent. evolves_steps.
Qed.

(* ================================================================== *)
(** ** The ledger when logging is off *)

Lemma ledgerKept_refl (w : World) : ledgerKept w w.
Proof. split; reflexivity. Qed.

Lemma ledgerKept_trans (a b c : World) :
  ledgerKept a b -> ledgerKept b c -> ledgerKept a c.
Proof.
  intros [E1 L1] [E2 L2]. split.
  - rewrite E2. exact E1.
  - rewrite L2. exact L1.
Qed.

Lemma ledgerKept_dbCall : respects ledgerKept dbCall.
Proof.
  intros w. unfold dbCall.
  destruct (dbFailAfter w) as [[|n]|]; split; reflexivity.
Qed.

Lemma ledgerKept_enter (h : HandlerName) : respects ledgerKept (enter h).
Proof. intros w. split; reflexivity. Qed.

Lemma ledgerKept_newDate : respects ledgerKept newDate.
Proof. intros w. split; reflexivity. Qed.

Lemma ledgerKept_stripeRetrieve (id : string) (expand : bool) :
  respects ledgerKept (stripeRetrieve id expand).
Proof. intros w. split; reflexivity. Qed.

Lemma ledgerKept_userRepository_findOne (customerId : string) :
  respects ledgerKept (userRepository_findOne customerId).
Proof.
  intros w. unfold userRepository_findOne, bind, dbCall, getDb, ret.
  destruct (dbFailAfter w) as [[|n]|]; split; reflexivity.
Qed.

Lemma ledgerKept_subscriptionRepository_findOne (sid : string) :
  respects ledgerKept (subscriptionRepository_findOne sid).
Proof.
  intros w. unfold subscriptionRepository_findOne, bind, dbCall, getDb, ret.
  destruct (dbFailAfter w) as [[|n]|]; split; reflexivity.
Qed.

Lemma ledgerKept_subscriptionRepository_save (s : UserSubscriptionEntity) :
  respects ledgerKept (subscriptionRepository_save s).
Proof.
  intros w. unfold subscriptionRepository_save, bind, dbCall, getDb, putDb.
  destruct (dbFailAfter w) as [[|n]|]; cbn [snd];
    try (split; reflexivity);
    cbn [db setDbFailAfter];
    (destruct (sub_id s) as [k|];
     [ destruct (existsb (hasKey k) (subscriptions (db w))) | ]);
    split; reflexivity.
Qed.

Lemma ledgerKept_transactionRepository_save (t : StripeTransactionEntity) :
  respects ledgerKept (transactionRepository_save t).
Proof.
  intros w. unfold transactionRepository_save, bind, dbCall, getDb, putDb, ret.
  destruct (dbFailAfter w) as [[|n]|]; split; reflexivity.
Qed.

Lemma ledgerKept_paymentMethodRepository_save (p : PaymentMethodEntity) :
  respects ledgerKept (paymentMethodRepository_save p).
Proof.
  intros w. unfold paymentMethodRepository_save, bind, dbCall, getDb, putDb, ret.
  destruct (dbFailAfter w) as [[|n]|]; split; reflexivity.
Qed.

Create HintDb ledger.
#[local] Hint Resolve ledgerKept_dbCall ledgerKept_enter ledgerKept_newDate
  ledgerKept_stripeRetrieve ledgerKept_userRepository_findOne
  ledgerKept_subscriptionRepository_findOne
  ledgerKept_subscriptionRepository_save
  ledgerKept_transactionRepository_save
  ledgerKept_paymentMethodRepository_save : ledger.
#[local] Hint Extern 1 (respects ledgerKept (ret _)) =>
  apply (respects_ret ledgerKept ledgerKept_refl) : ledger.
#[local] Hint Extern 1 (respects ledgerKept (throw _)) =>
  apply (respects_throw ledgerKept ledgerKept_refl) : ledger.
#[local] Hint Extern 1 (respects ledgerKept (liftOutcome _)) =>
  apply (respects_liftOutcome ledgerKept ledgerKept_refl) : ledger.

Ltac ledger_steps :=
  repeat first
    [ solve [ auto with ledger ]
    | apply (respects_bind ledgerKept ledgerKept_trans); [ | intros ? ]
    | apply (respects_tryCatch ledgerKept ledgerKept_trans); [ | intros ? ]
    | match goal with
      | |- respects ledgerKept (match ?x with _ => _ end) => destruct x
      | |- respects ledgerKept (let _ := _ in _) => cbv zeta
      end ].

(** No handler reads or writes the ledger. *)
Lemma ledgerKept_dispatch (data : EventData) : respects ledgerKept (dispatch data).
Proof.
  destruct data; cbn [dispatch].
  - unfold handleCheckoutSessionCompleted, recordTransaction. ledger_steps.
  - unfold handleInvoicePaymentSucceeded, recordTransaction, feeAndNet.
    ledger_steps.
  - unfold handleInvoicePaymentFailed, recordTransaction, failureReasonOf.
    ledger_steps.
  - unfold handleInvoiceUpcoming. ledger_steps.
  - unfold handlePaymentMethodAttached, savePaymentMethod. ledger_steps.
  - unfold handleSubscriptionCreated. ledger_steps.
  - unfold handleSubscriptionUpdated. ledger_steps.
  - unfold handleSubscriptionDeleted. ledger_steps.
  - unfold handleSubscriptionTrialWillEnd. ledger_steps.
  - unfold handlePaymentIntentSucceeded, recordTransaction, feeAndNet.
    ledger_steps.
  - ledger_steps.
  - unfold handlePaymentIntentFailed, recordTransaction. ledger_steps.
  - unfold handlePaymentIntentCanceled, recordTransaction. ledger_steps.
  - unfold handleChargeRefunded, recordTransaction. ledger_steps.
  - ledger_steps.
Qed.

Lemma quietKept_refl (w : World) : quietKept w w.
Proof. intros _. apply ledgerKept_refl. Qed.

Lemma quietKept_trans (a b c : World) :
  quietKept a b -> quietKept b c -> quietKept a c.
Proof.
  intros Hab Hbc Hquiet. specialize (Hab Hquiet).
  apply (ledgerKept_trans _ _ _ Hab). apply Hbc.
  destruct Hab as [He _]. rewrite He. exact Hquiet.
Qed.

Lemma quietKept_of_kept {A} (m : M A) :
  respects ledgerKept m -> respects quietKept m.
Proof. intros Hm w _. apply Hm. Qed.

Lemma webhookLoggingEnabled_off (w : World) :
  env_logging w <> Some "true" -> webhookLoggingEnabled w = (Returned false, w).
Proof.
  unfold webhookLoggingEnabled. intros Hquiet.
  destruct (env_logging w) as [v|]; [ | reflexivity ].
  destruct (v =? "true") eqn:Hv; [ | reflexivity ].
  apply String.eqb_eq in Hv. subst v. contradiction.
Qed.

Lemma quietKept_logWebhookEvent (stripeEventId eventType : string) :
  respects quietKept (logWebhookEvent stripeEventId eventType).
Proof.
  intros w Hquiet. unfold logWebhookEvent.
  rewrite (bind_returned _ _ _ _ _ (webhookLoggingEnabled_off w Hquiet)).
  apply ledgerKept_refl.
Qed.

Lemma quietKept_updateWebhookEventStatus (eventId : string)
  (status : WebhookProcessingStatus.t) (errorMessage : option string) :
  respects quietKept (updateWebhookEventStatus eventId status errorMessage).
Proof.
  intros w Hquiet. unfold updateWebhookEventStatus.
  rewrite (bind_returned _ _ _ _ _ (webhookLoggingEnabled_off w Hquiet)).
  apply ledgerKept_refl.
Qed.

Lemma quietKept_webhookLoggingEnabled : respects quietKept webhookLoggingEnabled.
Proof. intros w _. apply ledgerKept_refl. Qed.

Lemma quietKept_dispatch (data : EventData) : respects quietKept (dispatch data).
Proof. apply quietKept_of_kept, ledgerKept_dispatch. Qed.

Create HintDb quiet.
#[local] Hint Resolve quietKept_logWebhookEvent
  quietKept_updateWebhookEventStatus quietKept_webhookLoggingEnabled
  quietKept_dispatch : quiet.
#[local] Hint Extern 1 (respects quietKept (ret _)) =>
  apply (respects_ret quietKept quietKept_refl) : quiet.
#[local] Hint Extern 1 (respects quietKept (throw _)) =>
  apply (respects_throw quietKept quietKept_refl) : quiet.
#[local] Hint Extern 1 (respects quietKept (liftOutcome _)) =>
  apply (respects_liftOutcome quietKept quietKept_refl) : quiet.

Ltac quiet_steps :=
  repeat first
    [ solve [ auto with quiet ]
    | apply (respects_bind quietKept quietKept_trans); [ | intros ? ]
    | apply (respects_tryCatch quietKept quietKept_trans); [ | intros ? ]
    | match goal with
      | |- respects quietKept (match ?x with _ => _ end) => destruct x
      | |- respects quietKept (let _ := _ in _) => cbv zeta
      end ].

(** X2: unless the environment variable [STRIPE_WEBHOOK_LOGGING_ENABLED]
    is exactly ['true'] (so also when it is not set), a call of
    [handleWebhookEvent] leaves the ledger as it was, whatever the event
    and whatever happens while it is handled; no row is inserted and none
    is updated, also on the failure path. *)
Theorem logging_off_keeps_ledger (constructed : Outcome Event) (w : World) :
  env_logging w <> Some "true" ->
  webhookEvents (db (worldAfter (handleWebhookEvent constructed) w))
  = webhookEvents (db w).
Proof.
  intros Hquiet.
  assert (Hrun : respects quietKept (handleWebhookEvent constructed)).
  { unfold handleWebhookEvent, onWebhookError. quiet_steps. }
  exact (proj2 (Hrun w Hquiet)).
Qed.

Lemma logging_off_keeps_ledger_witness :
  webhookEvents
    (db (worldAfter (handleWebhookEvent (Returned Sample.checkoutEvent))
           (Sample.quietWorld [] [Sample.completedRow])))
  = [Sample.completedRow].
Proof.
  apply (logging_off_keeps_ledger (Returned Sample.checkoutEvent)
           (Sample.quietWorld [] [Sample.completedRow])).
  discriminate.
Defined.

(* ================================================================== *)
(** ** Invariants of the subscription and transaction tables *)

Section Maintains.

Variable PS : UserSubscriptionEntity -> Prop.
Variable PT : StripeTransactionEntity -> Prop.

Hypothesis PS_withKey : forall k s, PS s -> PS (withKey k s).
Hypothesis PS_new :
  forall subscription user ps pe ts te,
    PS (newUserSubscription subscription user ps pe ts te).
Hypothesis PS_update :
  forall subscription us ps pe ca ea,
    PS us -> PS (applySubscriptionUpdate subscription us ps pe ca ea).
Hypothesis PS_delete :
  forall us canceledAt endedAt,
    PS us -> PS (applySubscriptionDelete us canceledAt endedAt).
Hypothesis PS_failed : forall us, PS us -> PS (markPaymentFailed us).
Hypothesis PT_record :
  forall userId ref type amount currency status description metadata
         failureReason stripeFee netAmount processedAt,
    PT (transactionOf userId ref type amount currency status description
          metadata failureReason stripeFee netAmount processedAt).

Local Abbreviation holds := (maintains PS PT).

Lemma maintains_weaken {A} (m : M A) (Q Q' : A -> Prop) :
  holds m Q -> (forall a, Q a -> Q' a) -> holds m Q'.
Proof.
  intros Hm HQ w Hw. destruct (Hm w Hw) as [Hinv Hret].
  split; [ exact Hinv | intros a Ha; exact (HQ a (Hret a Ha)) ].
Qed.

Lemma maintains_ret {A} (a : A) (Q : A -> Prop) : Q a -> holds (ret a) Q.
Proof.
  intros Ha w Hw. split; [ exact Hw | ].
  intros b Hb. inversion Hb. subst b. exact Ha.
Qed.

Lemma maintains_throw {A} (e : JsError) (Q : A -> Prop) : holds (throw e) Q.
Proof. intros w Hw. split; [ exact Hw | intros a Ha; inversion Ha ]. Qed.

Lemma maintains_liftOutcome {A} (o : Outcome A) :
  holds (liftOutcome o) (fun _ => True).
Proof. intros w Hw. split; [ exact Hw | intros a _; exact I ]. Qed.

Lemma maintains_bind {A B} (m : M A) (k : A -> M B)
  (Q : A -> Prop) (Q' : B -> Prop) :
  holds m Q -> (forall a, Q a -> holds (k a) Q') -> holds (bind m k) Q'.
Proof.
  intros Hm Hk w Hw. unfold bind. destruct (Hm w Hw) as [Hinv Hret].
  destruct (m w) as [[a|e] w']; cbn [fst snd] in *.
  - exact (Hk a (Hret a eq_refl) w' Hinv).
  - split; [ exact Hinv | intros b Hb; inversion Hb ].
Qed.

Lemma maintains_tryCatch {A} (m : M A) (h : JsError -> M A) (Q : A -> Prop) :
  holds m Q -> (forall e, holds (h e) Q) -> holds (tryCatch m h) Q.
Proof.
  intros Hm Hh w Hw. unfold tryCatch. destruct (Hm w Hw) as [Hinv Hret].
  destruct (m w) as [[a|e] w']; cbn [fst snd] in *.
  - split; [ exact Hinv | exact Hret ].
  - exact (Hh e w' Hinv).
Qed.

(** A step that writes neither table. *)
Lemma maintains_tables {A} (m : M A) :
  (forall w, subscriptions (db (snd (m w))) = subscriptions (db w)
             /\ transactions (db (snd (m w))) = transactions (db w)) ->
  holds m (fun _ => True).
Proof.
  intros Hm w [Hs Ht]. destruct (Hm w) as [Es Et].
  split; [ | intros a _; exact I ].
  split; [ rewrite Es; exact Hs | rewrite Et; exact Ht ].
Qed.

Lemma maintains_dbCall : holds dbCall (fun _ => True).
Proof.
  apply maintains_tables. intros w. unfold dbCall.
  destruct (dbFailAfter w) as [[|n]|]; split; reflexivity.
Qed.

Lemma maintains_enter (h : HandlerName) : holds (enter h) (fun _ => True).
Proof. apply maintains_tables. intros w. split; reflexivity. Qed.

Lemma maintains_newDate : holds newDate (fun _ => True).
Proof. apply maintains_tables. intros w. split; reflexivity. Qed.

Lemma maintains_webhookLoggingEnabled :
  holds webhookLoggingEnabled (fun _ => True).
Proof. apply maintains_tables. intros w. split; reflexivity. Qed.

Lemma maintains_stripeRetrieve (id : string) (expand : bool) :
  holds (stripeRetrieve id expand) (fun _ => True).
Proof. apply maintains_tables. intros w. split; reflexivity. Qed.

Lemma maintains_userRepository_findOne (customerId : string) :
  holds (userRepository_findOne customerId) (fun _ => True).
Proof.
  apply maintains_tables. intros w.
  unfold userRepository_findOne, bind, dbCall, getDb, ret.
  destruct (dbFailAfter w) as [[|n]|]; split; reflexivity.
Qed.

Lemma maintains_paymentMethodRepository_save (p : PaymentMethodEntity) :
  holds (paymentMethodRepository_save p) (fun _ => True).
Proof.
  apply maintains_tables. intros w.
  unfold paymentMethodRepository_save, bind, dbCall, getDb, putDb, ret.
  destruct (dbFailAfter w) as [[|n]|]; split; reflexivity.
Qed.

Lemma maintains_webhookEventRepository_save (e : WebhookEventEntity) :
  holds (webhookEventRepository_save e) (fun _ => True).
Proof.
  apply maintains_tables. intros w.
  unfold webhookEventRepository_save, bind, dbCall, getDb, putDb, ret, throw.
  destruct (dbFailAfter w) as [[|n]|]; cbn [snd];
    try (split; reflexivity);
    cbn [db setDbFailAfter uniqueStripeEventId];
    destruct (uniqueStripeEventId w
              && existsb (hasEventId (we_stripeEventId e)) (webhookEvents (db w)));
    split; reflexivity.
Qed.

Lemma maintains_webhookEventRepository_increment (eventId : string) :
  holds (webhookEventRepository_increment eventId) (fun _ => True).
Proof.
  apply maintains_tables. intros w.
  unfold webhookEventRepository_increment, bind, dbCall, getDb, putDb.
  destruct (dbFailAfter w) as [[|n]|]; split; reflexivity.
Qed.

Lemma maintains_webhookEventRepository_update (eventId : string)
  (u : WebhookEventUpdate) :
  holds (webhookEventRepository_update eventId u) (fun _ => True).
Proof.
  apply maintains_tables. intros w.
  unfold webhookEventRepository_update, bind, dbCall, getDb, putDb.
  destruct (dbFailAfter w) as [[|n]|]; split; reflexivity.
Qed.

(** A lookup returns a stored row, which satisfies [PS]. *)
Lemma maintains_subscriptionRepository_findOne (sid : string) :
  holds (subscriptionRepository_findOne sid)
        (fun found => forall us, found = Some us -> PS us).
Proof.
  intros w [Hs Ht].
  assert (Hfound : forall w' us,
             subscriptions (db w') = subscriptions (db w) ->
             find (hasSubscriptionId sid) (subscriptions (db w')) = Some us ->
             PS us).
  { intros w' us Hsame Hfind. rewrite Hsame in Hfind.
    apply find_some in Hfind. destruct Hfind as [Hin _].
    rewrite Forall_forall in Hs. exact (Hs us Hin). }
  unfold subscriptionRepository_findOne, bind, dbCall, getDb, ret.
  destruct (dbFailAfter w) as [[|n]|]; cbn [fst snd].
  - split; [ split; assumption | intros a Ha; inversion Ha ].
  - split; [ split; assumption | ].
    intros a Ha us Hus. injection Ha as Ha. rewrite <- Ha in Hus.
    exact (Hfound _ us eq_refl Hus).
  - split; [ split; assumption | ].
    intros a Ha us Hus. injection Ha as Ha. rewrite <- Ha in Hus.
    exact (Hfound _ us eq_refl Hus).
Qed.

Lemma Forall_replaceRow (k : nat) (s : UserSubscriptionEntity)
  (rows : list UserSubscriptionEntity) :
  PS s -> Forall PS rows -> Forall PS (replaceRow k s rows).
Proof.
  intros Hs Hrows. unfold replaceRow. rewrite Forall_forall in *.
  intros r Hin. apply in_map_iff in Hin. destruct Hin as (r0 & Hr & Hin0).
  destruct (hasKey k r0); subst r; [ exact Hs | exact (Hrows r0 Hin0) ].
Qed.

Lemma maintains_subscriptionRepository_save (s : UserSubscriptionEntity) :
  PS s -> holds (subscriptionRepository_save s) (fun _ => True).
Proof.
  intros HPs w [Hs Ht]. split; [ | intros a _; exact I ].
  unfold subscriptionRepository_save, bind, dbCall, getDb, putDb.
  destruct (dbFailAfter w) as [[|n]|]; cbn [snd];
    try (split; assumption);
    cbn [db setDbFailAfter];
    (destruct (sub_id s) as [k|];
     [ destruct (existsb (hasKey k) (subscriptions (db w))) | ]);
    (split; [ | exact Ht ]); cbn.
  - apply Forall_replaceRow; assumption.
  - apply Forall_app. split; [ exact Hs | constructor; [ exact HPs | constructor ] ].
  - apply Forall_app. split; [ exact Hs | ].
    constructor; [ apply PS_withKey; exact HPs | constructor ].
  - apply Forall_replaceRow; assumption.
  - apply Forall_app. split; [ exact Hs | constructor; [ exact HPs | constructor ] ].
  - apply Forall_app. split; [ exact Hs | ].
    constructor; [ apply PS_withKey; exact HPs | constructor ].
Qed.

Lemma maintains_transactionRepository_save (t : StripeTransactionEntity) :
  PT t -> holds (transactionRepository_save t) (fun _ => True).
Proof.
  intros HPt w [Hs Ht]. split; [ | intros a _; exact I ].
  unfold transactionRepository_save, bind, dbCall, getDb, putDb, ret.
  destruct (dbFailAfter w) as [[|n]|]; cbn [snd];
    try (split; assumption);
    (split; [ exact Hs | ]); cbn;
    (apply Forall_app; split; [ exact Ht | constructor; [ exact HPt | constructor ] ]).
Qed.

(** Chains one step that returns anything with the rest. *)
Lemma maintains_then {A B} (m : M A) (k : A -> M B) (Q : B -> Prop) :
  holds m (fun _ => True) -> (forall a, holds (k a) Q) -> holds (bind m k) Q.
Proof.
  intros Hm Hk. apply (maintains_bind m k (fun _ => True) Q Hm).
  intros a _. apply Hk.
Qed.

Lemma maintains_after_find {B} (sid : string)
  (k : option UserSubscriptionEntity -> M B) (Q : B -> Prop) :
  (forall found, (forall us, found = Some us -> PS us) -> holds (k found) Q) ->
  holds (bind (subscriptionRepository_findOne sid) k) Q.
Proof.
  intros Hk.
  exact (maintains_bind _ k _ Q (maintains_subscriptionRepository_findOne sid) Hk).
Qed.

Lemma maintains_try {A} (m : M A) (h : JsError -> M A) :
  holds m (fun _ => True) -> (forall e, holds (h e) (fun _ => True)) ->
  holds (tryCatch m h) (fun _ => True).
Proof. apply maintains_tryCatch. Qed.

Lemma maintains_ret_any {A} (a : A) : holds (ret a) (fun _ => True).
Proof. apply maintains_ret. exact I. Qed.

Lemma maintains_throw_any {A} (e : JsError) : holds (@throw A e) (fun _ => True).
Proof. apply maintains_throw. Qed.

Lemma maintains_recordTransaction
  (userId : string) (ref : option Expandable)
  (type : TransactionType.t) (amount : Q) (currency : string)
  (status : TransactionStatus.t) (description : string) (metadata : Metadata)
  (failureReason : option string) (stripeFee netAmount : option Q)
  (processedAt : option JsDate) :
  holds (recordTransaction userId ref type amount currency status
           description metadata failureReason stripeFee netAmount processedAt)
        (fun _ => True).
Proof.
  unfold recordTransaction. cbv zeta.
  apply maintains_then; [ | intros t; apply maintains_ret_any ].
  apply maintains_transactionRepository_save. apply PT_record.
Qed.

(** Splits a computation along its binds, handlers and case distinctions;
    a row returned by a lookup carries [PS] to the save that follows. *)
Ltac maintains_steps :=
  repeat first
    [ apply maintains_ret_any
    | apply maintains_throw_any
    | apply maintains_liftOutcome
    | apply maintains_dbCall
    | apply maintains_enter
    | apply maintains_newDate
    | apply maintains_webhookLoggingEnabled
    | apply maintains_stripeRetrieve
    | apply maintains_userRepository_findOne
    | apply maintains_paymentMethodRepository_save
    | apply maintains_webhookEventRepository_save
    | apply maintains_webhookEventRepository_increment
    | apply maintains_webhookEventRepository_update
    | apply maintains_recordTransaction
    | apply maintains_subscriptionRepository_save;
      solve [ auto ]
    | apply maintains_after_find; intros ? ?
    | apply maintains_then; [ | intros ? ]
    | apply maintains_try; [ | intros ? ]
    | match goal with
      | |- maintains _ _ (match ?x with _ => _ end) _ => destruct x
      | |- maintains _ _ (let _ := _ in _) _ => cbv zeta
      end ].

Lemma maintains_dispatch (data : EventData) :
  holds (dispatch data) (fun _ => True).
Proof.
  destruct data; cbn [dispatch].
  - unfold handleCheckoutSessionCompleted. maintains_steps.
  - unfold handleInvoicePaymentSucceeded, feeAndNet. maintains_steps.
  - unfold handleInvoicePaymentFailed, failureReasonOf. maintains_steps.
  - unfold handleInvoiceUpcoming. maintains_steps.
  - unfold handlePaymentMethodAttached, savePaymentMethod. maintains_steps.
  - unfold handleSubscriptionCreated. maintains_steps.
  - unfold handleSubscriptionUpdated. maintains_steps.
  - unfold handleSubscriptionDeleted. maintains_steps.
  - unfold handleSubscriptionTrialWillEnd. maintains_steps.
  - unfold handlePaymentIntentSucceeded, feeAndNet. maintains_steps.
  - maintains_steps.
  - unfold handlePaymentIntentFailed. maintains_steps.
  - unfold handlePaymentIntentCanceled. maintains_steps.
  - unfold handleChargeRefunded. maintains_steps.
  - maintains_steps.
Qed.

Lemma maintains_handleWebhookEvent (constructed : Outcome Event) :
  holds (handleWebhookEvent constructed) (fun _ => True).
Proof.
  unfold handleWebhookEvent, onWebhookError, logWebhookEvent,
    updateWebhookEventStatus.
  maintains_steps; apply maintains_dispatch.
Qed.

End Maintains.

Lemma soundSubscription_withKey (k : nat) (s : UserSubscriptionEntity) :
  soundSubscription s -> soundSubscription (withKey k s).
Proof. intros H. exact H. Qed.

Lemma soundSubscription_new (subscription : Subscription) (user : UserEntity)
  (ps pe ts te : option JsDate) :
  soundSubscription (newUserSubscription subscription user ps pe ts te).
Proof.
  split; [ | cbn [newUserSubscription sub_failedPaymentCount]; lia ].
  cbn [newUserSubscription sub_trialStartDate sub_trialEndDate].
  destruct ts, te; split; intros H; try reflexivity; discriminate H.
Qed.

Lemma soundSubscription_update (subscription : Subscription)
  (us : UserSubscriptionEntity) (ps pe ca ea : option JsDate) :
  soundSubscription us ->
  soundSubscription (applySubscriptionUpdate subscription us ps pe ca ea).
Proof.
  intros [Htrial Hcount]. split; [ exact Htrial | ].
  cbn [applySubscriptionUpdate sub_failedPaymentCount].
  destruct (SubscriptionStatus.eqb _ _ && SubscriptionStatus.eqb _ _);
    [ lia | exact Hcount ].
Qed.

Lemma soundSubscription_delete (us : UserSubscriptionEntity)
  (canceledAt endedAt : JsDate) :
  soundSubscription us ->
  soundSubscription (applySubscriptionDelete us canceledAt endedAt).
Proof. intros H. exact H. Qed.

Lemma soundSubscription_failed (us : UserSubscriptionEntity) :
  soundSubscription us -> soundSubscription (markPaymentFailed us).
Proof.
  intros [Htrial Hcount]. split; [ exact Htrial | ].
  cbn [markPaymentFailed setFailedPayment sub_failedPaymentCount]. lia.
Qed.

Lemma isLower_upperChar (c : ascii) : isLower (upperChar c) = false.
Proof.
  destruct c as [[] [] [] [] [] [] [] []]; reflexivity.
Qed.

Lemma noLowerCase_toUpperCase (s : string) : noLowerCase (toUpperCase s) = true.
Proof.
  induction s as [| c r IH]; [ reflexivity | ].
  cbn [toUpperCase].
  destruct (nat_of_ascii c =? 223)%nat; cbn [noLowerCase].
  - rewrite IH. reflexivity.
  - rewrite isLower_upperChar, IH. reflexivity.
Qed.

(** X3: if in every stored subscription the trial dates are both set or
    both absent and the count of failed payments is not negative, the same
    holds after any call of [handleWebhookEvent], whatever the event, the
    state of the database and the outcome. *)
Theorem delivery_keeps_subscriptions_sound (constructed : Outcome Event)
  (w : World) :
  Forall soundSubscription (subscriptions (db w)) ->
  Forall soundSubscription
    (subscriptions (db (worldAfter (handleWebhookEvent constructed) w))).
Proof.
  intros Hrows.
  pose proof (maintains_handleWebhookEvent soundSubscription (fun _ => True)
                soundSubscription_withKey soundSubscription_new
                soundSubscription_update soundSubscription_delete
                soundSubscription_failed
                (fun _ _ _ _ _ _ _ _ _ _ _ _ => I) constructed w) as Hrun.
  apply Hrun. split; [ exact Hrows | ].
  apply Forall_forall. intros t _. exact I.
Qed.

Lemma delivery_keeps_subscriptions_sound_witness :
  Forall soundSubscription
    (subscriptions
       (db (worldAfter
              (handleWebhookEvent
                 (Returned
                    {| ev_id := "evt_3";
                       ev_data :=
                         InvoicePaymentFailed
                           (Sample.invoice (Some (AsId "cus_1")) 5000 0) |}))
              (Sample.world false [Sample.row SubscriptionStatus.ACTIVE 0] [])))).
Proof.
  apply delivery_keeps_subscriptions_sound.
  constructor; [ | constructor ].
  split; [ split; reflexivity | discriminate ].
Defined.

(** X4: if the currency of every stored transaction has no lower-case
    letter, the same holds after any call of [handleWebhookEvent]: every
    transaction that the handlers record stores its currency in upper
    case. *)
Theorem delivery_keeps_currencies_upper_case (constructed : Outcome Event)
  (w : World) :
  Forall upperCaseCurrency (transactions (db w)) ->
  Forall upperCaseCurrency
    (transactions (db (worldAfter (handleWebhookEvent constructed) w))).
Proof.
  intros Hrows.
  pose proof (maintains_handleWebhookEvent (fun _ => True) upperCaseCurrency
                (fun _ _ _ => I) (fun _ _ _ _ _ _ => I)
                (fun _ _ _ _ _ _ _ => I) (fun _ _ _ _ => I) (fun _ _ => I)
                (fun _ _ _ _ currency _ _ _ _ _ _ _ =>
                   noLowerCase_toUpperCase currency)
                constructed w) as Hrun.
  apply Hrun. split; [ | exact Hrows ].
  apply Forall_forall. intros s _. exact I.
Qed.

Lemma delivery_keeps_currencies_upper_case_witness :
  Forall upperCaseCurrency
    (transactions
       (db (worldAfter (handleWebhookEvent (Returned Sample.checkoutEvent))
              (Sample.world false [] [])))).
Proof.
  apply delivery_keeps_currencies_upper_case. constructor.
Defined.

(* ================================================================== *)
(** ** Events that change nothing *)

(** Whatever the state of the database, a lookup changes no table. *)
Lemma subscriptionRepository_findOne_cases (sid : string) (w : World) :
  (exists e, subscriptionRepository_findOne sid w = (Thrown e, w))
  \/ (exists w',
        subscriptionRepository_findOne sid w
        = (Returned (find (hasSubscriptionId sid) (subscriptions (db w))), w')
        /\ db w' = db w /\ calls w' = calls w).
Proof.
  unfold subscriptionRepository_findOne, bind, dbCall, getDb, ret.
  destruct (dbFailAfter w) as [[|n]|].
  - left. eexists. reflexivity.
  - right. eexists. split; [ reflexivity | split; reflexivity ].
  - right. eexists. split; [ reflexivity | split; reflexivity ].
Qed.

(** X5: a subscription-updated or subscription-deleted event for a Stripe
    id that is not stored changes no table, whatever the state of the
    database: no row is made up for it.  With the database up both
    handlers return. *)
Theorem unknown_subscription_ignored (subscription : Subscription) (w : World) :
  storedSubscription (s_id subscription) w = None ->
  db (worldAfter (handleSubscriptionUpdated subscription) w) = db w
  /\ db (worldAfter (handleSubscriptionDeleted subscription) w) = db w
  /\ (dbFailAfter w = None ->
      outcomeOf (handleSubscriptionUpdated subscription) w = Returned tt
      /\ outcomeOf (handleSubscriptionDeleted subscription) w = Returned tt).
Proof.
  intros Hnone. unfold storedSubscription in Hnone.
  assert (Hone : forall h (k : option UserSubscriptionEntity -> M unit),
             k None = ret tt ->
             let m := enter h ;;;
                      found <- subscriptionRepository_findOne (s_id subscription) ;;
                      k found in
             db (worldAfter m w) = db w
             /\ (dbFailAfter w = None -> outcomeOf m w = Returned tt)).
  { intros h k Hk m. unfold m, worldAfter, outcomeOf.
    set (w1 := setCalls w (h :: calls w)).
    rewrite (bind_returned (enter h) _ w w1 tt eq_refl).
    destruct (subscriptionRepository_findOne_cases (s_id subscription) w1)
      as [[e Hthrown] | (w2 & Hfound & Hdb & _)].
    - rewrite (bind_thrown _ _ _ _ _ Hthrown). split; [ reflexivity | ].
      intros Hup.
      rewrite (subscriptionRepository_findOne_up _ w1 Hup) in Hthrown.
      discriminate Hthrown.
    - rewrite (bind_returned _ _ _ _ _ Hfound).
      change (subscriptions (db w1)) with (subscriptions (db w)).
      rewrite Hnone, Hk. split; [ exact Hdb | reflexivity ]. }
  destruct (Hone HSubscriptionUpdated
              (fun found =>
                 match found with
                 | Some userSubscription =>
                     periodStart <- liftOutcome (resolvePeriodStart subscription) ;;
                     periodEnd <- liftOutcome (resolvePeriodEnd subscription) ;;
                     canceledAt <- liftOutcome
                                     (convertStripeTimestamp (s_canceled_at subscription)) ;;
                     endedAt <- liftOutcome
                                  (convertStripeTimestamp (s_ended_at subscription)) ;;
                     subscriptionRepository_save
                       (applySubscriptionUpdate subscription userSubscription
                          periodStart periodEnd canceledAt endedAt)
                 | None => ret tt
                 end) eq_refl) as [Hu1 Hu2].
  destruct (Hone HSubscriptionDeleted
              (fun found =>
                 match found with
                 | Some userSubscription =>
                     canceledAt <- newDate ;;
                     endedAt <- newDate ;;
                     subscriptionRepository_save
                       (applySubscriptionDelete userSubscription canceledAt endedAt)
                 | None => ret tt
                 end) eq_refl) as [Hd1 Hd2].
  split; [ exact Hu1 | split; [ exact Hd1 | ] ].
  intros Hup. split; [ exact (Hu2 Hup) | exact (Hd2 Hup) ].
Qed.

Lemma unknown_subscription_ignored_witness :
  db (worldAfter (handleSubscriptionUpdated (Sample.subscription "active" VNull))
        (Sample.world false [] []))
  = db (Sample.world false [] [])
  /\ db (worldAfter (handleSubscriptionDeleted (Sample.subscription "active" VNull))
           (Sample.world false [] []))
     = db (Sample.world false [] [])
  /\ (dbFailAfter (Sample.world false [] []) = None ->
      outcomeOf (handleSubscriptionUpdated (Sample.subscription "active" VNull))
        (Sample.world false [] []) = Returned tt
      /\ outcomeOf (handleSubscriptionDeleted (Sample.subscription "active" VNull))
           (Sample.world false [] []) = Returned tt).
Proof.
  exact (unknown_subscription_ignored (Sample.subscription "active" VNull)
           (Sample.world false [] []) eq_refl).
Defined.

(** The handlers that start with a customer lookup: when the lookup finds
    nobody the rest is skipped. *)
Lemma gated_by_customer (h : HandlerName) (customerId : option string)
  (k : UserEntity -> M unit) (m : M unit) (w : World) :
  m = (enter h ;;;
       match customerId with
       | Some c =>
           user <- userRepository_findOne c ;;
           match user with
           | Some user => k user
           | None => ret tt
           end
       | None => ret tt
       end) ->
  match customerId with
  | Some c => find (hasCustomer c) (users (db w)) = None
  | None => True
  end ->
  db (worldAfter m w) = db w
  /\ (dbFailAfter w = None -> outcomeOf m w = Returned tt).
Proof.
  intros -> Hmiss. unfold worldAfter, outcomeOf.
  set (w1 := setCalls w (h :: calls w)).
  rewrite (bind_returned (enter h) _ w w1 tt eq_refl).
  destruct customerId as [c|]; [ | split; reflexivity ].
  destruct (userRepository_findOne_cases c w1)
    as [[e Hthrown] | (w2 & Hfound & Hdb & _)].
  - rewrite (bind_thrown _ _ _ _ _ Hthrown). split; [ reflexivity | ].
    intros Hup. rewrite (userRepository_findOne_up c w1 Hup) in Hthrown.
    discriminate Hthrown.
  - rewrite (bind_returned _ _ _ _ _ Hfound).
    change (users (db w1)) with (users (db w)). rewrite Hmiss.
    split; [ exact Hdb | reflexivity ].
Qed.

Lemma noLocalUser_miss (data : EventData) (w : World) (c : option string) :
  noLocalUser data w = true ->
  customerOfEvent data = Some c ->
  match c with
  | Some c => find (hasCustomer c) (users (db w)) = None
  | None => True
  end.
Proof.
  unfold noLocalUser. intros Hno Hc. rewrite Hc in Hno.
  destruct c as [c|]; [ | exact I ].
  destruct (find (hasCustomer c) (users (db w))); [ discriminate | reflexivity ].
Qed.

(** X6: when the handler of an event looks up the customer of the payload
    and finds no local user (the payload has no customer, or no user
    carries its id), the event changes no table, whatever the state of the
    database; with the database up the handler returns, so the miss is
    not reported as a failure. *)
Theorem no_local_user_changes_nothing (data : EventData) (w : World) :
  noLocalUser data w = true ->
  db (worldAfter (dispatch data) w) = db w
  /\ (dbFailAfter w = None -> outcomeOf (dispatch data) w = Returned tt).
Proof.
  intros Hno.
  pose proof (noLocalUser_miss data w) as Hmiss.
  destruct data; cbn [dispatch]; try discriminate Hno;
    specialize (Hmiss _ Hno eq_refl);
    match type of Hmiss with
    | match ?c with _ => _ end =>
        eapply (gated_by_customer _ c _ _ w); [ reflexivity | exact Hmiss ]
    end.
Qed.

Lemma no_local_user_changes_nothing_witness :
  db (worldAfter
        (dispatch (InvoicePaymentFailed
                     (Sample.invoice (Some (AsId "cus_unknown")) 5000 0)))
        (Sample.world false [Sample.row SubscriptionStatus.ACTIVE 0] []))
  = db (Sample.world false [Sample.row SubscriptionStatus.ACTIVE 0] [])
  /\ (dbFailAfter (Sample.world false [Sample.row SubscriptionStatus.ACTIVE 0] [])
      = None ->
      outcomeOf
        (dispatch (InvoicePaymentFailed
                     (Sample.invoice (Some (AsId "cus_unknown")) 5000 0)))
        (Sample.world false [Sample.row SubscriptionStatus.ACTIVE 0] [])
      = Returned tt).
Proof.
  exact (no_local_user_changes_nothing
           (InvoicePaymentFailed
              (Sample.invoice (Some (AsId "cus_unknown")) 5000 0))
           (Sample.world false [Sample.row SubscriptionStatus.ACTIVE 0] [])
           eq_refl).
Defined.

Lemma dbKept_refl (w : World) : dbKept w w.
Proof. reflexivity. Qed.

Lemma dbKept_trans (a b c : World) : dbKept a b -> dbKept b c -> dbKept a c.
Proof. unfold dbKept. intros Hab Hbc. rewrite Hbc. exact Hab. Qed.

Lemma dbKept_userRepository_findOne (customerId : string) :
  respects dbKept (userRepository_findOne customerId).
Proof.
  intros w. destruct (userRepository_findOne_cases customerId w)
    as [[e H] | (w' & H & Hdb & _)]; rewrite H; [ reflexivity | exact Hdb ].
Qed.

Lemma dbKept_subscriptionRepository_findOne (sid : string) :
  respects dbKept (subscriptionRepository_findOne sid).
Proof.
  intros w. destruct (subscriptionRepository_findOne_cases sid w)
    as [[e H] | (w' & H & Hdb & _)]; rewrite H; [ reflexivity | exact Hdb ].
Qed.

Ltac dbKept_steps :=
  repeat first
    [ apply dbKept_userRepository_findOne
    | apply dbKept_subscriptionRepository_findOne
    | apply (respects_ret dbKept dbKept_refl)
    | apply (respects_liftOutcome dbKept dbKept_refl)
    | apply (respects_bind dbKept dbKept_trans); [ | intros ? ]
    | match goal with
      | |- respects dbKept (enter _) => intros ?; reflexivity
      | |- respects dbKept (match ?x with _ => _ end) => destruct x
      | |- respects dbKept (let _ := _ in _) => cbv zeta
      end ].

(** X7: the events that are only logged (the upcoming invoice, the trial
    that will end, the created payment intent and every event type outside
    the [switch]) change no table, whatever the payload and the state of
    the database. *)
Theorem read_only_events_change_nothing (data : EventData) (w : World) :
  readOnlyEvent data = true ->
  db (worldAfter (dispatch data) w) = db w.
Proof.
  intros Hro. unfold worldAfter. revert w.
  change (respects dbKept (dispatch data)).
  destruct data; try discriminate Hro; cbn [dispatch].
  - unfold handleInvoiceUpcoming. dbKept_steps.
  - unfold handleSubscriptionTrialWillEnd. dbKept_steps.
  - dbKept_steps.
  - dbKept_steps.
Qed.

Lemma read_only_events_change_nothing_witness :
  db (worldAfter
        (dispatch (InvoiceUpcoming (Sample.invoice (Some (AsId "cus_1")) 5000 0)))
        (Sample.world false [Sample.row SubscriptionStatus.ACTIVE 0] []))
  = db (Sample.world false [Sample.row SubscriptionStatus.ACTIVE 0] []).
Proof.
  exact (read_only_events_change_nothing
           (InvoiceUpcoming (Sample.invoice (Some (AsId "cus_1")) 5000 0))
           (Sample.world false [Sample.row SubscriptionStatus.ACTIVE 0] [])
           eq_refl).
Defined.

(* ================================================================== *)
(** ** What the handlers record for a linked customer *)

(** The handlers that start with a customer lookup: with the database up
    and a local user linked to the customer, the rest runs for that user. *)
Lemma linked_customer_runs (h : HandlerName) (customerId : option string)
  (k : UserEntity -> M unit) (m : M unit) (w : World)
  (c : string) (user : UserEntity) :
  m = (enter h ;;;
       match customerId with
       | Some c =>
           user <- userRepository_findOne c ;;
           match user with
           | Some user => k user
           | None => ret tt
           end
       | None => ret tt
       end) ->
  dbFailAfter w = None ->
  customerId = Some c ->
  find (hasCustomer c) (users (db w)) = Some user ->
  m w = k user (setCalls w (h :: calls w)).
Proof.
  intros -> Hup -> Huser.
  set (w1 := setCalls w (h :: calls w)).
  rewrite (bind_returned (enter h) _ w w1 tt eq_refl).
  rewrite (bind_returned _ _ _ _ _ (userRepository_findOne_up c w1 Hup)).
  change (users (db w1)) with (users (db w)). rewrite Huser. reflexivity.
Qed.

Lemma paymentMethodRepository_save_up (p : PaymentMethodEntity) (w : World) :
  dbFailAfter w = None ->
  paymentMethodRepository_save p w
  = (Returned p,
     setDb w (setPaymentMethods (db w) (paymentMethods (db w) ++ [p])%list)).
Proof.
  intros Hup. unfold paymentMethodRepository_save.
  rewrite (bind_returned _ _ _ _ _ (dbCall_up w Hup)). reflexivity.
Qed.

(** X8: for a payment-method-attached event of a linked customer, with the
    database up, the handler returns; it stores the payment method, never
    as the default one, when the payload carries a card, and stores
    nothing for a payment method without card. *)
Theorem payment_method_saved_only_with_card (paymentMethod : PaymentMethod)
  (w : World) (customerId : string) (user : UserEntity) :
  dbFailAfter w = None ->
  customerIdOf (pm_customer paymentMethod) = Some customerId ->
  find (hasCustomer customerId) (users (db w)) = Some user ->
  exists w',
    handlePaymentMethodAttached paymentMethod w = (Returned tt, w')
    /\ paymentMethods (db w') =
         (paymentMethods (db w) ++
            match pm_card paymentMethod with
            | Some card =>
                [ {| pm_userId := user_id user;
                     pm_stripePaymentMethodId := pm_id paymentMethod;
                     pm_type := pm_kind paymentMethod;
                     pm_last4 := card_last4 card;
                     pm_brand := card_brand card;
                     pm_expMonth := card_exp_month card;
                     pm_expYear := card_exp_year card;
                     pm_isDefault := false |} ]
            | None => []
            end)%list.
Proof.
  intros Hup Hcust Huser.
  rewrite (linked_customer_runs HPaymentMethodAttached
             (customerIdOf (pm_customer paymentMethod))
             (fun user =>
                match pm_card paymentMethod with
                | Some card =>
                    savePaymentMethod (user_id user) (pm_id paymentMethod)
                      (pm_kind paymentMethod) card ;;;
                    ret tt
                | None => ret tt
                end)
             (handlePaymentMethodAttached paymentMethod) w customerId user
             eq_refl Hup Hcust Huser).
  set (w1 := setCalls w (HPaymentMethodAttached :: calls w)).
  destruct (pm_card paymentMethod) as [card|].
  - unfold savePaymentMethod.
    rewrite (bind_returned _ _ _ _ _ (paymentMethodRepository_save_up _ w1 Hup)).
    eexists. split; reflexivity.
  - eexists. split; [ reflexivity | ]. cbn. symmetry. apply app_nil_r.
Qed.

Lemma payment_method_saved_only_with_card_witness :
  exists w',
    handlePaymentMethodAttached Sample.cardMethod (Sample.world false [] [])
    = (Returned tt, w')
    /\ paymentMethods (db w') =
         [ {| pm_userId := "user_1";
              pm_stripePaymentMethodId := "pm_1";
              pm_type := "card";
              pm_last4 := "4242";
              pm_brand := "visa";
              pm_expMonth := 12;
              pm_expYear := 2030;
              pm_isDefault := false |} ].
Proof.
  exact (payment_method_saved_only_with_card Sample.cardMethod
           (Sample.world false [] []) "cus_1" Sample.alice
           eq_refl eq_refl eq_refl).
Defined.

Lemma subscriptionRepository_save_up_any (s : UserSubscriptionEntity) (w : World) :
  dbFailAfter w = None ->
  exists w',
    subscriptionRepository_save s w = (Returned tt, w')
    /\ dbFailAfter w' = None
    /\ transactions (db w') = transactions (db w).
Proof.
  intros Hup. unfold subscriptionRepository_save.
  rewrite (bind_returned _ _ _ _ _ (dbCall_up w Hup)).
  unfold bind, getDb, putDb.
  destruct (sub_id s) as [k|];
    [ destruct (existsb (hasKey k) (subscriptions (db w))) | ];
    eexists; (split; [ reflexivity | split; [ exact Hup | reflexivity ] ]).
Qed.

Lemma orString_nonempty (s : option string) (d : string) :
  d <> "" -> orString s d <> "".
Proof.
  intros Hd. unfold orString. destruct s as [x|]; [ | exact Hd ].
  destruct (x =? "") eqn:Hx; [ exact Hd | ].
  apply String.eqb_neq. exact Hx.
Qed.

Lemma failureReasonOf_nonempty (invoice : Invoice) (w : World) :
  exists reason,
    failureReasonOf invoice w = (Returned reason, w) /\ reason <> "".
Proof.
  unfold failureReasonOf.
  destruct (inv_payment_intent invoice) as [[pid|pid]|];
    try (eexists; split; [ reflexivity | discriminate ]).
  destruct (refTruthy (Some (AsId pid)));
    try (eexists; split; [ reflexivity | discriminate ]).
  unfold tryCatch, bind, stripeRetrieve.
  destruct (paymentIntents_retrieve w pid false) as [paymentIntent|e];
    try (eexists; split; [ reflexivity | discriminate ]).
  destruct (pi_last_payment_error paymentIntent) as [err|];
    try (eexists; split; [ reflexivity | discriminate ]).
  eexists. split; [ reflexivity | ].
  unfold failureText. apply orString_nonempty, orString_nonempty. discriminate.
Qed.

(** X9: for an invoice-payment-failed event of a linked customer, with
    the database up, the handler returns and records exactly one
    transaction, whether or not the invoice names a subscription and
    whether or not that subscription is stored.  The transaction is of
    type SUBSCRIPTION with status FAILED, its amount is [amount_due / 100],
    its reference is [invoice.payment_intent] as it is (no fall-back to
    the invoice id), and its failure reason is never empty. *)
Theorem invoice_failed_records_failed_transaction (invoice : Invoice)
  (w : World) (customerId : string) (user : UserEntity) :
  dbFailAfter w = None ->
  customerIdOf (inv_customer invoice) = Some customerId ->
  find (hasCustomer customerId) (users (db w)) = Some user ->
  exists w' t reason,
    handleInvoicePaymentFailed invoice w = (Returned tt, w')
    /\ transactions (db w') = (transactions (db w) ++ [t])%list
    /\ tx_userId t = user_id user
    /\ tx_transactionType t = TransactionType.SUBSCRIPTION
    /\ tx_status t = TransactionStatus.FAILED
    /\ tx_amount t = inject_Z (inv_amount_due invoice) / 100
    /\ tx_stripePaymentIntentId t = inv_payment_intent invoice
    /\ tx_failureReason t = Some reason
    /\ reason <> "".
Proof.
  intros Hup Hcust Huser.
  set (w1 := setCalls w (HInvoicePaymentFailed :: calls w)).
  assert (Hup1 : dbFailAfter w1 = None) by exact Hup.
  assert (Hblock : exists w2,
    (if refTruthy (inv_subscription invoice) then
       match inv_subscription invoice with
       | Some ref =>
           subscription <- subscriptionRepository_findOne (refId ref) ;;
           match subscription with
           | Some subscription =>
               subscriptionRepository_save (markPaymentFailed subscription)
           | None => ret tt
           end
       | None => ret tt
       end
     else ret tt) w1 = (Returned tt, w2)
    /\ dbFailAfter w2 = None
    /\ transactions (db w2) = transactions (db w)).
  { destruct (refTruthy (inv_subscription invoice));
      [ | exists w1; repeat split; assumption ].
    destruct (inv_subscription invoice) as [ref|];
      [ | exists w1; repeat split; assumption ].
    rewrite (bind_returned _ _ _ _ _
               (subscriptionRepository_findOne_up (refId ref) w1 Hup1)).
    destruct (find (hasSubscriptionId (refId ref)) (subscriptions (db w1)))
      as [us|]; [ | exists w1; repeat split; assumption ].
    destruct (subscriptionRepository_save_up_any (markPaymentFailed us) w1 Hup1)
      as (w2 & Hsave & Hup2 & Htx).
    exists w2. repeat split; assumption. }
  destruct Hblock as (w2 & Hblock & Hup2 & Htx).
  destruct (failureReasonOf_nonempty invoice w2) as (reason & Hreason & Hne).
  eexists. eexists. exists reason.
  split.
  - unfold handleInvoicePaymentFailed.
    rewrite (bind_returned (enter HInvoicePaymentFailed) _ w w1 tt eq_refl).
    rewrite Hcust.
    rewrite (bind_returned _ _ _ _ _ (userRepository_findOne_up customerId w1 Hup1)).
    change (users (db w1)) with (users (db w)). rewrite Huser.
    rewrite (bind_returned _ _ _ _ _ Hblock).
    rewrite (bind_returned _ _ _ _ _ Hreason).
    rewrite (bind_returned _ _ _ _ _
               (recordTransaction_up _ _ _ _ _ _ _ _ _ _ _ _ w2 Hup2)).
    reflexivity.
  - cbn [db setDb transactions setTransactions]. rewrite Htx.
    repeat split; try reflexivity. exact Hne.
Qed.

Lemma invoice_failed_records_failed_transaction_witness :
  exists w' t reason,
    handleInvoicePaymentFailed (Sample.invoice (Some (AsId "cus_1")) 5000 0)
      (Sample.world false [] [])
    = (Returned tt, w')
    /\ transactions (db w') = [t]
    /\ tx_userId t = "user_1"
    /\ tx_transactionType t = TransactionType.SUBSCRIPTION
    /\ tx_status t = TransactionStatus.FAILED
    /\ tx_amount t = (5000 # 100)
    /\ tx_stripePaymentIntentId t = Some (AsId "pi_1")
    /\ tx_failureReason t = Some reason
    /\ reason <> "".
Proof.
  exact (invoice_failed_records_failed_transaction
           (Sample.invoice (Some (AsId "cus_1")) 5000 0)
           (Sample.world false [] []) "cus_1" Sample.alice
           eq_refl eq_refl eq_refl).
Defined.

(** X10: for a linked customer and with the database up, a failed payment
    intent, a canceled payment intent and a refunded charge each record
    exactly one transaction with the amount divided by 100: of type
    PAYMENT and status FAILED, of type PAYMENT and status CANCELLED, and of
    type REFUND and status REFUNDED.  The refund amount is the amount of
    the first listed refund, and [amount_refunded] only when the charge
    lists no refund.  None of the three carries a fee, a net amount or a
    processing date. *)
Theorem failed_canceled_refunded_record_major_units :
  (forall (paymentIntent : PaymentIntent) (w : World) (customerId : string)
          (user : UserEntity),
      dbFailAfter w = None ->
      customerIdOf (pi_customer paymentIntent) = Some customerId ->
      find (hasCustomer customerId) (users (db w)) = Some user ->
      exists w' t,
        handlePaymentIntentFailed paymentIntent w = (Returned tt, w')
        /\ transactions (db w') = (transactions (db w) ++ [t])%list
        /\ tx_transactionType t = TransactionType.PAYMENT
        /\ tx_status t = TransactionStatus.FAILED
        /\ tx_amount t = inject_Z (pi_amount paymentIntent) / 100
        /\ tx_stripeFee t = None /\ tx_netAmount t = None
        /\ tx_processedAt t = None)
  /\
  (forall (paymentIntent : PaymentIntent) (w : World) (customerId : string)
          (user : UserEntity),
      dbFailAfter w = None ->
      customerIdOf (pi_customer paymentIntent) = Some customerId ->
      find (hasCustomer customerId) (users (db w)) = Some user ->
      exists w' t,
        handlePaymentIntentCanceled paymentIntent w = (Returned tt, w')
        /\ transactions (db w') = (transactions (db w) ++ [t])%list
        /\ tx_transactionType t = TransactionType.PAYMENT
        /\ tx_status t = TransactionStatus.CANCELLED
        /\ tx_amount t = inject_Z (pi_amount paymentIntent) / 100
        /\ tx_stripeFee t = None /\ tx_netAmount t = None
        /\ tx_processedAt t = None)
  /\
  (forall (charge : Charge) (w : World) (customerId : string)
          (user : UserEntity),
      dbFailAfter w = None ->
      customerIdOf (ch_customer charge) = Some customerId ->
      find (hasCustomer customerId) (users (db w)) = Some user ->
      exists w' t,
        handleChargeRefunded charge w = (Returned tt, w')
        /\ transactions (db w') = (transactions (db w) ++ [t])%list
        /\ tx_transactionType t = TransactionType.REFUND
        /\ tx_status t = TransactionStatus.REFUNDED
        /\ tx_amount t =
             match ch_refunds charge with
             | refund :: _ => inject_Z (rf_amount refund) / 100
             | [] => inject_Z (ch_amount_refunded charge) / 100
             end
        /\ tx_stripeFee t = None /\ tx_netAmount t = None
        /\ tx_processedAt t = None).
Proof.
  split; [ | split ].
  - intros paymentIntent w customerId user Hup Hcust Huser.
    set (w1 := setCalls w (HPaymentIntentFailed :: calls w)).
    unfold handlePaymentIntentFailed.
    rewrite (bind_returned (enter HPaymentIntentFailed) _ w w1 tt eq_refl).
    rewrite Hcust.
    rewrite (bind_returned _ _ _ _ _ (userRepository_findOne_up customerId w1 Hup)).
    change (users (db w1)) with (users (db w)). rewrite Huser.
    rewrite (bind_returned _ _ _ _ _
               (recordTransaction_up _ _ _ _ _ _ _ _ _ _ _ _ w1 Hup)).
    eexists. eexists. repeat split; reflexivity.
  - intros paymentIntent w customerId user Hup Hcust Huser.
    set (w1 := setCalls w (HPaymentIntentCanceled :: calls w)).
    unfold handlePaymentIntentCanceled.
    rewrite (bind_returned (enter HPaymentIntentCanceled) _ w w1 tt eq_refl).
    rewrite Hcust.
    rewrite (bind_returned _ _ _ _ _ (userRepository_findOne_up customerId w1 Hup)).
    change (users (db w1)) with (users (db w)). rewrite Huser.
    rewrite (bind_returned _ _ _ _ _
               (recordTransaction_up _ _ _ _ _ _ _ _ _ _ _ _ w1 Hup)).
    eexists. eexists. repeat split; reflexivity.
  - intros charge w customerId user Hup Hcust Huser.
    set (w1 := setCalls w (HChargeRefunded :: calls w)).
    unfold handleChargeRefunded.
    rewrite (bind_returned (enter HChargeRefunded) _ w w1 tt eq_refl).
    rewrite Hcust.
    rewrite (bind_returned _ _ _ _ _ (userRepository_findOne_up customerId w1 Hup)).
    change (users (db w1)) with (users (db w)). rewrite Huser. cbv zeta.
    rewrite (bind_returned _ _ _ _ _
               (recordTransaction_up _ _ _ _ _ _ _ _ _ _ _ _ w1 Hup)).
    eexists. eexists. split; [ reflexivity | ].
    split; [ reflexivity | ].
    destruct (ch_refunds charge); repeat split; reflexivity.
Qed.

Lemma failed_canceled_refunded_record_major_units_witness :
  (exists w' t,
      handlePaymentIntentFailed (Sample.paymentIntent None)
        (Sample.world false [] []) = (Returned tt, w')
      /\ transactions (db w') = [t]
      /\ tx_transactionType t = TransactionType.PAYMENT
      /\ tx_status t = TransactionStatus.FAILED
      /\ tx_amount t = (5000 # 100)
      /\ tx_stripeFee t = None /\ tx_netAmount t = None
      /\ tx_processedAt t = None)
  /\
  (exists w' t,
      handlePaymentIntentCanceled (Sample.paymentIntent None)
        (Sample.world false [] []) = (Returned tt, w')
      /\ transactions (db w') = [t]
      /\ tx_transactionType t = TransactionType.PAYMENT
      /\ tx_status t = TransactionStatus.CANCELLED
      /\ tx_amount t = (5000 # 100)
      /\ tx_stripeFee t = None /\ tx_netAmount t = None
      /\ tx_processedAt t = None)
  /\
  (exists w' t,
      handleChargeRefunded Sample.refundedCharge (Sample.world false [] [])
      = (Returned tt, w')
      /\ transactions (db w') = [t]
      /\ tx_transactionType t = TransactionType.REFUND
      /\ tx_status t = TransactionStatus.REFUNDED
      /\ tx_amount t = (500 # 100)
      /\ tx_stripeFee t = None /\ tx_netAmount t = None
      /\ tx_processedAt t = None).
Proof.
  split; [ | split ].
  - exact (proj1 failed_canceled_refunded_record_major_units
             (Sample.paymentIntent None) (Sample.world false [] [])
             "cus_1" Sample.alice eq_refl eq_refl eq_refl).
  - exact (proj1 (proj2 failed_canceled_refunded_record_major_units)
             (Sample.paymentIntent None) (Sample.world false [] [])
             "cus_1" Sample.alice eq_refl eq_refl eq_refl).
  - exact (proj2 (proj2 failed_canceled_refunded_record_major_units)
             Sample.refundedCharge (Sample.world false [] [])
             "cus_1" Sample.alice eq_refl eq_refl eq_refl).
Defined.

(* ================================================================== *)
(** ** Status changes in the ledger *)

Lemma webhookEventRepository_increment_up (eventId : string) (w : World) :
  dbFailAfter w = None ->
  webhookEventRepository_increment eventId w =
    (Returned tt,
     setDb w (setWebhookEvents (db w)
                (map (fun e => if hasEventId eventId e then incrementRetry e else e)
                     (webhookEvents (db w))))).
Proof.
  intros Hup. unfold webhookEventRepository_increment.
  rewrite (bind_returned _ _ _ _ _ (dbCall_up w Hup)). reflexivity.
Qed.

(** [updateWebhookEventStatus] with the ledger on and the database up: the
    increment and the update together change each row of the event id as
    [statusChanged] says and leave the other rows alone. *)
Lemma updateWebhookEventStatus_up (eventId : string)
  (status : WebhookProcessingStatus.t) (errorMessage : option string)
  (w : World) :
  env_logging w = Some "true" ->
  dbFailAfter w = None ->
  exists w',
    updateWebhookEventStatus eventId status errorMessage w = (Returned tt, w')
    /\ webhookEvents (db w') =
         ledgerAfterStatus eventId status errorMessage
           (ValidDate (clock w (clockReads w))) (webhookEvents (db w))
    /\ businessKept w w'
    /\ env_logging w' = env_logging w
    /\ dbFailAfter w' = None.
Proof.
  intros Hlog Hup. unfold updateWebhookEventStatus.
  rewrite (bind_returned _ _ _ _ _ (webhookLoggingEnabled_on w Hlog)).
  cbn [negb].
  assert (Hrows : forall (u : WebhookEventUpdate) (bump : bool) rows,
             (forall e, applyUpdate u (if bump then incrementRetry e else e)
                        = statusChanged status errorMessage
                            (ValidDate (clock w (clockReads w))) e) ->
             map (fun e => if hasEventId eventId e then applyUpdate u e else e)
                 (if bump
                  then map (fun e => if hasEventId eventId e
                                     then incrementRetry e else e) rows
                  else rows)
             = ledgerAfterStatus eventId status errorMessage
                 (ValidDate (clock w (clockReads w))) rows).
  { intros u bump rows Hu. unfold ledgerAfterStatus. destruct bump.
    - rewrite map_map. apply map_ext. intros e.
      destruct (hasEventId eventId e) eqn:He.
      + change (hasEventId eventId (incrementRetry e)) with (hasEventId eventId e).
        rewrite He. apply (Hu e).
      + rewrite He. reflexivity.
    - apply map_ext. intros e.
      destruct (hasEventId eventId e); [ apply (Hu e) | reflexivity ]. }
  destruct status; cbn [WebhookProcessingStatus.eqb orb].
  - (* PENDING *)
    rewrite (bind_returned (ret None) _ w w None eq_refl).
    rewrite (bind_returned (ret tt) _ w w tt eq_refl).
    rewrite (webhookEventRepository_update_up _ _ w Hup).
    eexists. split; [ reflexivity | ].
    split; [ | repeat split; try reflexivity; exact Hup ].
    cbn [db setDb webhookEvents setWebhookEvents].
    apply (Hrows _ false). intros e. reflexivity.
  - (* COMPLETED *)
    set (w1 := setClockReads w (S (clockReads w))).
    rewrite (bind_returned _ _ w w1 (Some (ValidDate (clock w (clockReads w)))))
      by reflexivity.
    rewrite (bind_returned (ret tt) _ w1 w1 tt eq_refl).
    rewrite (webhookEventRepository_update_up _ _ w1 Hup).
    eexists. split; [ reflexivity | ].
    split; [ | repeat split; try reflexivity; exact Hup ].
    cbn [db setDb webhookEvents setWebhookEvents w1 setClockReads].
    apply (Hrows _ false). intros e. reflexivity.
  - (* FAILED *)
    rewrite (bind_returned (ret None) _ w w None eq_refl).
    rewrite (bind_returned _ _ _ _ _ (webhookEventRepository_increment_up _ w Hup)).
    set (w1 := setDb w _).
    rewrite (webhookEventRepository_update_up _ _ w1 Hup).
    eexists. split; [ reflexivity | ].
    split; [ | repeat split; try reflexivity; exact Hup ].
    cbn [db setDb webhookEvents setWebhookEvents w1].
    apply (Hrows _ true). intros e. reflexivity.
  - (* RETRYING *)
    rewrite (bind_returned (ret None) _ w w None eq_refl).
    rewrite (bind_returned _ _ _ _ _ (webhookEventRepository_increment_up _ w Hup)).
    set (w1 := setDb w _).
    rewrite (webhookEventRepository_update_up _ _ w1 Hup).
    eexists. split; [ reflexivity | ].
    split; [ | repeat split; try reflexivity; exact Hup ].
    cbn [db setDb webhookEvents setWebhookEvents w1].
    apply (Hrows _ true). intros e. reflexivity.
Qed.

(** X11: [updateWebhookEventStatus] with the ledger on and the database
    up returns, and does to the ledger exactly this: every row of the
    event id gets the new status; its [retryCount] grows by one for FAILED
    and RETRYING and stays for PENDING and COMPLETED; its [processedAt]
    becomes the current time for COMPLETED only; its [errorMessage]
    becomes the message when one is given.  Rows of other event ids and
    all other tables are untouched.  With the ledger off it returns and
    changes nothing, whatever the state of the database. *)
Theorem updateWebhookEventStatus_effect (eventId : string)
  (status : WebhookProcessingStatus.t) (errorMessage : option string)
  (w : World) :
  (env_logging w = Some "true" -> dbFailAfter w = None ->
   exists w',
     updateWebhookEventStatus eventId status errorMessage w = (Returned tt, w')
     /\ webhookEvents (db w') =
          ledgerAfterStatus eventId status errorMessage
            (ValidDate (clock w (clockReads w))) (webhookEvents (db w))
     /\ businessKept w w')
  /\ (env_logging w <> Some "true" ->
      updateWebhookEventStatus eventId status errorMessage w = (Returned tt, w)).
Proof.
  split.
  - intros Hlog Hup.
    destruct (updateWebhookEventStatus_up eventId status errorMessage w Hlog Hup)
      as (w' & Hrun & Hrows & Hkept & _).
    exists w'. repeat split; try assumption; apply Hkept.
  - intros Hquiet. unfold updateWebhookEventStatus.
    rewrite (bind_returned _ _ _ _ _ (webhookLoggingEnabled_off w Hquiet)).
    reflexivity.
Qed.

Lemma updateWebhookEventStatus_effect_witness :
  exists w',
    updateWebhookEventStatus "evt_2" WebhookProcessingStatus.RETRYING
      (Some "timeout")
      (Sample.world false []
         [pendingRow "evt_2" "invoice.upcoming"; Sample.completedRow])
    = (Returned tt, w')
    /\ webhookEvents (db w') =
         [ {| we_stripeEventId := "evt_2";
              we_eventType := "invoice.upcoming";
              we_processingStatus := WebhookProcessingStatus.RETRYING;
              we_retryCount := 1;
              we_processedAt := None;
              we_errorMessage := Some "timeout" |};
           Sample.completedRow ]
    /\ businessKept
         (Sample.world false []
            [pendingRow "evt_2" "invoice.upcoming"; Sample.completedRow]) w'.
Proof.
  exact (proj1 (updateWebhookEventStatus_effect "evt_2"
                  WebhookProcessingStatus.RETRYING (Some "timeout")
                  (Sample.world false []
                     [pendingRow "evt_2" "invoice.upcoming"; Sample.completedRow]))
           eq_refl eq_refl).
Defined.

(* ================================================================== *)
(** ** Errors and the ledger *)

Lemma businessKept_refl (w : World) : businessKept w w.
Proof. repeat split; reflexivity. Qed.

Lemma businessKept_trans (a b c : World) :
  businessKept a b -> businessKept b c -> businessKept a c.
Proof.
  intros (C1 & U1 & S1 & T1 & P1) (C2 & U2 & S2 & T2 & P2).
  repeat split; etransitivity; eassumption.
Qed.

Lemma businessKept_webhookLoggingEnabled : respects businessKept webhookLoggingEnabled.
Proof. intros w. apply businessKept_refl. Qed.

Lemma businessKept_newDate : respects businessKept newDate.
Proof. intros w. repeat split; reflexivity. Qed.

Lemma businessKept_webhookEventRepository_save (e : WebhookEventEntity) :
  respects businessKept (webhookEventRepository_save e).
Proof.
  intros w. unfold webhookEventRepository_save, bind, dbCall, getDb, putDb, ret, throw.
  destruct (dbFailAfter w) as [[|n]|]; cbn [snd];
    try (repeat split; reflexivity);
    cbn [db setDbFailAfter uniqueStripeEventId];
    (destruct (uniqueStripeEventId w
               && existsb (hasEventId (we_stripeEventId e)) (webhookEvents (db w)));
     repeat split; reflexivity).
Qed.

Lemma businessKept_webhookEventRepository_increment (eventId : string) :
  respects businessKept (webhookEventRepository_increment eventId).
Proof.
  intros w. unfold webhookEventRepository_increment, bind, dbCall, getDb, putDb.
  destruct (dbFailAfter w) as [[|n]|]; repeat split; reflexivity.
Qed.

Lemma businessKept_webhookEventRepository_update (eventId : string)
  (u : WebhookEventUpdate) :
  respects businessKept (webhookEventRepository_update eventId u).
Proof.
  intros w. unfold webhookEventRepository_update, bind, dbCall, getDb, putDb.
  destruct (dbFailAfter w) as [[|n]|]; repeat split; reflexivity.
Qed.

Create HintDb business.
#[local] Hint Resolve businessKept_webhookLoggingEnabled businessKept_newDate
  businessKept_webhookEventRepository_save
  businessKept_webhookEventRepository_increment
  businessKept_webhookEventRepository_update : business.
#[local] Hint Extern 1 (respects businessKept (ret _)) =>
  apply (respects_ret businessKept businessKept_refl) : business.
#[local] Hint Extern 1 (respects businessKept (throw _)) =>
  apply (respects_throw businessKept businessKept_refl) : business.
#[local] Hint Extern 1 (respects businessKept (liftOutcome _)) =>
  apply (respects_liftOutcome businessKept businessKept_refl) : business.

Ltac business_steps :=
  repeat first
    [ solve [ auto with business ]
    | apply (respects_bind businessKept businessKept_trans); [ | intros ? ]
    | apply (respects_tryCatch businessKept businessKept_trans); [ | intros ? ]
    | match goal with
      | |- respects businessKept (match ?x with _ => _ end) => destruct x
      | |- respects businessKept (let _ := _ in _) => cbv zeta
      end ].

Lemma businessKept_logWebhookEvent (stripeEventId eventType : string) :
  respects businessKept (logWebhookEvent stripeEventId eventType).
Proof. unfold logWebhookEvent. business_steps. Qed.

Lemma businessKept_updateWebhookEventStatus (eventId : string)
  (status : WebhookProcessingStatus.t) (errorMessage : option string) :
  respects businessKept (updateWebhookEventStatus eventId status errorMessage).
Proof. unfold updateWebhookEventStatus. business_steps. Qed.

#[local] Hint Resolve businessKept_logWebhookEvent
  businessKept_updateWebhookEventStatus : business.

Lemma businessKept_onWebhookError (error : JsError) :
  respects businessKept (onWebhookError error).
Proof. unfold onWebhookError. business_steps. Qed.

(** The [catch] block ends in [throw error] on every path. *)
Lemma onWebhookError_throws (error : JsError) (w : World) :
  fst (onWebhookError error w) = Thrown error.
Proof.
  unfold onWebhookError, bind, webhookLoggingEnabled, tryCatch, ret, throw.
  destruct (match env_logging w with
            | Some v => v =? "true"
            | None => false
            end); [ | reflexivity ].
  destruct (negb (message error =? "") && includes "event.id" (message error));
    [ | reflexivity ].
  destruct (matchEventId (message error)) as [eventId|]; [ | reflexivity ].
  destruct (updateWebhookEventStatus eventId WebhookProcessingStatus.FAILED
              (Some (message error)) w) as [[[]|e] w']; reflexivity.
Qed.

(** X12: the [catch] block of [handleWebhookEvent] never swallows an
    error: whatever the error, the logging flag and the state of the
    database (its own ledger update may fail), it throws the very error it
    caught, enters no handler and leaves users, subscriptions, transactions
    and payment methods as they are.  In particular a payload whose
    verification by [constructEvent] fails is answered with the
    verification error, and nothing but the ledger can have been
    written. *)
Theorem catch_block_rethrows (error : JsError) (w : World) :
  (outcomeOf (onWebhookError error) w = Thrown error
   /\ businessKept w (worldAfter (onWebhookError error) w))
  /\ (outcomeOf (handleWebhookEvent (Thrown error)) w = Thrown error
      /\ businessKept w (worldAfter (handleWebhookEvent (Thrown error)) w)).
Proof.
  assert (H : outcomeOf (onWebhookError error) w = Thrown error
              /\ businessKept w (worldAfter (onWebhookError error) w)).
  { split.
    - apply onWebhookError_throws.
    - apply businessKept_onWebhookError. }
  split; [ exact H | exact H ].
Qed.

Lemma prefix_of_dropPrefix (p q s r : string) :
  dropPrefix (p ++ q) s = Some r -> String.prefix p s = true.
Proof.
  revert s. induction p as [|a p IH]; intros s H.
  - destruct s; reflexivity.
  - destruct s as [|b s]; cbn in H; [ discriminate | ].
    destruct (Ascii.eqb a b) eqn:Hab; [ | discriminate ].
    apply Ascii.eqb_eq in Hab. subst b.
    cbn. destruct (ascii_dec a a) as [_|Hne]; [ | contradiction ].
    apply IH. exact H.
Qed.

(** A message that the regular expression matches contains [event.id]
    and is not empty. *)
Lemma matchEventId_includes (s eventId : string) :
  matchEventId s = Some eventId ->
  includes "event.id" s = true /\ (s =? "") = false.
Proof.
  intros H. split.
  - induction s as [|c s IH].
    + discriminate H.
    + cbn [matchEventId] in H. cbn [includes].
      destruct (matchEventIdHere (String c s)) as [found|] eqn:Hhere.
      * unfold matchEventIdHere in Hhere.
        destruct (dropPrefix "event.id:" (String c s)) as [r|] eqn:Hdrop;
          [ | discriminate ].
        rewrite (prefix_of_dropPrefix "event.id" ":" (String c s) r Hdrop).
        reflexivity.
      * rewrite (IH H). apply orb_true_r.
  - destruct s; [ discriminate H | reflexivity ].
Qed.

(** X13: when the message of the caught error carries an event id in the
    form [event.id: <id>], the ledger is on and the database is up, the
    [catch] block of [handleWebhookEvent] marks the ledger rows of that id
    FAILED, adds one to their [retryCount], stores the message as their
    [errorMessage], leaves every other row and table alone, and throws the
    error. *)
Theorem tagged_error_marks_rows_failed (error : JsError) (eventId : string)
  (w : World) :
  env_logging w = Some "true" ->
  dbFailAfter w = None ->
  matchEventId (message error) = Some eventId ->
  exists w',
    onWebhookError error w = (Thrown error, w')
    /\ webhookEvents (db w') =
         map (fun e =>
                if hasEventId eventId e
                then {| we_stripeEventId := we_stripeEventId e;
                        we_eventType := we_eventType e;
                        we_processingStatus := WebhookProcessingStatus.FAILED;
                        we_retryCount := (we_retryCount e + 1)%Z;
                        we_processedAt := we_processedAt e;
                        we_errorMessage := Some (message error) |}
                else e)
             (webhookEvents (db w))
    /\ businessKept w w'.
Proof.
  intros Hlog Hup Hmatch.
  destruct (matchEventId_includes _ _ Hmatch) as [Hinc Hne].
  destruct (updateWebhookEventStatus_up eventId WebhookProcessingStatus.FAILED
              (Some (message error)) w Hlog Hup)
    as (w' & Hrun & Hrows & Hkept & _).
  exists w'. split; [ | split; [ exact Hrows | exact Hkept ] ].
  unfold onWebhookError.
  rewrite (bind_returned _ _ _ _ _ (webhookLoggingEnabled_on w Hlog)).
  rewrite Hne, Hinc, Hmatch. cbn [negb andb].
  unfold bind, tryCatch. rewrite Hrun. reflexivity.
Qed.

Lemma tagged_error_marks_rows_failed_witness :
  exists w',
    onWebhookError (mkError "handler failed for event.id: evt_2")
      (Sample.world false []
         [pendingRow "evt_2" "invoice.upcoming"; Sample.completedRow])
    = (Thrown (mkError "handler failed for event.id: evt_2"), w')
    /\ webhookEvents (db w') =
         map (fun e =>
                if hasEventId "evt_2" e
                then {| we_stripeEventId := we_stripeEventId e;
                        we_eventType := we_eventType e;
                        we_processingStatus := WebhookProcessingStatus.FAILED;
                        we_retryCount := (we_retryCount e + 1)%Z;
                        we_processedAt := we_processedAt e;
                        we_errorMessage :=
                          Some (message
                                  (mkError "handler failed for event.id: evt_2")) |}
                else e)
             (webhookEvents
                (db (Sample.world false []
                       [pendingRow "evt_2" "invoice.upcoming";
                        Sample.completedRow])))
    /\ businessKept
         (Sample.world false []
            [pendingRow "evt_2" "invoice.upcoming"; Sample.completedRow]) w'.
Proof.
  exact (tagged_error_marks_rows_failed
           (mkError "handler failed for event.id: evt_2") "evt_2"
           (Sample.world false []
              [pendingRow "evt_2" "invoice.upcoming"; Sample.completedRow])
           eq_refl eq_refl eq_refl).
Defined.

(* ================================================================== *)
(** ** What a successful delivery leaves in the ledger *)

Lemma bind_returned_inv {A B} (m : M A) (k : A -> M B) (w w'' : World) (b : B) :
  bind m k w = (Returned b, w'') ->
  exists a w', m w = (Returned a, w') /\ k a w' = (Returned b, w'').
Proof.
  unfold bind. destruct (m w) as [[a|e] w']; intros H.
  - exists a, w'. split; [ reflexivity | exact H ].
  - discriminate H.
Qed.

Lemma logWebhookEvent_returned (stripeEventId eventType : string)
  (w w1 : World) (logged : option WebhookEventEntity) :
  env_logging w = Some "true" ->
  logWebhookEvent stripeEventId eventType w = (Returned logged, w1) ->
  logged = Some (pendingRow stripeEventId eventType)
  /\ In (pendingRow stripeEventId eventType) (webhookEvents (db w1)).
Proof.
  intros Hlog. unfold logWebhookEvent.
  rewrite (bind_returned _ _ _ _ _ (webhookLoggingEnabled_on w Hlog)).
  cbn [negb]. fold (pendingRow stripeEventId eventType). intros H.
  apply bind_returned_inv in H as (saved & w' & Hsave & Hret).
  injection Hret as Hlogged Hw. subst logged w1.
  unfold webhookEventRepository_save, bind, dbCall, getDb, putDb, ret, throw in Hsave.
  destruct (dbFailAfter w) as [[|n]|]; try discriminate Hsave;
    cbn [db setDbFailAfter uniqueStripeEventId] in Hsave;
    (destruct (uniqueStripeEventId w
               && existsb (hasEventId
                             (we_stripeEventId (pendingRow stripeEventId eventType)))
                    (webhookEvents (db w))); [ discriminate Hsave | ]);
    injection Hsave as Hsaved Hw; subst saved w';
    (split; [ reflexivity | ]);
    cbn [db setDb setDbFailAfter webhookEvents setWebhookEvents];
    apply in_or_app; right; left; reflexivity.
Qed.

Lemma webhookEventRepository_update_returned (eventId : string)
  (u : WebhookEventUpdate) (w w' : World) :
  webhookEventRepository_update eventId u w = (Returned tt, w') ->
  webhookEvents (db w') =
    map (fun e => if hasEventId eventId e then applyUpdate u e else e)
        (webhookEvents (db w)).
Proof.
  unfold webhookEventRepository_update, bind, dbCall, getDb, putDb.
  destruct (dbFailAfter w) as [[|n]|]; intros H; try discriminate H;
    injection H as Hw; subst w'; reflexivity.
Qed.

Lemma labelled_row (rows : list WebhookEventEntity) (label : string * string) :
  In label (map ledgerLabel rows) ->
  exists row, In row rows /\ ledgerLabel row = label.
Proof.
  intros H. apply in_map_iff in H as (row & Hl & Hin).
  exists row. split; assumption.
Qed.

(** X14: with the ledger on, a delivery that returns leaves at least one
    ledger row of the event, with the id and the type of the event, and
    every ledger row of the event id is COMPLETED and carries the time of
    completion as [processedAt]; this holds also for rows of the id that
    an earlier delivery left PENDING or FAILED. *)
Theorem returned_delivery_completes_rows (event : Event) (w : World) :
  env_logging w = Some "true" ->
  outcomeOf (handleWebhookEvent (Returned event)) w = Returned tt ->
  let ledger :=
    webhookEvents (db (worldAfter (handleWebhookEvent (Returned event)) w)) in
  (exists row,
      In row ledger
      /\ ledgerLabel row = (ev_id event, eventType (ev_data event)))
  /\ (exists now,
        forall row,
          In row ledger -> hasEventId (ev_id event) row = true ->
          we_processingStatus row = WebhookProcessingStatus.COMPLETED
          /\ we_processedAt row = Some now).
Proof.
  intros Hlog. unfold outcomeOf, worldAfter, handleWebhookEvent, tryCatch.
  match goal with
  | |- context [match ?body w with _ => _ end] =>
      destruct (body w) as [[[]|e] w4] eqn:Hbody
  end; cbn [fst snd].
  2:{ rewrite onWebhookError_throws. discriminate. }
  intros _.
  apply bind_returned_inv in Hbody as (ev & w0 & Hlift & Hbody).
  injection Hlift as Hev Hw0. subst ev w0.
  apply bind_returned_inv in Hbody as (logged & w1 & Hlogged & Hbody).
  destruct (logWebhookEvent_returned _ _ _ _ _ Hlog Hlogged) as [-> Hin1].
  apply bind_returned_inv in Hbody as ([] & w2 & Hpending & Hbody).
  apply bind_returned_inv in Hbody as ([] & w3 & Hdispatch & Hcompleted).
  assert (H01 : evolves w w1).
  { pose proof (evolves_logWebhookEvent (ev_id event)
                  (eventType (ev_data event)) w) as H.
    rewrite Hlogged in H. exact H. }
  assert (H12 : evolves w1 w2).
  { pose proof (evolves_updateWebhookEventStatus (ev_id event)
                  WebhookProcessingStatus.PENDING None w1) as H.
    rewrite Hpending in H. exact H. }
  assert (H23 : evolves w2 w3).
  { pose proof (evolves_dispatch (ev_data event) w2) as H.
    rewrite Hdispatch in H. exact H. }
  pose proof (evolves_trans _ _ _ H12 H23) as H13.
  pose proof (evolves_trans _ _ _ H01 H13) as H03.
  assert (Hlog3 : env_logging w3 = Some "true").
  { destruct H03 as (He & _). rewrite He. exact Hlog. }
  (* the row of this delivery is still in the ledger before the last update *)
  assert (Hrow3 : exists row,
             In row (webhookEvents (db w3))
             /\ ledgerLabel row = (ev_id event, eventType (ev_data event))).
  { apply labelled_row.
    destruct H13 as (_ & _ & _ & _ & [more Hmore] & _). rewrite Hmore.
    apply in_or_app. left.
    change (ev_id event, eventType (ev_data event))
      with (ledgerLabel (pendingRow (ev_id event) (eventType (ev_data event)))).
    apply in_map. exact Hin1. }
  (* the last update *)
  unfold updateWebhookEventStatus in Hcompleted.
  rewrite (bind_returned _ _ _ _ _ (webhookLoggingEnabled_on w3 Hlog3))
    in Hcompleted.
  cbn [negb WebhookProcessingStatus.eqb orb] in Hcompleted.
  set (now := ValidDate (clock w3 (clockReads w3))) in *.
  rewrite (bind_returned _ _ w3 (setClockReads w3 (S (clockReads w3))) (Some now))
    in Hcompleted by reflexivity.
  rewrite (bind_returned (ret tt) _ _ _ tt eq_refl) in Hcompleted.
  apply webhookEventRepository_update_returned in Hcompleted.
  cbn [db setClockReads] in Hcompleted.
  rewrite Hcompleted. split.
  - destruct Hrow3 as (row & Hin & Hlabel).
    exists (if hasEventId (ev_id event) row
            then applyUpdate
                   {| upd_processingStatus := WebhookProcessingStatus.COMPLETED;
                      upd_errorMessage := None;
                      upd_processedAt := Some now |} row
            else row).
    split.
    + apply (in_map (fun e => if hasEventId (ev_id event) e
                              then applyUpdate _ e else e)).
      exact Hin.
    + destruct (hasEventId (ev_id event) row); exact Hlabel.
  - exists now. intros row Hin Hid.
    apply in_map_iff in Hin as (old & Hrow & _).
    destruct (hasEventId (ev_id event) old) eqn:Hold; subst row.
    + split; reflexivity.
    + rewrite Hold in Hid. discriminate Hid.
Qed.

Lemma returned_delivery_completes_rows_witness :
  let w := Sample.world false []
             [pendingRow "evt_1" "checkout.session.completed"] in
  let ledger :=
    webhookEvents
      (db (worldAfter (handleWebhookEvent (Returned Sample.checkoutEvent)) w)) in
  (exists row,
      In row ledger
      /\ ledgerLabel row
         = (ev_id Sample.checkoutEvent,
            eventType (ev_data Sample.checkoutEvent)))
  /\ (exists now,
        forall row,
          In row ledger -> hasEventId (ev_id Sample.checkoutEvent) row = true ->
          we_processingStatus row = WebhookProcessingStatus.COMPLETED
          /\ we_processedAt row = Some now).
Proof.
  exact (returned_delivery_completes_rows Sample.checkoutEvent
           (Sample.world false []
              [pendingRow "evt_1" "checkout.session.completed"])
           eq_refl eq_refl).
Defined.

(** X15: an event of a type without a handler, [payment_intent.created]
    included, is acknowledged.  With the ledger off the call returns and
    changes nothing, even when the database is down; with the ledger on,
    the database up and the row accepted, the call returns, enters no
    handler, leaves users, subscriptions, transactions and payment methods
    as they are, and the ledger gains the row of the event. *)
Theorem unhandled_event_acknowledged (event : Event) (w : World) :
  handlerOf (ev_data event) = None ->
  (env_logging w <> Some "true" ->
   handleWebhookEvent (Returned event) w = (Returned tt, w))
  /\ (env_logging w = Some "true" -> dbFailAfter w = None ->
      insertRefused (ev_id event) w = false ->
      outcomeOf (handleWebhookEvent (Returned event)) w = Returned tt
      /\ businessKept w (worldAfter (handleWebhookEvent (Returned event)) w)
      /\ List.length
           (webhookEvents
              (db (worldAfter (handleWebhookEvent (Returned event)) w)))
         = S (List.length (webhookEvents (db w)))).
Proof.
  intros Hnone.
  assert (Hdispatch : dispatch (ev_data event) = ret tt).
  { destruct (ev_data event); try discriminate Hnone; reflexivity. }
  split.
  - intros Hquiet.
    unfold handleWebhookEvent, tryCatch.
    rewrite (bind_returned _ _ w w event eq_refl).
    assert (Hlogged : logWebhookEvent (ev_id event) (eventType (ev_data event)) w
                      = (Returned None, w)).
    { unfold logWebhookEvent.
      rewrite (bind_returned _ _ _ _ _ (webhookLoggingEnabled_off w Hquiet)).
      reflexivity. }
    rewrite (bind_returned _ _ _ _ _ Hlogged).
    rewrite (bind_returned (ret tt) _ w w tt eq_refl).
    rewrite Hdispatch. reflexivity.
  - intros Hlog Hup Hfree.
    unfold outcomeOf, worldAfter, handleWebhookEvent, tryCatch.
    rewrite (bind_returned _ _ w w event eq_refl).
    pose proof (logWebhookEvent_on (ev_id event) (eventType (ev_data event))
                  w Hlog Hup) as Hlogged.
    rewrite Hfree in Hlogged.
    rewrite (bind_returned _ _ _ _ _ Hlogged).
    set (w1 := setDb w _) in *.
    destruct (updateWebhookEventStatus_up (ev_id event)
                WebhookProcessingStatus.PENDING None w1 Hlog Hup)
      as (w2 & Hrun2 & Hrows2 & Hkept2 & Hlog2 & Hup2).
    rewrite (bind_returned _ _ _ _ _ Hrun2).
    rewrite Hdispatch.
    rewrite (bind_returned (ret tt) _ w2 w2 tt eq_refl).
    assert (Hlog2' : env_logging w2 = Some "true")
      by (rewrite Hlog2; exact Hlog).
    destruct (updateWebhookEventStatus_up (ev_id event)
                WebhookProcessingStatus.COMPLETED None w2 Hlog2' Hup2)
      as (w3 & Hrun3 & Hrows3 & Hkept3 & _).
    rewrite Hrun3. cbn [fst snd].
    split; [ reflexivity | ]. split.
    + apply (businessKept_trans w w1 w3).
      * repeat split; reflexivity.
      * exact (businessKept_trans _ _ _ Hkept2 Hkept3).
    + rewrite Hrows3. unfold ledgerAfterStatus at 1. rewrite length_map.
      rewrite Hrows2. unfold ledgerAfterStatus at 1. rewrite length_map.
      unfold w1. cbn [db setDb webhookEvents setWebhookEvents].
      rewrite length_app. cbn [List.length]. lia.
Qed.

Lemma unhandled_event_acknowledged_witness :
  let event := {| ev_id := "evt_9"; ev_data := OtherEvent "customer.created" |} in
  let w := Sample.world true [] [Sample.completedRow] in
  outcomeOf (handleWebhookEvent (Returned event)) w = Returned tt
  /\ businessKept w (worldAfter (handleWebhookEvent (Returned event)) w)
  /\ List.length
       (webhookEvents
          (db (worldAfter (handleWebhookEvent (Returned event)) w)))
     = S (List.length (webhookEvents (db w))).
Proof.
  exact (proj2 (unhandled_event_acknowledged
                  {| ev_id := "evt_9"; ev_data := OtherEvent "customer.created" |}
                  (Sample.world true [] [Sample.completedRow]) eq_refl)
           eq_refl eq_refl eq_refl).
Defined.

(* ================================================================== *)
(** ** The configuration gates *)

Lemma isEnabled_new (c : ConfigService) (sdk : StripeSdk) (m key : string) :
  PAYMENTS_MODE c = Some m -> m <> "none" ->
  STRIPE_SECRET_KEY c = Some key -> key <> "" ->
  isEnabled (newStripeService c sdk) = true.
Proof.
  intros Hm Hnone Hk Hkey. unfold newStripeService, paymentsMode, truthyString.
  cbn [isEnabled]. rewrite Hm, Hk.
  apply String.eqb_neq in Hnone. apply String.eqb_neq in Hkey.
  rewrite Hnone, Hkey. reflexivity.
Qed.

Lemma isEnabled_new_off (c : ConfigService) (sdk : StripeSdk) :
  PAYMENTS_MODE c = None \/ PAYMENTS_MODE c = Some "none"
  \/ STRIPE_SECRET_KEY c = None \/ STRIPE_SECRET_KEY c = Some "" ->
  isEnabled (newStripeService c sdk) = false.
Proof.
  unfold newStripeService, paymentsMode, truthyString. cbn [isEnabled].
  intros [H | [H | [H | H]]]; rewrite H; try reflexivity;
    apply andb_false_r.
Qed.

(** X16: the two session creators are gated by the configuration.  A
    service built without a secret key, or with PAYMENTS_MODE unset or
    [none], answers both with the error [Stripe is not configured],
    whatever the SDK would do.  With a key and another mode,
    [createPaymentSession] passes one request to Stripe exactly when the
    mode is [single] or [both], and [createSubscriptionSession] exactly
    when it is [subscription] or [both]; any other mode text makes both
    throw.  The request of [createPaymentSession] carries the mode of its
    argument, so a deployment in mode [single] still opens a
    subscription checkout when asked through [createPaymentSession]. *)
Theorem session_creation_gated_by_payments_mode
  (c : ConfigService) (sdk : StripeSdk)
  (payment : CreatePaymentSessionData)
  (subscription : CreateSubscriptionSessionData) :
  let svc := newStripeService c sdk in
  (PAYMENTS_MODE c = None \/ PAYMENTS_MODE c = Some "none"
   \/ STRIPE_SECRET_KEY c = None \/ STRIPE_SECRET_KEY c = Some "" ->
   createPaymentSession svc payment = Thrown notConfigured
   /\ createSubscriptionSession svc subscription = Thrown notConfigured)
  /\ (forall m key,
        PAYMENTS_MODE c = Some m -> m <> "none" ->
        STRIPE_SECRET_KEY c = Some key -> key <> "" ->
        createPaymentSession svc payment =
          (if (m =? "single") || (m =? "both")
           then checkout_sessions_create sdk
                  {| scp_mode := cps_mode payment;
                     scp_payment_method_types := ["card"];
                     scp_line_items :=
                       [ {| li_price := cps_priceId payment;
                            li_quantity := 1 |} ];
                     scp_success_url := cps_successUrl payment;
                     scp_cancel_url := cps_cancelUrl payment;
                     scp_customer_email := cps_customerEmail payment;
                     scp_metadata := orEmpty (cps_metadata payment);
                     scp_trial_period_days := None |}
           else Thrown (mkError "Single payments are not enabled in PAYMENTS_MODE"))
        /\ (exists request,
              scp_mode request = "subscription"
              /\ createSubscriptionSession svc subscription =
                   (if (m =? "subscription") || (m =? "both")
                    then checkout_sessions_create sdk request
                    else Thrown
                           (mkError "Subscriptions are not enabled in PAYMENTS_MODE")))).
Proof.
  intros svc. split.
  - intros Hoff. unfold createPaymentSession, createSubscriptionSession, isConfigured.
    unfold svc. rewrite (isEnabled_new_off c sdk Hoff). split; reflexivity.
  - intros m key Hm Hnone Hk Hkey.
    pose proof (isEnabled_new c sdk m key Hm Hnone Hk Hkey) as Hon.
    assert (Hmode : paymentsMode (configService svc) = m).
    { unfold svc, paymentsMode. cbn [configService newStripeService].
      rewrite Hm. reflexivity. }
    split.
    + unfold createPaymentSession, isConfigured. fold svc in Hon.
      rewrite Hon. cbn [negb]. cbv zeta. rewrite Hmode.
      destruct (m =? "single"); destruct (m =? "both"); reflexivity.
    + eexists. split; [ | unfold createSubscriptionSession, isConfigured;
                          fold svc in Hon; rewrite Hon; cbn [negb]; cbv zeta;
                          rewrite Hmode;
                          destruct (m =? "subscription"); destruct (m =? "both");
                          reflexivity ].
      reflexivity.
Qed.

Lemma session_creation_gated_by_payments_mode_witness :
  let c := {| STRIPE_SECRET_KEY := Some "sk_test_1";
              PAYMENTS_MODE := Some "single";
              STRIPE_WEBHOOK_SECRET := Some "whsec_1" |} in
  let sdk := {| checkout_sessions_create :=
                  fun p => if scp_mode p =? "subscription"
                           then Returned (Sample.session 5000)
                           else Thrown (mkError "declined");
                webhooks_constructEvent :=
                  fun _ _ _ => Thrown (mkError "No signatures found");
                customers_create := fun _ => Thrown (mkError "declined") |} in
  createPaymentSession (newStripeService c sdk)
    {| cps_priceId := "price_1"; cps_mode := "subscription";
       cps_successUrl := "https://ok"; cps_cancelUrl := "https://no";
       cps_customerEmail := None; cps_metadata := None |}
  = Returned (Sample.session 5000).
Proof.
  intros c sdk.
  exact (proj1 (proj2 (session_creation_gated_by_payments_mode c sdk
                         {| cps_priceId := "price_1"; cps_mode := "subscription";
                            cps_successUrl := "https://ok";
                            cps_cancelUrl := "https://no";
                            cps_customerEmail := None; cps_metadata := None |}
                         {| css_priceId := "price_1";
                            css_successUrl := "https://ok";
                            css_cancelUrl := "https://no";
                            css_customerEmail := None;
                            css_trialPeriodDays := None;
                            css_metadata := None |})
                  "single" "sk_test_1" eq_refl ltac:(discriminate) eq_refl
                  ltac:(discriminate))).
Defined.

(** X17: a webhook delivery to a service that cannot verify it changes
    nothing.  When the service is not configured (no secret key, or
    PAYMENTS_MODE unset or [none]) or STRIPE_WEBHOOK_SECRET is unset or
    empty, [handleWebhookEvent] throws the configuration error without
    asking the SDK, and the database, the ledger and the clock are as
    before, whether ledger logging is on or off.  Otherwise the event that
    is processed is the one the SDK constructs from the payload, the
    signature and the configured secret. *)
Theorem unverifiable_delivery_changes_nothing
  (c : ConfigService) (sdk : StripeSdk) (payload signature : string)
  (w : World) :
  let svc := newStripeService c sdk in
  (PAYMENTS_MODE c = None \/ PAYMENTS_MODE c = Some "none"
   \/ STRIPE_SECRET_KEY c = None \/ STRIPE_SECRET_KEY c = Some "" ->
   handleWebhook svc payload signature w = (Thrown notConfigured, w))
  /\ (forall m key,
        PAYMENTS_MODE c = Some m -> m <> "none" ->
        STRIPE_SECRET_KEY c = Some key -> key <> "" ->
        (STRIPE_WEBHOOK_SECRET c = None \/ STRIPE_WEBHOOK_SECRET c = Some "" ->
         handleWebhook svc payload signature w =
           (Thrown (mkError "Stripe webhook secret is not configured"), w))
        /\ (forall secret,
              STRIPE_WEBHOOK_SECRET c = Some secret -> secret <> "" ->
              handleWebhook svc payload signature w =
                handleWebhookEvent
                  (webhooks_constructEvent sdk payload signature secret) w)).
Proof.
  intros svc. unfold handleWebhook, constructEvent, isConfigured.
  change (STRIPE_WEBHOOK_SECRET (configService svc))
    with (STRIPE_WEBHOOK_SECRET c).
  change (stripe svc) with sdk.
  assert (Hquiet : forall text,
             includes "event.id" text = false ->
             handleWebhookEvent (Thrown (mkError text)) w
             = (Thrown (mkError text), w)).
  { intros text Htext.
    change (handleWebhookEvent (Thrown (mkError text)) w)
      with (onWebhookError (mkError text) w).
    apply onWebhookError_untagged. exact Htext. }
  split.
  - intros Hoff. unfold svc. rewrite (isEnabled_new_off c sdk Hoff).
    cbn [negb]. apply Hquiet. reflexivity.
  - intros m key Hm Hnone Hk Hkey. unfold svc.
    rewrite (isEnabled_new c sdk m key Hm Hnone Hk Hkey). cbn [negb]. split.
    + intros [-> | ->]; apply Hquiet; reflexivity.
    + intros secret -> Hne. apply String.eqb_neq in Hne. rewrite Hne.
      reflexivity.
Qed.

Lemma unverifiable_delivery_changes_nothing_witness :
  let c := {| STRIPE_SECRET_KEY := Some "sk_test_1";
              PAYMENTS_MODE := Some "both";
              STRIPE_WEBHOOK_SECRET := Some "" |} in
  let sdk := {| checkout_sessions_create := fun _ => Thrown (mkError "declined");
                webhooks_constructEvent :=
                  fun _ _ _ => Returned Sample.checkoutEvent;
                customers_create := fun _ => Thrown (mkError "declined") |} in
  handleWebhook (newStripeService c sdk) "{}" "t=1,v1=0"
    (Sample.world false [] [])
  = (Thrown (mkError "Stripe webhook secret is not configured"),
     Sample.world false [] []).
Proof.
  intros c sdk.
  exact (proj1 (proj2 (unverifiable_delivery_changes_nothing c sdk "{}" "t=1,v1=0"
                         (Sample.world false [] []))
                  "both" "sk_test_1" eq_refl ltac:(discriminate) eq_refl
                  ltac:(discriminate))
           (or_intror eq_refl)).
Defined.

(* ================================================================== *)
(** ** Stripe customers of local users *)

Lemma userRepository_findOneById_up (id : string) (w : World) :
  dbFailAfter w = None ->
  userRepository_findOneById id w
  = (Returned (find (hasUserId id) (users (db w))), w).
Proof.
  intros Hup. unfold userRepository_findOneById.
  rewrite (bind_returned _ _ _ _ _ (dbCall_up w Hup)). reflexivity.
Qed.

Lemma userRepository_update_up (id customerId : string) (w : World) :
  dbFailAfter w = None ->
  userRepository_update id customerId w
  = (Returned tt,
     setDb w (setUsers (db w)
                (map (fun u => if hasUserId id u
                               then {| user_id := user_id u;
                                       stripeCustomerId := Some customerId |}
                               else u)
                     (users (db w))))).
Proof.
  intros Hup. unfold userRepository_update.
  rewrite (bind_returned _ _ _ _ _ (dbCall_up w Hup)). reflexivity.
Qed.

(** After the update the user of the id is the first one that carries the
    customer id, when no user carried it before. *)
Lemma find_linked_by_customer (id customerId : string) (u : UserEntity)
  (rows : list UserEntity) :
  (forall other, In other rows -> hasCustomer customerId other = false) ->
  find (hasUserId id) rows = Some u ->
  exists linked,
    find (hasCustomer customerId)
      (map (fun u => if hasUserId id u
                     then {| user_id := user_id u;
                             stripeCustomerId := Some customerId |}
                     else u) rows) = Some linked
    /\ user_id linked = id.
Proof.
  induction rows as [|a rows IH]; intros Hfree Hfind; [ discriminate Hfind | ].
  cbn [find map] in *. destruct (hasUserId id a) eqn:Ha.
  - eexists. unfold hasCustomer at 1. cbn [stripeCustomerId].
    rewrite String.eqb_refl. split; [ reflexivity | ].
    cbn [user_id]. apply String.eqb_eq. exact Ha.
  - rewrite (Hfree a (or_introl eq_refl)).
    apply IH; [ | exact Hfind ].
    intros other Hin. apply Hfree. right. exact Hin.
Qed.

Lemma find_linked_by_id (id customerId : string) (u : UserEntity)
  (rows : list UserEntity) :
  find (hasUserId id) rows = Some u ->
  find (hasUserId id)
    (map (fun u => if hasUserId id u
                   then {| user_id := user_id u;
                           stripeCustomerId := Some customerId |}
                   else u) rows)
  = Some {| user_id := user_id u; stripeCustomerId := Some customerId |}.
Proof.
  induction rows as [|a rows IH]; intros Hfind; [ discriminate Hfind | ].
  cbn [find map] in *. destruct (hasUserId id a) eqn:Ha.
  - injection Hfind as ->.
    change (hasUserId id {| user_id := user_id u;
                            stripeCustomerId := Some customerId |})
      with (hasUserId id u).
    rewrite Ha. reflexivity.
  - rewrite Ha. apply IH. exact Hfind.
Qed.

Lemma map_unlinked (id customerId : string) (rows : list UserEntity) :
  find (hasUserId id) rows = None ->
  map (fun u => if hasUserId id u
                then {| user_id := user_id u;
                        stripeCustomerId := Some customerId |}
                else u) rows = rows.
Proof.
  induction rows as [|a rows IH]; intros Hfind; [ reflexivity | ].
  cbn [find map] in *. destruct (hasUserId id a); [ discriminate Hfind | ].
  rewrite (IH Hfind). reflexivity.
Qed.

Lemma setDb_same (w : World) : setDb w (db w) = w.
Proof. destruct w. reflexivity. Qed.

Lemma setUsers_same (d : Database) : setUsers d (users d) = d.
Proof. destruct d. reflexivity. Qed.

(** The run of [createCustomerForUserData] for a user without customer. *)
Lemma createCustomerForUserData_new (svc : StripeService) (userData : UserData)
  (name : option string) (w : World) (customer : Customer) :
  isConfigured svc = true ->
  dbFailAfter w = None ->
  existingCustomerOf (find (hasUserId (ud_id userData)) (users (db w))) = None ->
  customers_create (stripe svc) (customerParams userData name)
  = Returned customer ->
  createCustomerForUserData svc userData name w
  = (Returned (cus_id customer),
     setDb w (setUsers (db w)
                (map (fun u => if hasUserId (ud_id userData) u
                               then {| user_id := user_id u;
                                       stripeCustomerId := Some (cus_id customer) |}
                               else u)
                     (users (db w))))).
Proof.
  intros Hon Hup Hnone Hsdk. unfold createCustomerForUserData.
  rewrite Hon. cbn [negb].
  rewrite (bind_returned _ _ _ _ _ (userRepository_findOneById_up _ w Hup)).
  rewrite Hnone, Hsdk.
  rewrite (bind_returned (liftOutcome (Returned customer)) _ w w customer eq_refl).
  rewrite (bind_returned _ _ _ _ _ (userRepository_update_up _ _ w Hup)).
  reflexivity.
Qed.

Lemma createCustomerForUserData_existing (svc : StripeService)
  (userData : UserData) (name : option string) (w : World) (existing : string) :
  isConfigured svc = true ->
  dbFailAfter w = None ->
  existingCustomerOf (find (hasUserId (ud_id userData)) (users (db w)))
  = Some existing ->
  createCustomerForUserData svc userData name w = (Returned existing, w).
Proof.
  intros Hon Hup Hsome. unfold createCustomerForUserData.
  rewrite Hon. cbn [negb].
  rewrite (bind_returned _ _ _ _ _ (userRepository_findOneById_up _ w Hup)).
  rewrite Hsome. reflexivity.
Qed.

(** X18: [createCustomerForUserData] creates the customer of a user once
    and links it.  For a stored user without customer id, with the service
    configured and the database up, when Stripe answers the request with a
    customer whose id no local user carries, the call returns that id and
    stores it on the user, changing nothing else.  From then on the lookup
    by customer id that the webhook handlers use finds this user, and
    every further call for the user returns the same id without asking
    Stripe and without changing anything, whatever [name] it is given. *)
Theorem customer_created_once_and_linked (svc : StripeService)
  (userData : UserData) (name : option string) (w : World)
  (u : UserEntity) (customer : Customer) :
  isConfigured svc = true ->
  dbFailAfter w = None ->
  find (hasUserId (ud_id userData)) (users (db w)) = Some u ->
  truthyString (stripeCustomerId u) = false ->
  customers_create (stripe svc) (customerParams userData name)
  = Returned customer ->
  cus_id customer <> "" ->
  (forall other, In other (users (db w)) ->
                 hasCustomer (cus_id customer) other = false) ->
  exists w',
    createCustomerForUserData svc userData name w
    = (Returned (cus_id customer), w')
    /\ find (hasUserId (ud_id userData)) (users (db w'))
       = Some {| user_id := user_id u;
                 stripeCustomerId := Some (cus_id customer) |}
    /\ (paymentMethods (db w') = paymentMethods (db w)
        /\ transactions (db w') = transactions (db w)
        /\ webhookEvents (db w') = webhookEvents (db w)
        /\ subscriptions (db w') = subscriptions (db w)
        /\ map user_id (users (db w')) = map user_id (users (db w)))
    /\ (exists linked,
          userRepository_findOne (cus_id customer) w'
          = (Returned (Some linked), w')
          /\ user_id linked = ud_id userData)
    /\ (forall (other : StripeService) (again : option string),
          isConfigured other = true ->
          createCustomerForUserData other userData again w'
          = (Returned (cus_id customer), w')).
Proof.
  intros Hon Hup Hfind Hfalsy Hsdk Hid Hfree.
  assert (Hnone : existingCustomerOf
                    (find (hasUserId (ud_id userData)) (users (db w))) = None).
  { rewrite Hfind. unfold existingCustomerOf. rewrite Hfalsy. reflexivity. }
  eexists. split.
  { apply (createCustomerForUserData_new svc userData name w customer);
      assumption. }
  set (w' := setDb w _).
  assert (Hup' : dbFailAfter w' = None) by exact Hup.
  assert (Hlinked : find (hasUserId (ud_id userData)) (users (db w'))
                    = Some {| user_id := user_id u;
                              stripeCustomerId := Some (cus_id customer) |}).
  { exact (find_linked_by_id _ _ _ _ Hfind). }
  split; [ exact Hlinked | ].
  split.
  { repeat split; try reflexivity.
    unfold w'. cbn [db setDb users setUsers].
    rewrite map_map. apply map_ext. intros a.
    destruct (hasUserId (ud_id userData) a); reflexivity. }
  split.
  - destruct (find_linked_by_customer _ _ _ _ Hfree Hfind)
      as (linked & Hfound & Hsame).
    exists linked. split; [ | exact Hsame ].
    rewrite (userRepository_findOne_up _ w' Hup').
    unfold w'. cbn [db setDb users setUsers]. rewrite Hfound. reflexivity.
  - intros other again Hother.
    apply createCustomerForUserData_existing; [ exact Hother | exact Hup' | ].
    rewrite Hlinked. unfold existingCustomerOf, truthyString.
    cbn [stripeCustomerId].
    apply String.eqb_neq in Hid. rewrite Hid. reflexivity.
Qed.

Lemma customer_created_once_and_linked_witness :
  exists w',
    createCustomerForUserData Sample.service Sample.bobData (Some "Bob")
      Sample.worldWithBob
    = (Returned "cus_2", w')
    /\ find (hasUserId "user_2") (users (db w'))
       = Some {| user_id := "user_2"; stripeCustomerId := Some "cus_2" |}
    /\ (paymentMethods (db w') = paymentMethods (db Sample.worldWithBob)
        /\ transactions (db w') = transactions (db Sample.worldWithBob)
        /\ webhookEvents (db w') = webhookEvents (db Sample.worldWithBob)
        /\ subscriptions (db w') = subscriptions (db Sample.worldWithBob)
        /\ map user_id (users (db w'))
           = map user_id (users (db Sample.worldWithBob)))
    /\ (exists linked,
          userRepository_findOne "cus_2" w' = (Returned (Some linked), w')
          /\ user_id linked = "user_2")
    /\ (forall (other : StripeService) (again : option string),
          isConfigured other = true ->
          createCustomerForUserData other Sample.bobData again w'
          = (Returned "cus_2", w')).
Proof.
  apply (customer_created_once_and_linked Sample.service Sample.bobData
           (Some "Bob") Sample.worldWithBob Sample.bob {| cus_id := "cus_2" |});
    try reflexivity.
  - discriminate.
  - intros other [<- | [<- | []]]; reflexivity.
Defined.

(** X19: for an id that no stored user has, [createCustomerForUserData]
    still creates a customer in Stripe and returns its id, but stores it
    nowhere: the database is left as it was, so the next call for the
    same id asks Stripe for another customer. *)
Theorem customer_of_unknown_user_not_stored (svc : StripeService)
  (userData : UserData) (name : option string) (w : World)
  (customer : Customer) :
  isConfigured svc = true ->
  dbFailAfter w = None ->
  find (hasUserId (ud_id userData)) (users (db w)) = None ->
  customers_create (stripe svc) (customerParams userData name)
  = Returned customer ->
  createCustomerForUserData svc userData name w = (Returned (cus_id customer), w).
Proof.
  intros Hon Hup Hfind Hsdk.
  rewrite (createCustomerForUserData_new svc userData name w customer Hon Hup);
    [ | rewrite Hfind; reflexivity | exact Hsdk ].
  rewrite (map_unlinked _ _ _ Hfind), setUsers_same, setDb_same. reflexivity.
Qed.

Lemma customer_of_unknown_user_not_stored_witness :
  createCustomerForUserData Sample.service Sample.bobData None
    (Sample.world false [] [])
  = (Returned "cus_2", Sample.world false [] []).
Proof.
  exact (customer_of_unknown_user_not_stored Sample.service Sample.bobData None
           (Sample.world false [] []) {| cus_id := "cus_2" |}
           eq_refl eq_refl eq_refl eq_refl).
Defined.

(** X20: the [name] argument of [createCustomerForUserData] never
    reaches Stripe.  Two calls that differ only in a non-empty [name]
    behave alike in every world and with every SDK: the name that is sent
    is built from [firstName] and [lastName] alone.  A [name] given for a
    user without first and last name makes the customer name the text
    [null]. *)
Theorem customer_name_ignores_name_argument (svc : StripeService)
  (userData : UserData) (name1 name2 : option string) (w : World) :
  truthyString name1 = truthyString name2 ->
  createCustomerForUserData svc userData name1 w
  = createCustomerForUserData svc userData name2 w
  /\ (truthyString name1 = true ->
      ud_firstName userData = None ->
      truthyString (ud_lastName userData) = false ->
      ccp_name (customerParams userData name1) = Some "null").
Proof.
  intros Hsame. split.
  - unfold createCustomerForUserData, customerParams. rewrite Hsame. reflexivity.
  - intros Hgiven Hfirst Hlast. unfold customerParams. cbn [ccp_name].
    rewrite Hgiven, Hfirst. cbn [orb templateText].
    assert (Hempty : orString (ud_lastName userData) "" = "").
    { unfold orString. destruct (ud_lastName userData) as [l|]; [ | reflexivity ].
      destruct (l =? "") eqn:Hl; [ reflexivity | ].
      unfold truthyString in Hlast. rewrite Hl in Hlast. discriminate Hlast. }
    rewrite Hempty. reflexivity.
Qed.

Lemma customer_name_ignores_name_argument_witness :
  createCustomerForUserData Sample.service Sample.bobData (Some "Bob")
    Sample.worldWithBob
  = createCustomerForUserData Sample.service Sample.bobData (Some "Robert")
      Sample.worldWithBob
  /\ (truthyString (Some "Bob") = true ->
      ud_firstName Sample.bobData = None ->
      truthyString (ud_lastName Sample.bobData) = false ->
      ccp_name (customerParams Sample.bobData (Some "Bob")) = Some "null").
Proof.
  exact (customer_name_ignores_name_argument Sample.service Sample.bobData
           (Some "Bob") (Some "Robert") Sample.worldWithBob eq_refl).
Defined.

(* ================================================================== *)
(** ** The controller: the transaction history of a user *)

(** X21: the controller asks the service for the transactions of a user
    only with a limit from 1 to 100.  With the service configured, a
    request is either refused with status 400 without any call of the
    service (the user id does not start with a number, or the limit is
    not a number from 1 to 100), or the service is called once, with the
    user id as it was received and a limit [n] with [1 <= n <= 100], which
    is 50 when no limit or an empty one is given; an error of the service
    is answered with status 500.  Without configuration every request is
    refused with status 503. *)
Theorem transactions_limit_between_1_and_100 {A B : Type}
  (svc : StripeService) (view : A -> B) (userId : string)
  (limit : option string) :
  (isConfigured svc = false ->
   forall fetch,
     getUserTransactions svc fetch view userId limit
     = inl {| http_response := "Payment service is not available";
              http_status := 503 |})
  /\ (isConfigured svc = true ->
      (exists refusal,
          http_status refusal = 400%Z
          /\ forall fetch,
               getUserTransactions svc fetch view userId limit = inl refusal)
      \/ (exists n,
            (1 <= n <= 100)%Z
            /\ (truthyString limit = false -> n = 50%Z)
            /\ parseInt10 userId <> None
            /\ forall fetch,
                 getUserTransactions svc fetch view userId limit
                 = match fetch userId n with
                   | Returned transactions => inr (map view transactions)
                   | Thrown _ =>
                       inl {| http_response := "Failed to retrieve transactions";
                              http_status := 500 |}
                   end)).
Proof.
  unfold getUserTransactions. split.
  - intros -> fetch. reflexivity.
  - intros ->. cbn [negb].
    destruct (parseInt10 userId) as [uid|].
    2:{ left. eexists. split; [ | intros fetch; reflexivity ]. reflexivity. }
    cbv zeta.
    destruct (if truthyString limit then parseInt10 (orString limit "")
              else Some 50%Z) as [n|] eqn:Hlimit.
    2:{ left. eexists. split; [ | intros fetch; reflexivity ]. reflexivity. }
    destruct ((n <? 1)%Z || (n >? 100)%Z) eqn:Hrange.
    { left. eexists. split; [ | intros fetch; reflexivity ]. reflexivity. }
    right. exists n.
    apply orb_false_iff in Hrange as [Hlow Hhigh].
    apply Z.ltb_ge in Hlow. rewrite Z.gtb_ltb in Hhigh. apply Z.ltb_ge in Hhigh.
    split; [ lia | ]. split.
    + intros Hnone. rewrite Hnone in Hlimit. injection Hlimit as <-. reflexivity.
    + split; [ discriminate | ].
      intros fetch. destruct (fetch userId n); reflexivity.
Qed.

Lemma transactions_limit_between_1_and_100_witness :
  (exists refusal,
      http_status refusal = 400%Z
      /\ forall fetch : string -> Z -> Outcome (list StripeTransactionEntity),
           getUserTransactions Sample.service fetch tx_amount "12abc"
             (Some " 101")
           = inl refusal)
  \/ (exists n,
        (1 <= n <= 100)%Z
        /\ (truthyString (Some " 101") = false -> n = 50%Z)
        /\ parseInt10 "12abc" <> None
        /\ forall fetch : string -> Z -> Outcome (list StripeTransactionEntity),
             getUserTransactions Sample.service fetch tx_amount "12abc"
               (Some " 101")
             = match fetch "12abc" n with
               | Returned transactions => inr (map tx_amount transactions)
               | Thrown _ =>
                   inl {| http_response := "Failed to retrieve transactions";
                          http_status := 500 |}
               end).
Proof.
  exact (proj2 (transactions_limit_between_1_and_100 Sample.service
                  tx_amount "12abc" (Some " 101")) eq_refl).
Defined.

(* ================================================================== *)
(** ** The life of a subscription row *)

Lemma handleSubscriptionCreated_linked_up (subscription : Subscription)
  (w : World) (user : UserEntity) :
  dbFailAfter w = None ->
  find (hasCustomer (refId (s_customer subscription))) (users (db w)) = Some user ->
  createDatesConvert subscription = true ->
  exists w' ps pe ts te,
    handleSubscriptionCreated subscription w = (Returned tt, w')
    /\ subscriptions (db w') =
         (subscriptions (db w)
            ++ [withKey (nextKey (subscriptions (db w)))
                  (newUserSubscription subscription user ps pe ts te)])%list
    /\ dbFailAfter w' = None.
Proof.
  intros Hup Huser Hdates.
  unfold createDatesConvert in Hdates.
  apply andb_prop in Hdates. destruct Hdates as [Hdates Hte].
  apply andb_prop in Hdates. destruct Hdates as [Hdates Hts].
  apply andb_prop in Hdates. destruct Hdates as [Hps Hpe].
  apply returns_inv in Hps, Hpe, Hts, Hte.
  destruct Hps as [ps Hps]. destruct Hpe as [pe Hpe].
  destruct Hts as [ts Hts]. destruct Hte as [te Hte].
  set (w1 := setCalls w (HSubscriptionCreated :: calls w)).
  assert (Huser1 : find (hasCustomer (refId (s_customer subscription)))
                        (users (db w1)) = Some user) by exact Huser.
  eexists. exists ps, pe, ts, te.
  split; [ | split ].
  - unfold handleSubscriptionCreated.
    rewrite (bind_returned (enter HSubscriptionCreated) _ w w1 tt eq_refl).
    cbv zeta.
    rewrite (bind_returned _ _ _ _ _
               (userRepository_findOne_up _ w1 Hup)).
    rewrite Huser1. unfold liftOutcome.
    rewrite (bind_returned _ _ w1 w1 ps) by (rewrite Hps; reflexivity).
    rewrite (bind_returned _ _ w1 w1 pe) by (rewrite Hpe; reflexivity).
    rewrite (bind_returned _ _ w1 w1 ts) by (rewrite Hts; reflexivity).
    rewrite (bind_returned _ _ w1 w1 te) by (rewrite Hte; reflexivity).
    exact (subscriptionRepository_save_new
             (newUserSubscription subscription user ps pe ts te) w1 Hup eq_refl).
  - reflexivity.
  - exact Hup.
Qed.

Lemma find_appended (sid : string) (rows : list UserSubscriptionEntity)
  (r : UserSubscriptionEntity) :
  find (hasSubscriptionId sid) rows = None ->
  hasSubscriptionId sid r = true ->
  find (hasSubscriptionId sid) (rows ++ [r])%list = Some r.
Proof.
  intros Hnone Hr. induction rows as [|a rows IH]; cbn [find app] in *.
  - rewrite Hr. reflexivity.
  - destruct (hasSubscriptionId sid a); [ discriminate Hnone | ].
    apply IH. exact Hnone.
Qed.

Lemma nextKey_above (rows : list UserSubscriptionEntity)
  (r : UserSubscriptionEntity) (i : nat) :
  In r rows -> sub_id r = Some i -> (i < nextKey rows)%nat.
Proof.
  induction rows as [|a rows IH]; intros Hin Hi; [ destruct Hin | ].
  cbn [nextKey fold_right]. fold (nextKey rows).
  destruct Hin as [-> | Hin].
  - rewrite Hi. lia.
  - specialize (IH Hin Hi). destruct (sub_id a); lia.
Qed.

Lemma keyed_appended (rows : list UserSubscriptionEntity)
  (r : UserSubscriptionEntity) :
  keyed rows ->
  keyed (rows ++ [withKey (nextKey rows) r])%list.
Proof.
  intros [Hnodup Hkeys]. split.
  - rewrite map_app. cbn [map withKey sub_id].
    apply NoDup_app.
    + exact Hnodup.
    + constructor; [ intros [] | constructor ].
    + intros key Hin [Hlast | []]. subst key.
      apply in_map_iff in Hin as (a & Ha & Hin).
      pose proof (nextKey_above rows a _ Hin Ha). lia.
  - apply Forall_app. split; [ exact Hkeys | ].
    constructor; [ discriminate | constructor ].
Qed.

(** X22: a subscription that the created event stores is the one that
    later events act on.  For a created event of a linked customer, with
    converting dates, the database up and no row of the Stripe id stored,
    the handler returns and the lookup by the Stripe id then finds the new
    row: it belongs to the user linked to the customer, has the mapped
    status and no failed payment.  A deleted event for the same Stripe id
    that follows returns and leaves that row CANCELED, with the same
    owner and with [canceledAt] and [endedAt] set. *)
Theorem created_subscription_is_found_and_canceled
  (created deleted : Subscription) (w : World) (user : UserEntity) :
  dbFailAfter w = None ->
  keyed (subscriptions (db w)) ->
  find (hasCustomer (refId (s_customer created))) (users (db w)) = Some user ->
  createDatesConvert created = true ->
  storedSubscription (s_id created) w = None ->
  s_id deleted = s_id created ->
  exists w1 w2 row final,
    handleSubscriptionCreated created w = (Returned tt, w1)
    /\ storedSubscription (s_id created) w1 = Some row
    /\ sub_userId row = user_id user
    /\ sub_status row = mapStripeSubscriptionStatus (s_status created)
    /\ sub_failedPaymentCount row = 0%Z
    /\ handleSubscriptionDeleted deleted w1 = (Returned tt, w2)
    /\ storedSubscription (s_id created) w2 = Some final
    /\ sub_status final = SubscriptionStatus.CANCELED
    /\ sub_userId final = user_id user
    /\ sub_canceledAt final <> None
    /\ sub_endedAt final <> None.
Proof.
  intros Hup Hkeyed Huser Hdates Hfresh Hsame.
  destruct (handleSubscriptionCreated_linked_up created w user Hup Huser Hdates)
    as (w1 & ps & pe & ts & te & Hrun1 & Hrows1 & Hup1).
  set (row := withKey (nextKey (subscriptions (db w)))
                (newUserSubscription created user ps pe ts te)) in *.
  assert (Hfound1 : storedSubscription (s_id created) w1 = Some row).
  { unfold storedSubscription in *. rewrite Hrows1.
    apply find_appended; [ exact Hfresh | ].
    unfold hasSubscriptionId, row. cbn [withKey newUserSubscription
                                         sub_stripeSubscriptionId].
    apply String.eqb_refl. }
  assert (Hkeyed1 : keyed (subscriptions (db w1))).
  { rewrite Hrows1. apply keyed_appended; assumption. }
  assert (Hfound1' : storedSubscription (s_id deleted) w1 = Some row)
    by (rewrite Hsame; exact Hfound1).
  destruct (handleSubscriptionDeleted_stored deleted w1 row Hup1 Hkeyed1 Hfound1')
    as (w2 & Hrun2 & Hfound2).
  rewrite Hsame in Hfound2.
  exists w1, w2, row. eexists.
  split; [ exact Hrun1 | ].
  split; [ exact Hfound1 | ].
  split; [ reflexivity | ].
  split; [ reflexivity | ].
  split; [ reflexivity | ].
  split; [ exact Hrun2 | ].
  split; [ exact Hfound2 | ].
  repeat split; try reflexivity; discriminate.
Qed.

Lemma created_subscription_is_found_and_canceled_witness :
  exists w1 w2 row final,
    handleSubscriptionCreated (Sample.subscriptionWithItem VNull)
      (Sample.world false [] [])
    = (Returned tt, w1)
    /\ storedSubscription (s_id (Sample.subscriptionWithItem VNull)) w1
       = Some row
    /\ sub_userId row = user_id Sample.alice
    /\ sub_status row
       = mapStripeSubscriptionStatus
           (s_status (Sample.subscriptionWithItem VNull))
    /\ sub_failedPaymentCount row = 0%Z
    /\ handleSubscriptionDeleted (Sample.subscription "canceled" VNull) w1
       = (Returned tt, w2)
    /\ storedSubscription (s_id (Sample.subscriptionWithItem VNull)) w2
       = Some final
    /\ sub_status final = SubscriptionStatus.CANCELED
    /\ sub_userId final = user_id Sample.alice
    /\ sub_canceledAt final <> None
    /\ sub_endedAt final <> None.
Proof.
  apply (created_subscription_is_found_and_canceled
           (Sample.subscriptionWithItem VNull)
           (Sample.subscription "canceled" VNull)
           (Sample.world false [] []) Sample.alice);
    try reflexivity.
  split; constructor.
Defined.
